(** * mqtt_discoverystream: the state publisher and the command decoder

    A shallow embedding of [custom_components/mqtt_discoverystream/__init__.py]:
    the two coroutines [_state_publisher] and [_message_received] defined in
    [async_setup], with the Python values, dictionaries, exceptions and the
    calls to the MQTT transport and to the service dispatcher they use. *)

From Stdlib Require Import String Ascii List Bool ZArith QArith Lia Permutation.
Import ListNotations.
Local Close Scope Q_scope.
Local Open Scope string_scope.
Local Open Scope list_scope.

(** ** Values

    Attribute values, payload fields and configuration entries are the values
    Python's [json] module reads and writes.  Numbers are carried around
    verbatim and never computed on, so a rational covers both [int] and
    [float].  A tuple or a set (as handed over by the state machine and the
    device registry) is written as the list [json.dumps] turns it into. *)

#[local] Unset Elimination Schemes.
Inductive json : Type :=
| JNull
| JBool (b : bool)
| JNum (q : Q)
| JStr (s : string)
| JArr (l : list json)
| JObj (o : list (string * json)).
#[local] Set Elimination Schemes.

(** A Python [dict] with string keys, in insertion order. *)
Definition dict : Type := list (string * json).

Module Dict.

Fixpoint get (k : string) (d : dict) : option json :=
  match d with
  | [] => None
  | (k', v) :: d' => if String.eqb k k' then Some v else get k d'
  end.

(** [k in d] *)
Definition mem (k : string) (d : dict) : bool :=
  match get k d with Some _ => true | None => false end.

(** [d[k] = v]: an existing key keeps its position, a new one goes last. *)
Fixpoint set (k : string) (v : json) (d : dict) : dict :=
  match d with
  | [] => [(k, v)]
  | (k', v') :: d' =>
      if String.eqb k k' then (k', v) :: d' else (k', v') :: set k v d'
  end.

(** [del d[k]] for a key that is present. *)
Fixpoint del (k : string) (d : dict) : dict :=
  match d with
  | [] => []
  | (k', v') :: d' => if String.eqb k k' then d' else (k', v') :: del k d'
  end.

Definition keys (d : dict) : list string := map fst d.

End Dict.

(** ** Strings *)

(** [s.replace(a, b)] for single characters. *)
Fixpoint replace_char (a b : ascii) (s : string) : string :=
  match s with
  | EmptyString => EmptyString
  | String c s' => String (if Ascii.eqb c a then b else c) (replace_char a b s')
  end.

(** [s.split(sep)] for a single-character separator: never the empty list. *)
Fixpoint split_char (sep : ascii) (s : string) : list string :=
  match s with
  | EmptyString => [EmptyString]
  | String c s' =>
      if Ascii.eqb c sep then EmptyString :: split_char sep s'
      else match split_char sep s' with
           | [] => [String c EmptyString]
           | w :: ws => String c w :: ws
           end
  end.

(** [sub in s] on strings. *)
Definition is_substring (sub s : string) : bool :=
  match sub with
  | EmptyString => true
  | _ => match String.index 0 sub s with Some _ => true | None => false end
  end.

Definition mem_string (x : string) (l : list string) : bool :=
  existsb (String.eqb x) l.

(** ** Exceptions *)

Inductive exn : Type :=
| KeyError (k : json)
| IndexError
| TypeError
| AttributeError
| JSONDecodeError.

Definition result (A : Type) : Type := (exn + A)%type.

(** [v == s] for a string literal [s]. *)
Definition json_eq_str (v : json) (s : string) : bool :=
  match v with
  | JStr s' => String.eqb s' s
  | _ => false
  end.

(** [k in v] for a string [k]: key of a dict, element of a list, substring of
    a string; anything else is not iterable. *)
Definition py_in (k : string) (v : json) : result bool :=
  match v with
  | JObj o => inr (Dict.mem k o)
  | JArr l => inr (existsb (fun x => json_eq_str x k) l)
  | JStr s => inr (is_substring k s)
  | _ => inl TypeError
  end.

(** [v[k]] for a string [k]. *)
Definition py_getitem (v : json) (k : string) : result json :=
  match v with
  | JObj o => match Dict.get k o with Some x => inr x | None => inl (KeyError (JStr k)) end
  | _ => inl TypeError
  end.

Definition string_nth (i : nat) (s : string) : option string :=
  match String.get i s with
  | Some c => Some (String c EmptyString)
  | None => None
  end.

(** [v[i]] for a literal index [i]. *)
Definition py_index (v : json) (i : nat) : result json :=
  match v with
  | JArr l => match nth_error l i with Some x => inr x | None => inl IndexError end
  | JStr s => match string_nth i s with Some c => inr (JStr c) | None => inl IndexError end
  | JObj _ => inl (KeyError (JNum (inject_Z (Z.of_nat i))))
  | _ => inl TypeError
  end.

(** [l.remove(s)] on a list: the first element equal to [s] goes. *)
Fixpoint remove_first (s : string) (l : list json) : list json :=
  match l with
  | [] => []
  | x :: l' => if json_eq_str x s then l' else x :: remove_first s l'
  end.

(** ** Effects

    A coroutine of the source reads and writes shared objects, calls the
    outside world and may raise.  [M S E A] threads a store [S], collects the
    outside calls [E] in order, and ends in a value or an exception; what was
    emitted and stored before an exception stays. *)

Definition M (S E A : Type) : Type := S -> list E * S * result A.

Definition ret {S E A} (a : A) : M S E A := fun s => ([], s, inr a).

Definition bind {S E A B} (m : M S E A) (k : A -> M S E B) : M S E B :=
  fun s =>
    match m s with
    | (out, s1, inl e) => (out, s1, inl e)
    | (out, s1, inr a) =>
        match k a s1 with
        | (out2, s2, r) => (out ++ out2, s2, r)
        end
    end.

Definition raise {S E A} (e : exn) : M S E A := fun s => ([], s, inl e).

Definition emit {S E} (ev : E) : M S E unit := fun s => ([ev], s, inr tt).

Definition get {S E} : M S E S := fun s => ([], s, inr s).

Definition put {S E} (s : S) : M S E unit := fun _ => ([], s, inr tt).

Definition lift {S E A} (r : result A) : M S E A := fun s => ([], s, r).

Declare Scope m_scope.
Delimit Scope m_scope with m.
Notation "x <- m ;; k" := (bind m (fun x => k))
  (at level 61, m at next level, right associativity) : m_scope.
Notation "m ;; k" := (bind m (fun _ => k))
  (at level 61, right associativity) : m_scope.

(** [for x in l: body x] *)
Fixpoint for_each {S E A} (l : list A) (body : A -> M S E unit) : M S E unit :=
  match l with
  | [] => ret tt
  | x :: l' => bind (body x) (fun _ => for_each l' body)
  end.

Definition output {S E A} (r : list E * S * result A) : list E := fst (fst r).
Definition store {S E A} (r : list E * S * result A) : S := snd (fst r).
Definition outcome {S E A} (r : list E * S * result A) : result A := snd r.

(** Exceptions alone, for the parts of the source that touch no shared object. *)
Definition rbind {A B} (r : result A) (k : A -> result B) : result B :=
  match r with
  | inl e => inl e
  | inr a => k a
  end.

Notation "'let*' x := r 'in' k" := (rbind r (fun x => k))
  (at level 10, x name, r at level 100, k at level 200).

(** ** Constants

    [const.py], and the constants the source imports from
    [homeassistant.const] and [homeassistant.components.light]. *)

Definition ATTR_COLOR := "color".
Definition ATTR_H := "h".
Definition ATTR_S := "s".
Definition ATTR_X := "x".
Definition ATTR_Y := "y".
Definition ATTR_R := "r".
Definition ATTR_G := "g".
Definition ATTR_B := "b".

Definition ATTR_BRIGHTNESS := "brightness".
Definition ATTR_COLOR_TEMP := "color_temp".
Definition ATTR_HS_COLOR := "hs_color".
Definition ATTR_RGB_COLOR := "rgb_color".
Definition ATTR_TRANSITION := "transition".
Definition ATTR_XY_COLOR := "xy_color".
Definition SUPPORT_BRIGHTNESS : Z := 1.
Definition SUPPORT_EFFECT : Z := 4.
Definition ATTR_ENTITY_ID := "entity_id".
Definition SERVICE_TURN_OFF := "turn_off".
Definition SERVICE_TURN_ON := "turn_on".
Definition STATE_OFF := "off".
Definition STATE_ON := "on".
Definition STATE_UNAVAILABLE := "unavailable".
Definition STATE_UNKNOWN := "unknown".

(** ** The data the coroutines work on *)

(** A state object of the state machine ([new_state]); the two timestamps are
    kept as their [isoformat()] text. *)
Record State : Type := mkState {
  state : option string;
  attributes : dict;
  last_updated : option string;
  last_changed : option string
}.

(** The variables [async_setup] computes from the configuration and that the
    two coroutines close over. *)
Record Conf : Type := mkConf {
  publish_filter : string -> bool;
  has_includes : bool;
  base_topic : string;
  discovery_topic : string;
  publish_attributes : bool;
  publish_timestamps : bool;
  publish_discovery : bool
}.

Record DeviceEntry : Type := mkDevice {
  dev_id : string;
  manufacturer : option string;
  model : option string;
  dev_name : option string;
  sw_version : option string;
  identifiers : list (string * string);
  connections : list (string * string)
}.

Record RegistryEntry : Type := mkEntry {
  entry_entity_id : string;
  entry_device_id : option string
}.

(** What the coroutines ask of Home Assistant and of the Python library:
    [get_supported_features], the entity and device registries, [str.title]
    and [json.loads] ([None] where it raises). *)
Record Env : Type := mkEnv {
  get_supported_features : string -> Z;
  ent_reg : list RegistryEntry;
  dev_reg : list DeviceEntry;
  str_title : string -> string;
  json_loads : string -> option json
}.

(** ** Calls to the MQTT transport

    [mqtt.async_publish(topic, payload, qos, retain)].  [pub_site] names the
    call in the source that made the publish; the transport does not see it. *)

Inductive site : Type :=
| SiteLastUpdated
| SiteLastChanged
| SiteAttribute
| SiteConfig
| SiteState
| SiteAvailability
| SiteAttributes.

(** A payload is a text, [None], or the text [json.dumps] makes of a value. *)
Inductive payload : Type :=
| PText (s : string)
| PNone
| PJson (v : json).

Record publish : Type := mkPublish {
  pub_site : site;
  pub_topic : string;
  pub_payload : payload;
  pub_qos : Z;
  pub_retain : bool
}.

Definition site_eqb (a b : site) : bool :=
  match a, b with
  | SiteLastUpdated, SiteLastUpdated
  | SiteLastChanged, SiteLastChanged
  | SiteAttribute, SiteAttribute
  | SiteConfig, SiteConfig
  | SiteState, SiteState
  | SiteAvailability, SiteAvailability
  | SiteAttributes, SiteAttributes => true
  | _, _ => false
  end.

Definition at_site (s : site) (p : publish) : bool := site_eqb (pub_site p) s.

(** What [_state_publisher] shares with the rest of the process: the list
    [hass.data[DOMAIN][discovery_topic]["conf_published"]], and the state
    object [new_state] it is handed, which the state machine keeps too. *)
Record world : Type := mkWorld {
  conf_published : list string;
  new_state : option State
}.

Definition P (A : Type) : Type := M world publish A.

Definition async_publish (s : site) (topic : string) (p : payload)
    (qos : Z) (retain : bool) : P unit :=
  emit (mkPublish s topic p qos retain).

Definition text_payload (s : option string) : payload :=
  match s with
  | Some t => PText t
  | None => PNone
  end.

(** [new_state.attributes] *)
Definition new_state_attributes : P dict :=
  fun w =>
    match new_state w with
    | Some s => ([], w, inr (attributes s))
    | None => ([], w, inl AttributeError)
    end.

(** The list [new_state.attributes[k]] changed in place to [v]. *)
Definition mutate_attribute (k : string) (v : json) : P unit :=
  fun w =>
    match new_state w with
    | Some s =>
        ([], mkWorld (conf_published w)
               (Some (mkState (state s) (Dict.set k v (attributes s))
                              (last_updated s) (last_changed s))),
         inr tt)
    | None => ([], w, inl AttributeError)
    end.

(** [d[k]] on a dictionary. *)
Definition dict_getitem (d : dict) (k : string) : result json :=
  py_getitem (JObj d) k.

(** Truth value of an optional string: [None] and the empty string are false. *)
Definition truthy (s : option string) : bool :=
  match s with
  | Some EmptyString => false
  | Some _ => true
  | None => false
  end.

(** ** [_state_publisher] *)

Section Publisher.

Variable env : Env.
Variable conf : Conf.

Local Open Scope m_scope.

(** [mybase = f"{base_topic}{entity_id.replace('.', '/')}/"] *)
Definition mybase_of (entity_id : string) : string :=
  base_topic conf ++ replace_char "." "/" entity_id ++ "/".

(** Lines 164-172: the two timestamp topics. *)
Definition publish_timestamps_step (mybase : string) (ns : State) : P unit :=
  if publish_timestamps conf then
    (match last_updated ns with
     | Some t => async_publish SiteLastUpdated (mybase ++ "last_updated") (PText t) 1 true
     | None => ret tt
     end) ;;
    (match last_changed ns with
     | Some t => async_publish SiteLastChanged (mybase ++ "last_changed") (PText t) 1 true
     | None => ret tt
     end)
  else ret tt.

(** Lines 174-177: one topic per attribute. *)
Definition publish_attributes_step (mybase : string) : P unit :=
  if publish_attributes conf then
    attrs <- new_state_attributes ;;
    for_each attrs (fun kv =>
      async_publish SiteAttribute (mybase ++ fst kv) (PJson (snd kv)) 1 true)
  else ret tt.

(** [if k in new_state.attributes: config[k'] = new_state.attributes[k]] *)
Definition copy_attribute (k k' : string) (attrs config : dict) : dict :=
  match Dict.get k attrs with
  | Some v => Dict.set k' v config
  | None => config
  end.

(** Lines 187-199. *)
Definition common_config (entity_id ent_id mybase : string) (attrs : dict) : dict :=
  let config :=
    [ ("uniq_id", JStr ("mqtt_" ++ entity_id));
      ("name", JStr (str_title env (replace_char "_" " " ent_id)));
      ("stat_t", JStr (mybase ++ "state"));
      ("json_attr_t", JStr (mybase ++ "attributes"));
      ("avty_t", JStr (mybase ++ "availability")) ] in
  let config := copy_attribute "device_class" "dev_cla" attrs config in
  let config := copy_attribute "unit_of_measurement" "unit_of_meas" attrs config in
  copy_attribute "state_class" "stat_cla" attrs config.

(** Lines 224-243: the climate branch.  [preset_modes] is the very list the
    attributes hold, and [remove] changes it in place. *)
Definition climate_config (mybase : string) (config : dict) : P (dict * bool) :=
  attrs <- new_state_attributes ;;
  let config := Dict.set "current_temperature_topic" (JStr (mybase ++ "attributes")) config in
  let config := Dict.set "current_temperature_template"
                  (JStr "{{ value_json.current_temperature }}") config in
  let config := copy_attribute "icon" "icon" attrs config in
  max_temp <- lift (dict_getitem attrs "max_temp") ;;
  let config := Dict.set "max_temp" max_temp config in
  min_temp <- lift (dict_getitem attrs "min_temp") ;;
  let config := Dict.set "min_temp" min_temp config in
  hvac_modes <- lift (dict_getitem attrs "hvac_modes") ;;
  let config := Dict.set "modes" hvac_modes config in
  let config := Dict.set "mode_state_topic" (JStr (mybase ++ "state")) config in
  preset_modes <- lift (dict_getitem attrs "preset_modes") ;;
  has_none <- lift (py_in "none" preset_modes) ;;
  preset_modes <-
    (if has_none : bool then
       match preset_modes with
       | JArr l =>
           let l' := JArr (remove_first "none" l) in
           mutate_attribute "preset_modes" l' ;; ret l'
       | _ => raise AttributeError
       end
     else ret preset_modes) ;;
  let config := Dict.set "preset_modes" preset_modes config in
  let config := Dict.set "preset_mode_command_topic" (JStr (mybase ++ "preset_command")) config in
  let config := Dict.set "preset_mode_state_topic" (JStr (mybase ++ "attributes")) config in
  let config := Dict.set "preset_mode_value_template" (JStr "{{ value_json.preset_mode }}") config in
  let config := Dict.set "temperature_state_topic" (JStr (mybase ++ "attributes")) config in
  let config := Dict.set "temperature_state_template" (JStr "{{ value_json.temperature }}") config in
  ret (config, true).

(** [if supported_features & flag] *)
Definition has_feature (features flag : Z) : bool :=
  negb (Z.eqb (Z.land features flag) 0).

(** Lines 246-261: the light branch. *)
Definition light_config (entity_id mybase : string) (attrs config : dict) : dict :=
  let config := Dict.del "json_attr_t" config in
  let config := Dict.set "cmd_t" (JStr (mybase ++ "set_light")) config in
  let config := Dict.set "schema" (JStr "json") config in
  let supported_features := get_supported_features env entity_id in
  let config := if has_feature supported_features SUPPORT_BRIGHTNESS
                then Dict.set "brightness" (JBool true) config else config in
  let config := if has_feature supported_features SUPPORT_EFFECT
                then Dict.set "effect" (JBool true) config else config in
  match Dict.get "supported_color_modes" attrs with
  | Some modes =>
      Dict.set "supported_color_modes" modes (Dict.set "color_mode" (JBool true) config)
  | None => config
  end.

(** Lines 201-261: the branch on the domain; the result is the
    configuration and the flag [publish_config]. *)
Definition domain_config (entity_id ent_domain mybase : string) (config : dict)
  : P (dict * bool) :=
  attrs <- new_state_attributes ;;
  if (ent_domain =? "sensor")
       && (has_includes conf || Dict.mem "device_class" attrs) then
    ret (config, true)
  else if (ent_domain =? "binary_sensor")
       && (has_includes conf || Dict.mem "device_class" attrs) then
    ret (Dict.set "pl_on" (JStr STATE_ON) (Dict.set "pl_off" (JStr STATE_OFF) config), true)
  else if ent_domain =? "switch" then
    ret (Dict.set "cmd_t" (JStr (mybase ++ "set"))
           (Dict.set "pl_on" (JStr STATE_ON) (Dict.set "pl_off" (JStr STATE_OFF) config)),
         true)
  else if ent_domain =? "device_tracker" then
    ret (config, true)
  else if ent_domain =? "climate" then
    climate_config mybase config
  else if ent_domain =? "light" then
    ret (light_config entity_id mybase attrs config, true)
  else
    ret (config, false).

Definition set_if_truthy (k : string) (v : option string) (d : dict) : dict :=
  match v with
  | Some s => if truthy v then Dict.set k (JStr s) d else d
  | None => d
  end.

(** Lines 270-282: [config["dev"]] for one device. *)
Definition device_block (device : DeviceEntry) : dict :=
  let dev := [] in
  let dev := set_if_truthy "mf" (manufacturer device) dev in
  let dev := set_if_truthy "mdl" (model device) dev in
  let dev := set_if_truthy "name" (dev_name device) dev in
  let dev := set_if_truthy "sw" (sw_version device) dev in
  let dev := match identifiers device with
             | [] => dev
             | ids => Dict.set "ids" (JArr (map (fun id => JStr (snd id)) ids)) dev
             end in
  match connections device with
  | [] => dev
  | cns => Dict.set "cns" (JArr (map (fun c => JArr [JStr (fst c); JStr (snd c)]) cns)) dev
  end.

Definition same_device (device : DeviceEntry) (entry : RegistryEntry) : bool :=
  match entry_device_id entry with
  | Some d => dev_id device =? d
  | None => false
  end.

(** Lines 264-282: the two loops over the registries. *)
Definition link_device (entity_id : string) (config : dict) : dict :=
  fold_left
    (fun config entry =>
       if negb (entry_entity_id entry =? entity_id) then config
       else fold_left
              (fun config device =>
                 if negb (same_device device entry) then config
                 else Dict.set "dev" (JObj (device_block device)) config)
              (dev_reg env) config)
    (ent_reg env) config.

Definition entity_disc_topic (entity_id : string) : string :=
  discovery_topic conf ++ replace_char "." "/" entity_id ++ "/config".

(** [conf_published.append(entity_id)] *)
Definition mark_published (entity_id : string) : P unit :=
  fun w => ([], mkWorld (conf_published w ++ [entity_id]) (new_state w), inr tt).

(** Lines 183-289. *)
Definition discovery_step (entity_id ent_domain ent_id mybase : string) : P unit :=
  w <- get ;;
  if publish_discovery conf && negb (mem_string entity_id (conf_published w)) then
    attrs <- new_state_attributes ;;
    let config := common_config entity_id ent_id mybase attrs in
    cp <- domain_config entity_id ent_domain mybase config ;;
    if snd cp : bool then
      let config := link_device entity_id (fst cp) in
      async_publish SiteConfig (entity_disc_topic entity_id) (PJson (JObj config))
        1 true ;;
      mark_published entity_id
    else ret tt
  else ret tt.

(** ["ON" if new_state.state == STATE_ON else "OFF"] *)
Definition light_state (st : option string) : string :=
  match st with
  | Some s => if s =? STATE_ON then "ON" else "OFF"
  | None => "OFF"
  end.

(** [new_state.state in (STATE_UNAVAILABLE, STATE_UNKNOWN, None)] *)
Definition state_is_offline (st : option string) : bool :=
  match st with
  | Some s => (s =? STATE_UNAVAILABLE) || (s =? STATE_UNKNOWN)
  | None => true
  end.

Definition availability_payload (st : option string) : string :=
  if state_is_offline st then "offline" else "online".

(** Lines 305-315: the [color] dictionary of the light payload. *)
Definition light_color (attrs : dict) : result dict :=
  let color : dict := [] in
  let* color :=
    (match Dict.get "hs_color" attrs with
     | Some hs =>
         let* h := py_index hs 0 in
         let color := Dict.set "h" h color in
         let* s := py_index hs 1 in
         inr (Dict.set "s" s color)
     | None => inr color
     end) in
  let* color :=
    (match Dict.get "xy_color" attrs with
     | Some xy =>
         let* x := py_index xy 0 in
         let color := Dict.set "x" x color in
         let* y := py_index xy 1 in
         inr (Dict.set "x" y color)
     | None => inr color
     end) in
  match Dict.get "rgb_color" attrs with
  | Some rgb =>
      let* r := py_index rgb 0 in
      let color := Dict.set "r" r color in
      let* g := py_index rgb 1 in
      let color := Dict.set "g" g color in
      let* b := py_index rgb 2 in
      inr (Dict.set "b" b color)
  | None => inr color
  end.

(** Lines 293-317: the JSON state payload of a light. *)
Definition light_payload (st : option string) (attrs : dict) : result dict :=
  let payload := [("state", JStr (light_state st))] in
  let payload := copy_attribute "brightness" "brightness" attrs payload in
  let payload := copy_attribute "color_mode" "color_mode" attrs payload in
  let payload := copy_attribute "color_temp" "color_temp" attrs payload in
  let payload := copy_attribute "effect" "effect" attrs payload in
  let* color := light_color attrs in
  match color with
  | [] => inr payload
  | _ => inr (Dict.set "color" (JObj color) payload)
  end.

(** Lines 340-342: [attributes[key] = val] for every item. *)
Definition copy_dict (attrs : dict) : dict :=
  fold_left (fun acc kv => Dict.set (fst kv) (snd kv) acc) attrs [].

(** Lines 291-347. *)
Definition state_step (ent_domain mybase : string) (ns : State) : P unit :=
  if publish_discovery conf then
    if ent_domain =? "light" then
      attrs <- new_state_attributes ;;
      payload <- lift (light_payload (state ns) attrs) ;;
      async_publish SiteState (mybase ++ "state") (PJson (JObj payload)) 1 true ;;
      async_publish SiteAvailability (mybase ++ "availability")
        (PText (availability_payload (state ns))) 1 true
    else
      async_publish SiteState (mybase ++ "state") (text_payload (state ns)) 1 true ;;
      async_publish SiteAvailability (mybase ++ "availability")
        (PText (availability_payload (state ns))) 1 true ;;
      attrs <- new_state_attributes ;;
      async_publish SiteAttributes (mybase ++ "attributes")
        (PJson (JObj (copy_dict attrs))) 1 true
  else
    async_publish SiteState (mybase ++ "state") (text_payload (state ns)) 1 true.

(** After the two early returns. *)
Definition publish_entity (entity_id : string) (ns : State) : P unit :=
  let mybase := mybase_of entity_id in
  publish_timestamps_step mybase ns ;;
  publish_attributes_step mybase ;;
  let ent_parts := split_char "." entity_id in
  ent_domain <- lift (match nth_error ent_parts 0 with
                      | Some d => inr d | None => inl IndexError end) ;;
  ent_id <- lift (match nth_error ent_parts 1 with
                  | Some d => inr d | None => inl IndexError end) ;;
  discovery_step entity_id ent_domain ent_id mybase ;;
  state_step ent_domain mybase ns.

(** [async def _state_publisher(entity_id, old_state, new_state)]; the
    object [new_state] is the one in the store. *)
Definition _state_publisher (entity_id : string) : P unit :=
  w <- get ;;
  match new_state w with
  | None => ret tt
  | Some ns =>
      if negb (publish_filter conf entity_id) then ret tt
      else publish_entity entity_id ns
  end.

End Publisher.

(** ** [_message_received] *)

(** The three messages [_LOGGER.error] is called with. *)
Inductive complaint : Type :=
| InvalidService    (* Invalid service for "set" - payload: %s for %s *)
| InvalidDomain     (* Invalid domain for "set_light" - payload: %s for %s *)
| InvalidState.     (* Invalid state for "set_light" - payload: %s for %s *)

(** What the decoder does to the outside: a call of
    [hass.services.async_call(domain, service, data)], the debug record
    "Message received: topic %s; payload: %s", or an error record with the
    payload and the entity it names. *)
Inductive effect : Type :=
| ServiceCall (domain service : string) (data : dict)
| LogDebug (topic payload : string)
| LogError (what : complaint) (payload entity : string).

Record Message : Type := mkMessage {
  topic : string;
  msg_payload : string
}.

Definition D (A : Type) : Type := M unit effect A.

Section Decoder.

Variable env : Env.

Local Open Scope m_scope.

(** [l[i]] on the list of topic levels. *)
Definition level (l : list string) (i : nat) : result string :=
  match nth_error l i with
  | Some s => inr s
  | None => inl IndexError
  end.

(** [if k in payload_json: service_payload[k] = payload_json[k]] *)
Definition pass_through (k : string) (payload_json : json) (service_payload : dict)
  : result dict :=
  let* present := py_in k payload_json in
  if present : bool then
    let* v := py_getitem payload_json k in
    inr (Dict.set k v service_payload)
  else inr service_payload.

(** One [if tag in payload_json[ATTR_COLOR]: service_payload[attr] = [...]]
    of lines 123-138; [fields] are the keys read for the list. *)
Definition color_field (tag attr : string) (fields : list string)
    (payload_json : json) (service_payload : dict) : result dict :=
  let* color := py_getitem payload_json ATTR_COLOR in
  let* present := py_in tag color in
  if present : bool then
    let* vs :=
      fold_right
        (fun f rest =>
           let* color := py_getitem payload_json ATTR_COLOR in
           let* v := py_getitem color f in
           let* vs := rest in
           inr (v :: vs))
        (inr []) fields in
    inr (Dict.set attr (JArr vs) service_payload)
  else inr service_payload.

(** Lines 118-138: the parameters of a turn-on. *)
Definition turn_on_payload (payload_json : json) (service_payload : dict)
  : result dict :=
  let* service_payload := pass_through ATTR_BRIGHTNESS payload_json service_payload in
  let* service_payload := pass_through ATTR_COLOR_TEMP payload_json service_payload in
  let* has_color := py_in ATTR_COLOR payload_json in
  if has_color : bool then
    let* service_payload :=
      color_field ATTR_H ATTR_HS_COLOR [ATTR_H; ATTR_S] payload_json service_payload in
    let* service_payload :=
      color_field ATTR_X ATTR_XY_COLOR [ATTR_X; ATTR_Y] payload_json service_payload in
    color_field ATTR_R ATTR_RGB_COLOR [ATTR_R; ATTR_G; ATTR_B] payload_json service_payload
  else inr service_payload.

(** Lines 110-151: the [else] branch of [set_light]. *)
Definition set_light (domain entity : string) (msg : Message) : D unit :=
  payload_json <- lift (match json_loads env (msg_payload msg) with
                        | Some v => inr v
                        | None => inl JSONDecodeError
                        end) ;;
  let service_payload := [(ATTR_ENTITY_ID, JStr (domain ++ "." ++ entity))] in
  service_payload <- lift (pass_through ATTR_TRANSITION payload_json service_payload) ;;
  st <- lift (py_getitem payload_json "state") ;;
  if json_eq_str st "ON" then
    service_payload <- lift (turn_on_payload payload_json service_payload) ;;
    emit (ServiceCall domain SERVICE_TURN_ON service_payload)
  else
    st <- lift (py_getitem payload_json "state") ;;
    if json_eq_str st "OFF" then
      emit (ServiceCall domain SERVICE_TURN_OFF service_payload)
    else
      emit (LogError InvalidState (msg_payload msg) entity).

(** [async def _message_received(msg)] *)
Definition _message_received (msg : Message) : D unit :=
  let explode_topic := split_char "/" (topic msg) in
  domain <- lift (level explode_topic 1) ;;
  entity <- lift (level explode_topic 2) ;;
  element <- lift (level explode_topic 3) ;;
  emit (LogDebug (topic msg) (msg_payload msg)) ;;
  (if element =? "set" then
     if msg_payload msg =? STATE_ON then
       emit (ServiceCall domain SERVICE_TURN_ON
               [(ATTR_ENTITY_ID, JStr (domain ++ "." ++ entity))])
     else if msg_payload msg =? STATE_OFF then
       emit (ServiceCall domain SERVICE_TURN_OFF
               [(ATTR_ENTITY_ID, JStr (domain ++ "." ++ entity))])
     else
       emit (LogError InvalidService (msg_payload msg) entity)
   else ret tt) ;;
  if element =? "set_light" then
    if negb (domain =? "light") then
      emit (LogError InvalidDomain (msg_payload msg) entity)
    else set_light domain entity msg
  else ret tt.

End Decoder.

(** ** The stream of notifications

    [async_track_state_change] calls [_state_publisher] once per state change.
    [run] is the case of one call after the other, each call finished before
    the next begins; calls that overlap are the matter of [execute] below,
    of which [run] is the schedule [serial].  An exception of a call is
    caught and logged by the caller; the publishes already made and the
    registry stay as they are, and the next notification is processed. *)

Record Notification : Type := mkNotification {
  n_entity_id : string;
  n_new_state : option State
}.

Section Stream.

Variable env : Env.
Variable conf : Conf.

(** One call: the registry before, the notification, and what comes out. *)
Definition notify (published : list string) (n : Notification)
  : list publish * world * result unit :=
  _state_publisher env conf (n_entity_id n) (mkWorld published (n_new_state n)).

(** The publishes of a run, each with the entity whose notification made
    it, from the registry [published] on. *)
Fixpoint run (published : list string) (ns : list Notification)
  : list (string * publish) :=
  match ns with
  | [] => []
  | n :: ns' =>
      let r := notify published n in
      map (pair (n_entity_id n)) (output r)
        ++ run (conf_published (store r)) ns'
  end.

(** The registry at the end of a run. *)
Fixpoint registry_after (published : list string) (ns : list Notification)
  : list string :=
  match ns with
  | [] => published
  | n :: ns' => registry_after (conf_published (store (notify published n))) ns'
  end.

End Stream.

(** The publishes of entity [e] made at site [s]. *)
Definition publishes_of (e : string) (s : site) (tr : list (string * publish))
  : list (string * publish) :=
  filter (fun ep => (fst ep =? e) && at_site s (snd ep)) tr.



(** ** What one call of the publisher does *)

(** Whether the branch on the domain sets [publish_config]. *)
Definition eligible (conf : Conf) (ent_domain : string) (attrs : dict) : bool :=
  ((ent_domain =? "sensor") && (has_includes conf || Dict.mem "device_class" attrs))
  || ((ent_domain =? "binary_sensor") && (has_includes conf || Dict.mem "device_class" attrs))
  || (ent_domain =? "switch")
  || (ent_domain =? "device_tracker")
  || (ent_domain =? "climate")
  || (ent_domain =? "light").

(** The attributes the climate branch reads without a check are there, and
    [preset_modes] is a list. *)
Definition climate_ready (attrs : dict) : bool :=
  match Dict.get "max_temp" attrs, Dict.get "min_temp" attrs,
        Dict.get "hvac_modes" attrs, Dict.get "preset_modes" attrs with
  | Some _, Some _, Some _, Some (JArr _) => true
  | _, _, _, _ => false
  end.

(** The sites of the publishes made before the discovery check. *)
Definition timestamp_sites (conf : Conf) (ns : State) : list site :=
  if publish_timestamps conf then
    (match last_updated ns with Some _ => [SiteLastUpdated] | None => [] end)
      ++ (match last_changed ns with Some _ => [SiteLastChanged] | None => [] end)
  else [].

Definition attribute_sites (conf : Conf) (ns : State) : list site :=
  if publish_attributes conf then map (fun _ => SiteAttribute) (attributes ns) else [].

(** The state object with other attributes. *)
Definition with_attributes (ns : State) (attrs : dict) : State :=
  mkState (state ns) attrs (last_updated ns) (last_changed ns).

(** The availability publish every domain makes with discovery on. *)
Definition availability_publish (mybase : string) (ns : State) : publish :=
  mkPublish SiteAvailability (mybase ++ "availability")
    (PText (availability_payload (state ns))) 1 true.

Section Outcomes.

Variable conf : Conf.

(** The branch on the domain publishes nothing; it raises and leaves the
    store alone, or returns the flag [eligible] computes, with the
    attributes changed in the climate branch only. *)
Inductive domain_outcome (d : string) (reg : list string) (ns : State)
  : list publish * world * result (dict * bool) -> Prop :=
| DomainRaised ex :
    domain_outcome d reg ns ([], mkWorld reg (Some ns), inl ex)
| DomainReturned config attrs' :
    (attrs' = attributes ns \/ (d =? "climate") = true) ->
    domain_outcome d reg ns
      ([], mkWorld reg (Some (with_attributes ns attrs')),
       inr (config, eligible conf d (attributes ns))).

(** What the discovery check does to a store holding the registry [reg]
    and the state object [ns]. *)
Inductive discovery_outcome (e d : string) (reg : list string) (ns : State)
  : list publish * world * result unit -> Prop :=
| DiscoveryRaised ex :
    discovery_outcome e d reg ns ([], mkWorld reg (Some ns), inl ex)
| DiscoverySkipped :
    (publish_discovery conf = false \/ mem_string e reg = true
     \/ eligible conf d (attributes ns) = false) ->
    discovery_outcome e d reg ns ([], mkWorld reg (Some ns), inr tt)
| DiscoveryPublished config attrs' :
    publish_discovery conf = true ->
    mem_string e reg = false ->
    eligible conf d (attributes ns) = true ->
    discovery_outcome e d reg ns
      ([mkPublish SiteConfig (entity_disc_topic conf e) (PJson (JObj config)) 1 true],
       mkWorld (reg ++ [e]) (Some (with_attributes ns attrs')), inr tt).

(** What lines 291-347 do. *)
Inductive state_outcome (d mybase : string) (ns : State) (w : world)
  : list publish * world * result unit -> Prop :=
| StateBare :
    publish_discovery conf = false ->
    state_outcome d mybase ns w
      ([mkPublish SiteState (mybase ++ "state") (text_payload (state ns)) 1 true],
       w, inr tt)
| StateLightRaised ex :
    publish_discovery conf = true -> (d =? "light") = true ->
    state_outcome d mybase ns w ([], w, inl ex)
| StateLight payload attrs :
    publish_discovery conf = true -> (d =? "light") = true ->
    light_payload (state ns) attrs = inr payload ->
    state_outcome d mybase ns w
      ([mkPublish SiteState (mybase ++ "state") (PJson (JObj payload)) 1 true;
        availability_publish mybase ns],
       w, inr tt)
| StateOther attrs :
    publish_discovery conf = true -> (d =? "light") = false ->
    state_outcome d mybase ns w
      ([mkPublish SiteState (mybase ++ "state") (text_payload (state ns)) 1 true;
        availability_publish mybase ns;
        mkPublish SiteAttributes (mybase ++ "attributes") (PJson (JObj attrs)) 1 true],
       w, inr tt).

End Outcomes.

(** The values of the keys [fields] of a colour object, in order; the first
    missing key raises. *)
Fixpoint read_fields (c : dict) (fields : list string) : result (list json) :=
  match fields with
  | [] => inr []
  | f :: fs =>
      match Dict.get f c with
      | None => inl (KeyError (JStr f))
      | Some v => let* vs := read_fields c fs in inr (v :: vs)
      end
  end.

(** Each tag present in the colour object comes with the other sub-fields of
    its representation. *)
Definition color_complete (c : dict) : bool :=
  implb (Dict.mem ATTR_H c) (Dict.mem ATTR_S c)
  && implb (Dict.mem ATTR_X c) (Dict.mem ATTR_Y c)
  && implb (Dict.mem ATTR_R c) (Dict.mem ATTR_G c && Dict.mem ATTR_B c).

(** The colour parameters found in the data of a service call. *)
Definition forwarded_color_specs (data : dict) : list string :=
  filter (fun k => Dict.mem k data) [ATTR_HS_COLOR; ATTR_XY_COLOR; ATTR_RGB_COLOR].

(** ** Sample data *)

Module Sample.

(** A word between double quotes. *)
Definition q (s : string) : string :=
  String (ascii_of_nat 34) s ++ String (ascii_of_nat 34) EmptyString.

(** The text of a JSON object with state ON and a colour holding both an
    HS and an XY pair. *)
Definition two_colors_text : string :=
  "{" ++ q "state" ++ ": " ++ q "ON" ++ ", " ++ q "color" ++ ": {"
      ++ q "h" ++ ": 10, " ++ q "s" ++ ": 20, "
      ++ q "x" ++ ": 3, " ++ q "y" ++ ": 4}}".

Definition two_colors : json :=
  JObj [("state", JStr "ON");
        ("color", JObj [("h", JNum 10); ("s", JNum 20);
                        ("x", JNum 3); ("y", JNum 4)])].

(** The text of the colour object a light with an XY colour of (0.3, 0.6)
    is published with, sent back as a command. *)
Definition x_only_text : string :=
  "{" ++ q "state" ++ ": " ++ q "ON" ++ ", " ++ q "color" ++ ": {"
      ++ q "x" ++ ": 0.6}}".

Definition x_only : json :=
  JObj [("state", JStr "ON"); ("color", JObj [("x", JNum (6 # 10))])].

(** [json.loads] on the texts used below; any other text here is not
    JSON. *)
Definition loads (s : string) : option json :=
  if s =? "{}" then Some (JObj [])
  else if s =? two_colors_text then Some two_colors
  else if s =? x_only_text then Some x_only
  else None.

(** No feature flag, empty registries; [str.title] is left out: the name
    in the configuration keeps the case of the object id. *)
Definition env : Env :=
  mkEnv (fun _ => 0%Z) [] [] (fun s => s) loads.

Definition conf (attrs ts disc : bool) : Conf :=
  mkConf (fun _ => true) false "ha/" "ha/" attrs ts disc.

Definition climate_attrs : dict :=
  [ ("max_temp", JNum 30); ("min_temp", JNum 7);
    ("hvac_modes", JArr [JStr "heat"; JStr "off"]);
    ("preset_modes", JArr [JStr "none"; JStr "eco"; JStr "away"]) ].

Definition climate : State := mkState (Some "heat") climate_attrs None None.

Definition switch : State := mkState (Some "on") [("icon", JStr "mdi:plug")] None None.

Definition lamp_xy : State :=
  mkState (Some "on") [("xy_color", JArr [JNum (3 # 10); JNum (6 # 10)])] None None.


Definition plug : Notification := mkNotification "switch.plug" (Some switch).
Definition hall : Notification := mkNotification "climate.hall" (Some climate).
Definition lamp : Notification := mkNotification "light.lamp" (Some lamp_xy).

Definition lamp_unavailable : Notification :=
  mkNotification "light.lamp" (Some (mkState (Some "unavailable") [] None None)).

Definition temp (value : string) : Notification :=
  mkNotification "sensor.temp"
    (Some (mkState (Some value) [("unit_of_measurement", JStr "C")] None None)).

Definition discovery_on : Conf := conf false false true.
Definition attributes_only : Conf := conf true false false.

End Sample.

(** ** [async_setup] *)

(** [s.endswith(c)] for a single character. *)
Fixpoint ends_with (c : ascii) (s : string) : bool :=
  match s with
  | EmptyString => false
  | String a s' =>
      match s' with
      | EmptyString => Ascii.eqb a c
      | String _ _ => ends_with c s'
      end
  end.

(** [if not t.endswith("/"): t = f"{t}/"] *)
Definition with_trailing_slash (t : string) : string :=
  if ends_with "/" t then t else t ++ "/".

(** [bool(v)] *)
Definition py_bool (v : json) : bool :=
  match v with
  | JNull => false
  | JBool b => b
  | JNum q => negb (Qeq_bool q 0)
  | JStr s => negb (s =? "")
  | JArr l => match l with [] => false | _ => true end
  | JObj o => match o with [] => false | _ => true end
  end.

(** The entries of [config.get(DOMAIN)] that [async_setup] reads. *)
Record Config : Type := mkConfig {
  cfg_include : option json;
  cfg_base_topic : string;
  cfg_discovery_topic : option string;
  cfg_publish_attributes : bool;
  cfg_publish_timestamps : bool;
  cfg_publish_discovery : bool
}.

(** What [async_setup] asks of Home Assistant: a subscription, a warning of
    the logger, the registration of [_state_publisher] for every state
    change. *)
Inductive setup_effect : Type :=
| Subscribe (pattern : string)
| LogWarning (text : string)
| TrackStateChange.

(** What [async_setup] leaves behind: the variables the coroutines close
    over, the list [conf_published], its calls, and its return value. *)
Record Setup : Type := mkSetup {
  closure : Conf;
  initial_published : list string;
  setup_effects : list setup_effect;
  setup_result : bool
}.

Section Setup.

(** [convert_include_exclude_filter], and whether [async_subscribe] accepts a
    pattern ([false] where it raises [HomeAssistantError]). *)
Variable convert_include_exclude_filter : Config -> string -> bool.
Variable subscribe_ok : string -> bool.

(** Lines 349-358: the two subscriptions under [try]. *)
Definition subscribe_commands (base_topic : string) : list setup_effect :=
  if subscribe_ok (base_topic ++ "switch/+/set") then
    Subscribe (base_topic ++ "switch/+/set")
      :: (if subscribe_ok (base_topic ++ "light/+/set_light") then
            [Subscribe (base_topic ++ "light/+/set_light")]
          else [LogWarning "MQTT Not ready"])
  else [LogWarning "MQTT Not ready"].

(** [async def async_setup(hass, config)] *)
Definition async_setup (config : Config) : Setup :=
  let publish_filter := convert_include_exclude_filter config in
  let has_includes :=
    match cfg_include config with Some v => py_bool v | None => false end in
  let base_topic := cfg_base_topic config in
  let discovery_topic :=
    match cfg_discovery_topic config with
    | Some t => if t =? "" then cfg_base_topic config else t
    | None => cfg_base_topic config
    end in
  let base_topic := with_trailing_slash base_topic in
  let discovery_topic := with_trailing_slash discovery_topic in
  mkSetup
    (mkConf publish_filter has_includes base_topic discovery_topic
       (cfg_publish_attributes config) (cfg_publish_timestamps config)
       (cfg_publish_discovery config))
    []
    ((if cfg_publish_discovery config then subscribe_commands base_topic else [])
       ++ [TrackStateChange])
    true.

End Setup.

(** ** Notions the statements use *)

(** Whether the character occurs in the text. *)
Fixpoint has_char (c : ascii) (s : string) : bool :=
  match s with
  | EmptyString => false
  | String a s' => Ascii.eqb a c || has_char c s'
  end.

Definition is_service_call (ev : effect) : bool :=
  match ev with
  | ServiceCall _ _ _ => true
  | _ => false
  end.

(** The keys the branches on the domain write or delete. *)
Definition branch_keys : list string :=
  [ "pl_off"; "pl_on"; "cmd_t";
    "current_temperature_topic"; "current_temperature_template"; "icon";
    "max_temp"; "min_temp"; "modes"; "mode_state_topic"; "preset_modes";
    "preset_mode_command_topic"; "preset_mode_state_topic";
    "preset_mode_value_template"; "temperature_state_topic";
    "temperature_state_template";
    "json_attr_t"; "schema"; "brightness"; "effect"; "color_mode";
    "supported_color_modes" ].

(** The topic a publish made at a site goes to, for an entity whose state
    object holds the attributes [attrs]. *)
Definition addressed (conf : Conf) (e : string) (attrs : dict) (p : publish) : Prop :=
  match pub_site p with
  | SiteLastUpdated => pub_topic p = (mybase_of conf e ++ "last_updated")%string
  | SiteLastChanged => pub_topic p = (mybase_of conf e ++ "last_changed")%string
  | SiteAttribute =>
      exists k v, In (k, v) attrs /\ pub_topic p = (mybase_of conf e ++ k)%string
                  /\ pub_payload p = PJson v
  | SiteConfig => pub_topic p = entity_disc_topic conf e
  | SiteState => pub_topic p = (mybase_of conf e ++ "state")%string
  | SiteAvailability => pub_topic p = (mybase_of conf e ++ "availability")%string
  | SiteAttributes => pub_topic p = (mybase_of conf e ++ "attributes")%string
  end.

(** What the [else] branch of [set_light] does, whatever the payload: it
    raises and dispatches nothing, or dispatches one turn-on or one turn-off
    for the entity, or logs an invalid state. *)
Inductive set_light_outcome (domain entity : string) (msg : Message)
  : list effect * unit * result unit -> Prop :=
| SetLightRaised ex :
    set_light_outcome domain entity msg ([], tt, inl ex)
| SetLightCalled service data :
    service = SERVICE_TURN_ON \/ service = SERVICE_TURN_OFF ->
    Dict.get ATTR_ENTITY_ID data = Some (JStr (domain ++ "." ++ entity)) ->
    set_light_outcome domain entity msg
      ([ServiceCall domain service data], tt, inr tt)
| SetLightInvalid :
    set_light_outcome domain entity msg
      ([LogError InvalidState (msg_payload msg) entity], tt, inr tt).

(** ** More sample data *)

Module Samples.

Import Sample.

(** Command payloads, as text and as [json.loads] reads them. *)
Definition off_text : string :=
  "{" ++ q "state" ++ ": " ++ q "OFF" ++ ", " ++ q "brightness" ++ ": 10, "
      ++ q "transition" ++ ": 2}".

Definition off_json : dict :=
  [("state", JStr "OFF"); ("brightness", JNum 10); ("transition", JNum 2)].

Definition toggle_text : string := "{" ++ q "state" ++ ": " ++ q "TOGGLE" ++ "}".

Definition toggle_json : dict := [("state", JStr "TOGGLE")].

Definition on_text : string :=
  "{" ++ q "state" ++ ": " ++ q "ON" ++ ", " ++ q "brightness" ++ ": 120}".

Definition on_json : dict := [("state", JStr "ON"); ("brightness", JNum 120)].

(** A light that is on, with a brightness and an HS colour, and the text of
    its state payload. *)
Definition lamp_hs_attrs : dict :=
  [("brightness", JNum 200); ("hs_color", JArr [JNum 10; JNum 20])].

Definition lamp_hs_text : string :=
  "{" ++ q "state" ++ ": " ++ q "ON" ++ ", " ++ q "brightness" ++ ": 200, "
      ++ q "color" ++ ": {" ++ q "h" ++ ": 10, " ++ q "s" ++ ": 20}}".

Definition lamp_hs_json : dict :=
  [("state", JStr "ON"); ("brightness", JNum 200);
   ("color", JObj [("h", JNum 10); ("s", JNum 20)])].

Definition loads (s : string) : option json :=
  if s =? off_text then Some (JObj off_json)
  else if s =? toggle_text then Some (JObj toggle_json)
  else if s =? on_text then Some (JObj on_json)
  else if s =? lamp_hs_text then Some (JObj lamp_hs_json)
  else if s =? "[1]" then Some (JArr [JNum 1])
  else None.

(** One device, linked to the plug; the light supports brightness and
    effects. *)
Definition plug_device : DeviceEntry :=
  mkDevice "d1" (Some "Acme") (Some "") (Some "Plug") None [("zha", "00:11")] [].

Definition env : Env :=
  mkEnv (fun e => if e =? "light.lamp" then 5%Z else 0%Z)
        [mkEntry "switch.plug" (Some "d1"); mkEntry "sensor.temp" None]
        [plug_device] (fun s => s) loads.

Definition deep_conf : Conf :=
  mkConf (fun _ => true) false "home/ha/" "home/ha/" false false true.

(** The filter rejects the plug. *)
Definition no_plug_conf : Conf :=
  mkConf (fun e => negb (e =? "switch.plug")) false "ha/" "ha/" true true true.

Definition climate_no_max : Notification :=
  mkNotification "climate.hall"
    (Some (mkState (Some "heat")
             [("min_temp", JNum 7); ("hvac_modes", JArr [JStr "heat"]);
              ("preset_modes", JArr [])] None None)).

Definition lamp_short_hs : State :=
  mkState (Some "on") [("hs_color", JArr [JNum 10])] None None.

Definition no_dot : Notification := mkNotification "plug" (Some switch).

(** The configs published for the plug, the hall and the lamp at their first
    notification. *)
Definition first_publish (n : Notification) : publish :=
  hd (mkPublish SiteState "" PNone 0 false) (output (notify env discovery_on [] n)).

Definition plug_config : publish := Eval vm_compute in first_publish plug.
Definition hall_config : publish := Eval vm_compute in first_publish hall.
Definition lamp_config : publish := Eval vm_compute in first_publish lamp.

Definition raw_config : Config :=
  mkConfig None "ha" (Some "") true false true.

End Samples.

(** ** Calls in flight

    [_state_publisher] is a coroutine: at each [await], and every call of
    [mqtt.async_publish] is awaited, other calls of [_state_publisher] may
    run.  What the calls share is the list [conf_published]: a call reads it
    once, in the test of lines 183-186, and appends to it once, at line 289,
    and the [await] of the discovery publish (line 288) lies between the
    two.  A call is taken in three parts: lines 164-177, the publishes
    before the test; lines 179-288, from the test to the discovery publish,
    with no [await] on the way; lines 289-347, the append and the state
    publishes.  The event loop is not part of this repository: here it may
    at any time begin the call of a notification or let any call in flight
    go on to its next [await].  The state object of a notification is that
    call's alone, as in [run]. *)

Section Parts.

Variable env : Env.
Variable conf : Conf.

Local Open Scope m_scope.

(** Lines 164-177: the publishes before the discovery check. *)
Definition call_early (entity_id : string) (ns : State) : P unit :=
  let mybase := mybase_of conf entity_id in
  publish_timestamps_step conf mybase ns ;;
  publish_attributes_step conf mybase.

(** Lines 183-288: the discovery check up to the await of the publish;
    [true] when the config was published, so that the entity is appended
    when the call goes on. *)
Definition discovery_check (entity_id ent_domain ent_id mybase : string) : P bool :=
  w <- get ;;
  if publish_discovery conf && negb (mem_string entity_id (conf_published w)) then
    attrs <- new_state_attributes ;;
    let config := common_config env entity_id ent_id mybase attrs in
    cp <- domain_config env conf entity_id ent_domain mybase config ;;
    if snd cp : bool then
      let config := link_device env entity_id (fst cp) in
      async_publish SiteConfig (entity_disc_topic conf entity_id) (PJson (JObj config))
        1 true ;;
      ret true
    else ret false
  else ret false.

(** Lines 179-288; the result is [ent_domain] and whether the call waits at
    line 288. *)
Definition call_check (entity_id : string) : P (string * bool) :=
  let mybase := mybase_of conf entity_id in
  let ent_parts := split_char "." entity_id in
  ent_domain <- lift (match nth_error ent_parts 0 with
                      | Some d => inr d | None => inl IndexError end) ;;
  ent_id <- lift (match nth_error ent_parts 1 with
                  | Some d => inr d | None => inl IndexError end) ;;
  waits <- discovery_check entity_id ent_domain ent_id mybase ;;
  ret (ent_domain, waits).

(** Lines 289-347: the call from the append on ([waited]), or from line 291
    on when nothing was published. *)
Definition call_after_publish (entity_id ent_domain : string) (waited : bool)
    (ns : State) : P unit :=
  (if waited then mark_published entity_id else ret tt) ;;
  state_step conf ent_domain (mybase_of conf entity_id) ns.

End Parts.

(** Where a call in flight waits: at the [await] of a publish of lines
    166-177, with the publishes of these lines it has still to make; at the
    [await] of line 288; or at the [await] of a publish of lines 319-347,
    with those it has still to make. *)
Inductive stage : Type :=
| Early (todo : list publish)
| Waited (ent_domain : string)
| Late (todo : list publish).

(** A call in flight: its entity, the state it was called with, and the
    state object as the call has left it so far. *)
Record Call : Type := mkCall {
  c_entity : string;
  c_state : State;
  c_object : option State;
  c_stage : stage
}.

(** The shared list and the calls in flight. *)
Record System : Type := mkSystem {
  sys_published : list string;
  sys_pending : list Call
}.

(** What the event loop does next: begin the call of a notification, or let
    the [i]-th call in flight go on. *)
Inductive action : Type :=
| Begin (n : Notification)
| Resume (i : nat).

Fixpoint remove_nth {A} (i : nat) (l : list A) : list A :=
  match l, i with
  | [], _ => []
  | _ :: l', O => l'
  | x :: l', S j => x :: remove_nth j l'
  end.

Definition olist {A} (o : option A) : list A :=
  match o with
  | Some a => [a]
  | None => []
  end.

(** The call has not got past the append of line 289. *)
Definition before_append (c : Call) : bool :=
  match c_stage c with
  | Late _ => false
  | _ => true
  end.

(** The call waits at line 288. *)
Definition at_publish (c : Call) : bool :=
  match c_stage c with
  | Waited _ => true
  | _ => false
  end.

(** The calls of [e] among the calls that satisfy [f]. *)
Definition of_entity (e : string) (f : Call -> bool) (c : Call) : bool :=
  (c_entity c =? e) && f c.

(** A call of [e] is in flight. *)
Definition in_flight (e : string) (sys : System) : bool :=
  existsb (fun c => c_entity c =? e) (sys_pending sys).

(** A call of [e] is in flight that has not got past line 289. *)
Definition unsettled (e : string) (sys : System) : bool :=
  existsb (of_entity e before_append) (sys_pending sys).

(** A call of [e] waits at line 288, about to append [e]. *)
Definition awaited (e : string) (sys : System) : bool :=
  existsb (of_entity e at_publish) (sys_pending sys).

(** The publishes a call in flight has still to make before it reads or
    changes the list again hold no discovery config: so it is of every call
    the event loop has begun. *)
Definition quiet (c : Call) : bool :=
  match c_stage c with
  | Early todo | Late todo => forallb (fun p => negb (at_site SiteConfig p)) todo
  | Waited _ => true
  end.

(** The calls of [e] among [l] are [quiet]. *)
Definition calm (e : string) (l : list Call) : bool :=
  forallb (fun c => negb (c_entity c =? e) || quiet c) l.

(** [e] is in the list, or a call waits that will append it. *)
Definition held (e : string) (sys : System) : bool :=
  mem_string e (sys_published sys) || awaited e sys.

Section Overlap.

Variable env : Env.
Variable conf : Conf.

(** A run of the code of a call from one [await] to the next: the list
    afterwards, the publish made if any, and the call where it now waits
    unless it has returned or raised. *)
Definition turn : Type := list string * list publish * option Call.

(** Lines 289-347 up to the first [await]. *)
Definition enter_late (e d : string) (waited : bool) (ns : State) (w : world) : turn :=
  let r := call_after_publish conf e d waited ns w in
  match output r with
  | [] => (conf_published (store r), [], None)
  | p :: rest =>
      (conf_published (store r), [p],
       Some (mkCall e ns (new_state (store r)) (Late rest)))
  end.

(** Lines 179-288, and on to the first [await] of the state publishes when
    no discovery config is published. *)
Definition enter_check (e : string) (ns : State) (w : world) : turn :=
  let r := call_check env conf e w in
  match outcome r with
  | inl _ => (conf_published (store r), output r, None)
  | inr (d, true) =>
      (conf_published (store r), output r,
       Some (mkCall e ns (new_state (store r)) (Waited d)))
  | inr (d, false) =>
      let '(reg, evs, c) := enter_late e d false ns (store r) in
      (reg, output r ++ evs, c)
  end.

(** The call of a notification up to its first [await]. *)
Definition begin (n : Notification) (reg : list string) : turn :=
  match n_new_state n with
  | None => (reg, [], None)
  | Some ns =>
      if negb (publish_filter conf (n_entity_id n)) then (reg, [], None)
      else
        let r := call_early conf (n_entity_id n) ns (mkWorld reg (Some ns)) in
        match outcome r, output r with
        | inr _, [] => enter_check (n_entity_id n) ns (store r)
        | inr _, p :: rest =>
            (conf_published (store r), [p],
             Some (mkCall (n_entity_id n) ns (new_state (store r)) (Early rest)))
        | inl _, [] => (conf_published (store r), [], None)
        | inl _, p :: rest =>
            (conf_published (store r), [p],
             Some (mkCall (n_entity_id n) ns (new_state (store r)) (Late rest)))
        end
  end.

(** A call in flight from the [await] it waits at to the next. *)
Definition resume (c : Call) (reg : list string) : turn :=
  match c_stage c with
  | Early (p :: rest) =>
      (reg, [p], Some (mkCall (c_entity c) (c_state c) (c_object c) (Early rest)))
  | Early [] => enter_check (c_entity c) (c_state c) (mkWorld reg (c_object c))
  | Waited d =>
      enter_late (c_entity c) d true (c_state c) (mkWorld reg (c_object c))
  | Late (p :: rest) =>
      (reg, [p], Some (mkCall (c_entity c) (c_state c) (c_object c) (Late rest)))
  | Late [] => (reg, [], None)
  end.

(** One action of the event loop: the system afterwards and the publish
    made, with the entity of the call that made it.  A call that goes on
    is put at the end of the calls in flight. *)
Definition step (sys : System) (a : action) : System * list (string * publish) :=
  match a with
  | Begin n =>
      let '(reg, evs, c) := begin n (sys_published sys) in
      (mkSystem reg (sys_pending sys ++ olist c), map (pair (n_entity_id n)) evs)
  | Resume i =>
      match nth_error (sys_pending sys) i with
      | None => (sys, [])
      | Some c =>
          let '(reg, evs, c') := resume c (sys_published sys) in
          (mkSystem reg (remove_nth i (sys_pending sys) ++ olist c'),
           map (pair (c_entity c)) evs)
      end
  end.

(** The system and the publishes after a sequence of actions. *)
Fixpoint execute (sys : System) (acts : list action)
  : System * list (string * publish) :=
  match acts with
  | [] => (sys, [])
  | a :: acts' =>
      let (sys1, tr1) := step sys a in
      let (sys2, tr2) := execute sys1 acts' in
      (sys2, tr1 ++ tr2)
  end.

(** Among the entities [concerned], no call of an entity is begun while an
    earlier call of the same entity has not got past line 289. *)
Fixpoint exclusive (concerned : string -> bool) (sys : System) (acts : list action)
  : bool :=
  match acts with
  | [] => true
  | a :: acts' =>
      match a with
      | Begin n =>
          negb (concerned (n_entity_id n) && unsettled (n_entity_id n) sys)
      | Resume _ => true
      end
      && exclusive concerned (fst (step sys a)) acts'
  end.

End Overlap.

(** The actions that begin a call of [e]. *)
Definition begins (e : string) (a : action) : bool :=
  match a with
  | Begin n => n_entity_id n =? e
  | Resume _ => false
  end.

(** One call after the other: each call is begun and let go on until it has
    returned, before the next is begun; a call has at most as many [await]s
    as its state object has attributes, and six more. *)
Definition turns (n : Notification) : nat :=
  match n_new_state n with
  | Some ns => length (attributes ns) + 6
  | None => 0
  end.

Definition serial (ns : list Notification) : list action :=
  flat_map (fun n => Begin n :: repeat (Resume 0) (turns n)) ns.

(** The publishes of a call have the topics [<base><domain>/<object_id>/]
    followed by a word for the site, or by an attribute's key; the discovery
    config has [<discovery><domain>/<object_id>/config]. *)
Definition topic_suffix (s : site) : option string :=
  match s with
  | SiteLastUpdated => Some "last_updated"
  | SiteLastChanged => Some "last_changed"
  | SiteState => Some "state"
  | SiteAvailability => Some "availability"
  | SiteAttributes => Some "attributes"
  | SiteAttribute | SiteConfig => None
  end.

Definition laid_out (conf : Conf) (d x : string) (attrs : dict) (p : publish) : Prop :=
  match pub_site p with
  | SiteConfig =>
      pub_topic p = (discovery_topic conf ++ d ++ "/" ++ x ++ "/config")%string
  | SiteAttribute =>
      exists k v, In (k, v) attrs
                  /\ pub_topic p = (base_topic conf ++ d ++ "/" ++ x ++ "/" ++ k)%string
                  /\ pub_payload p = PJson v
  | s =>
      exists w, topic_suffix s = Some w
                /\ pub_topic p = (base_topic conf ++ d ++ "/" ++ x ++ "/" ++ w)%string
  end.

(** ** Sample schedules *)

Module Schedules.

Import Sample.

(** A thermostat that reports no preset modes. *)
Definition hall_without_presets : Notification :=
  mkNotification "climate.hall"
    (Some (mkState (Some "heat")
             [ ("max_temp", JNum 30); ("min_temp", JNum 7);
               ("hvac_modes", JArr [JStr "heat"; JStr "off"]) ] None None)).

(** Discovery with one topic per attribute: a call has an [await] before
    its discovery check. *)
Definition attributes_on : Conf := conf true false true.

(** Two calls for the plug, the second begun while the first is in flight;
    then each in turn goes on until both have returned. *)
Definition racing : list action :=
  [Begin plug; Begin plug] ++ repeat (Resume 0) 10.

(** What follows the first call for the plug below: the calls in flight go
    on in turn, a second call for the plug is begun when the first has
    appended the plug, and all go on until they have returned. *)
Definition plug_goes_on : list action :=
  repeat (Resume 0) 6 ++ [Begin plug] ++ repeat (Resume 0) 12.

(** A call for the sensor, and a call for the plug begun while the first
    is in flight. *)
Definition interleaved : list action :=
  [Begin (temp "20")] ++ Begin plug :: plug_goes_on.

End Schedules.

(** * Proofs *)

(** Laws of the sequencing of effects. *)
Section Laws.

Context {S E : Type}.

Lemma bind_ret {A B} (a : A) (k : A -> M S E B) (s : S) :
  bind (ret a) k s = k a s.
Proof. unfold bind, ret. destruct (k a s) as [[o s'] r]. reflexivity. Qed.

Lemma bind_get {B} (k : S -> M S E B) (s : S) :
  bind get k s = k s s.
Proof. unfold bind, get. destruct (k s s) as [[o s'] r]. reflexivity. Qed.

Lemma bind_lift_inr {A B} (a : A) (k : A -> M S E B) (s : S) :
  bind (lift (inr a)) k s = k a s.
Proof. unfold bind, lift. destruct (k a s) as [[o s'] r]. reflexivity. Qed.

Lemma bind_lift_inl {A B} (e : exn) (k : A -> M S E B) (s : S) :
  bind (lift (inl e)) k s = ([], s, inl e).
Proof. reflexivity. Qed.

Lemma bind_emit {B} (ev : E) (k : unit -> M S E B) (s : S) :
  bind (emit ev) k s
  = (ev :: output (k tt s), store (k tt s), outcome (k tt s)).
Proof. unfold bind, emit. destruct (k tt s) as [[o s'] r]. reflexivity. Qed.

Lemma bind_assoc {A B C} (m : M S E A) (k : A -> M S E B) (h : B -> M S E C) (s : S) :
  bind (bind m k) h s = bind m (fun a => bind (k a) h) s.
Proof.
  unfold bind. destruct (m s) as [[o s1] [e|a]]; [reflexivity|].
  destruct (k a s1) as [[o2 s2] [e|b]]; [reflexivity|].
  destruct (h b s2) as [[o3 s3] r]. now rewrite app_assoc.
Qed.

Lemma triple_eta {A} (r : list E * S * result A) :
  r = (output r, store r, outcome r).
Proof. destruct r as [[o s] x]. reflexivity. Qed.

End Laws.

Lemma bind_attributes {B} (k : dict -> P B) reg ns :
  bind new_state_attributes k (mkWorld reg (Some ns))
  = k (attributes ns) (mkWorld reg (Some ns)).
Proof.
  unfold bind, new_state_attributes. cbn [new_state].
  destruct (k _ _) as [[o s'] r]. reflexivity.
Qed.

(** Unfolds the sequencing of effects and computes through it. *)
Ltac run_effects :=
  unfold bind, lift, ret, raise, emit, get, put;
  cbv beta iota zeta;
  cbn [app new_state conf_published fst snd].

Section PublisherFacts.

Variable env : Env.
Variable conf : Conf.

Lemma with_attributes_same ns : with_attributes ns (attributes ns) = ns.
Proof. destruct ns; reflexivity. Qed.

Lemma timestamps_step_spec mybase ns w :
  exists evs,
    publish_timestamps_step conf mybase ns w = (evs, w, inr tt)
    /\ map pub_site evs = timestamp_sites conf ns.
Proof.
  unfold publish_timestamps_step, timestamp_sites.
  destruct (publish_timestamps conf), (last_updated ns), (last_changed ns);
    eexists; split; reflexivity.
Qed.

Lemma for_each_publish (f : string * json -> publish) (l : dict) (w : world) :
  for_each l (fun kv => emit (f kv)) w = (map f l, w, inr tt).
Proof.
  induction l as [|kv l IH]; [reflexivity|].
  cbn [for_each]. unfold bind at 1. unfold emit at 1. rewrite IH. reflexivity.
Qed.

Lemma attributes_step_spec mybase ns reg :
  exists evs,
    publish_attributes_step conf mybase (mkWorld reg (Some ns))
      = (evs, mkWorld reg (Some ns), inr tt)
    /\ map pub_site evs = attribute_sites conf ns.
Proof.
  unfold publish_attributes_step, attribute_sites.
  destruct (publish_attributes conf).
  - unfold bind, new_state_attributes. cbn [new_state].
    unfold async_publish. rewrite for_each_publish.
    eexists; split; [reflexivity|].
    cbn [app]. rewrite map_map. reflexivity.
  - eexists; split; reflexivity.
Qed.


Lemma domain_returned_same d reg ns config b :
  b = eligible conf d (attributes ns) ->
  domain_outcome conf d reg ns ([], mkWorld reg (Some ns), inr (config, b)).
Proof.
  intros ->. rewrite <- (with_attributes_same ns) at 2.
  constructor. now left.
Qed.

Lemma domain_returned_climate d reg ns config attrs' b :
  (d =? "climate") = true ->
  b = eligible conf d (attributes ns) ->
  domain_outcome conf d reg ns
    ([], mkWorld reg (Some (with_attributes ns attrs')), inr (config, b)).
Proof. intros Hd ->. constructor. now right. Qed.

Lemma climate_config_spec d mybase config reg ns :
  (d =? "climate") = true ->
  eligible conf d (attributes ns) = true ->
  domain_outcome conf d reg ns (climate_config mybase config (mkWorld reg (Some ns)))
  /\ (climate_ready (attributes ns) = true ->
      exists c w', climate_config mybase config (mkWorld reg (Some ns))
                   = ([], w', inr (c, true))).
Proof.
  intros Hd He.
  unfold climate_config, climate_ready, new_state_attributes,
    dict_getitem, py_getitem, mutate_attribute.
  run_effects.
  destruct (Dict.get "max_temp" (attributes ns));
    [|split; [constructor|discriminate]].
  destruct (Dict.get "min_temp" (attributes ns));
    [|split; [constructor|discriminate]].
  destruct (Dict.get "hvac_modes" (attributes ns));
    [|split; [constructor|discriminate]].
  destruct (Dict.get "preset_modes" (attributes ns)) as [pm|];
    [|split; [constructor|discriminate]].
  destruct pm as [|b|q|s|l|o]; cbn [py_in]; run_effects;
    try (split; [constructor|discriminate]).
  - destruct (is_substring "none" s); run_effects.
    + split; [constructor|discriminate].
    + split; [|discriminate].
      apply domain_returned_same. now symmetry.
  - destruct (existsb (fun x => json_eq_str x "none") l); run_effects.
    + split; [|intros _; eauto].
      apply (domain_returned_climate d reg ns _
               (Dict.set "preset_modes" _ (attributes ns))); [exact Hd|now symmetry].
    + split; [|intros _; eauto].
      apply domain_returned_same. now symmetry.
  - destruct (Dict.mem "none" o); run_effects.
    + split; [constructor|discriminate].
    + split; [|discriminate].
      apply domain_returned_same. now symmetry.
Qed.

(** With "none" in the list, the climate branch stores the shortened list
    back into the attributes of the state object. *)
Lemma climate_config_removes_none mybase config reg ns mx mn hv l :
  Dict.get "max_temp" (attributes ns) = Some mx ->
  Dict.get "min_temp" (attributes ns) = Some mn ->
  Dict.get "hvac_modes" (attributes ns) = Some hv ->
  Dict.get "preset_modes" (attributes ns) = Some (JArr l) ->
  existsb (fun x => json_eq_str x "none") l = true ->
  exists c,
    climate_config mybase config (mkWorld reg (Some ns))
    = ([], mkWorld reg
             (Some (with_attributes ns
                      (Dict.set "preset_modes" (JArr (remove_first "none" l))
                         (attributes ns)))),
       inr (c, true)).
Proof.
  intros Hmx Hmn Hhv Hpm Hnone.
  unfold climate_config, new_state_attributes, dict_getitem, py_getitem,
    mutate_attribute.
  run_effects. rewrite Hmx, Hmn, Hhv, Hpm. cbn [py_in]. rewrite Hnone.
  run_effects. eexists. reflexivity.
Qed.

Lemma domain_config_spec e d mybase config reg ns :
  domain_outcome conf d reg ns (domain_config env conf e d mybase config (mkWorld reg (Some ns)))
  /\ (eligible conf d (attributes ns) = true ->
      ((d =? "climate") = true -> climate_ready (attributes ns) = true) ->
      exists c w', domain_config env conf e d mybase config (mkWorld reg (Some ns))
                   = ([], w', inr (c, true))).
Proof.
  unfold domain_config. rewrite bind_attributes.
  pose proof (eq_refl (eligible conf d (attributes ns))) as He.
  unfold eligible at 1 in He.
  destruct ((d =? "sensor") && (has_includes conf || Dict.mem "device_class" (attributes ns))).
  { split; [apply domain_returned_same; exact He | intros; unfold ret; eauto]. }
  destruct ((d =? "binary_sensor") && (has_includes conf || Dict.mem "device_class" (attributes ns))).
  { split; [apply domain_returned_same; exact He | intros; unfold ret; eauto]. }
  destruct (d =? "switch").
  { split; [apply domain_returned_same; exact He | intros; unfold ret; eauto]. }
  destruct (d =? "device_tracker").
  { split; [apply domain_returned_same; exact He | intros; unfold ret; eauto]. }
  destruct (d =? "climate") eqn:Hc.
  { cbn in He. symmetry in He.
    destruct (climate_config_spec d mybase config reg ns Hc He) as [H1 H2].
    split; [exact H1|]. intros _ Hr. exact (H2 (Hr eq_refl)). }
  destruct (d =? "light").
  { split; [apply domain_returned_same; exact He | intros; unfold ret; eauto]. }
  split; [apply domain_returned_same; exact He|].
  intros Hel. rewrite <- He in Hel. discriminate.
Qed.


Lemma discovery_step_spec e d i mybase reg ns :
  discovery_outcome conf e d reg ns
    (discovery_step env conf e d i mybase (mkWorld reg (Some ns))).
Proof.
  unfold discovery_step. rewrite bind_get. cbn [conf_published].
  destruct (publish_discovery conf) eqn:Hp; cbn [andb];
    [|constructor; now left].
  destruct (mem_string e reg) eqn:Hm; cbn [negb];
    [constructor; now right; left|].
  rewrite bind_attributes. unfold bind at 1.
  destruct (domain_config_spec e d mybase
              (common_config env e i mybase (attributes ns)) reg ns) as [H _].
  inversion H as [ex Heq | config attrs' Hat Heq].
  - constructor.
  - cbn [snd fst].
    destruct (eligible conf d (attributes ns)) eqn:He.
    + unfold async_publish, mark_published. run_effects.
      now constructor.
    + run_effects.
      destruct Hat as [-> | Hc].
      * rewrite with_attributes_same. constructor. now right; right.
      * unfold eligible in He. rewrite Hc in He.
        rewrite !orb_true_r in He. discriminate.
Qed.

Lemma domain_outcome_store d reg ns o w' r :
  domain_outcome conf d reg ns (o, w', r) ->
  exists ns', w' = mkWorld reg (Some ns').
Proof. intros H. inversion H; eauto. Qed.

Lemma discovery_step_ready e d i mybase reg ns :
  publish_discovery conf = true ->
  mem_string e reg = false ->
  eligible conf d (attributes ns) = true ->
  ((d =? "climate") = true -> climate_ready (attributes ns) = true) ->
  exists config ns',
    discovery_step env conf e d i mybase (mkWorld reg (Some ns))
    = ([mkPublish SiteConfig (entity_disc_topic conf e) (PJson (JObj config)) 1 true],
       mkWorld (reg ++ [e]) (Some ns'), inr tt).
Proof.
  intros Hp Hm He Hc.
  unfold discovery_step. rewrite bind_get. cbn [conf_published].
  rewrite Hp, Hm. cbn [andb negb].
  rewrite bind_attributes. unfold bind at 1.
  destruct (domain_config_spec e d mybase
              (common_config env e i mybase (attributes ns)) reg ns) as [H1 H2].
  destruct (H2 He Hc) as (c & w' & Heq).
  rewrite Heq in H1 |- *. cbn [snd fst].
  apply domain_outcome_store in H1. destruct H1 as [ns' ->].
  unfold async_publish, mark_published. run_effects.
  eauto.
Qed.



Lemma state_step_spec d mybase ns reg ns' :
  state_outcome conf d mybase ns (mkWorld reg (Some ns'))
    (state_step conf d mybase ns (mkWorld reg (Some ns'))).
Proof.
  unfold state_step, async_publish.
  destruct (publish_discovery conf) eqn:Hp; [|now constructor].
  destruct (d =? "light") eqn:Hd.
  - rewrite bind_attributes.
    destruct (light_payload (state ns) (attributes ns')) as [ex|payload] eqn:Hl.
    + rewrite bind_lift_inl. now constructor.
    + rewrite bind_lift_inr. run_effects. now apply StateLight with (attrs := attributes ns').
  - rewrite bind_emit, bind_emit, bind_attributes. cbn.
    now constructor.
Qed.

(** The call, once past the two early returns, as its three stages. *)
Lemma publish_entity_stages e ns reg :
  exists ts ats,
    map pub_site ts = timestamp_sites conf ns
    /\ map pub_site ats = attribute_sites conf ns
    /\ publish_entity env conf e ns (mkWorld reg (Some ns))
       = match split_char "." e with
         | d :: i :: _ =>
             let r1 := discovery_step env conf e d i (mybase_of conf e)
                         (mkWorld reg (Some ns)) in
             match outcome r1 with
             | inl ex => (ts ++ ats ++ output r1, store r1, inl ex)
             | inr _ =>
                 let r2 := state_step conf d (mybase_of conf e) ns (store r1) in
                 (ts ++ ats ++ output r1 ++ output r2, store r2, outcome r2)
             end
         | _ => (ts ++ ats, mkWorld reg (Some ns), inl IndexError)
         end.
Proof.
  destruct (timestamps_step_spec (mybase_of conf e) ns (mkWorld reg (Some ns)))
    as (ts & Hts & Hs1).
  destruct (attributes_step_spec (mybase_of conf e) ns reg) as (ats & Hats & Hs2).
  exists ts, ats. split; [exact Hs1|]. split; [exact Hs2|].
  unfold publish_entity. cbv zeta.
  unfold bind at 1. rewrite Hts.
  unfold bind at 1. rewrite Hats.
  destruct (split_char "." e) as [|d [|i rest]]; cbn [nth_error].
  - rewrite bind_lift_inl. now rewrite app_nil_r.
  - rewrite bind_lift_inr, bind_lift_inl. now rewrite app_nil_r.
  - rewrite bind_lift_inr, bind_lift_inr. unfold bind.
    destruct (discovery_step env conf e d i (mybase_of conf e) (mkWorld reg (Some ns)))
      as [[o1 w1] [ex|[]]]; cbn [outcome output store fst snd].
    + reflexivity.
    + destruct (state_step conf d (mybase_of conf e) ns w1) as [[o2 w2] r2].
      cbn [outcome output store fst snd]. reflexivity.
Qed.

End PublisherFacts.

(** ** Dictionaries and sites: small facts *)

Lemma get_set_other k k' v d :
  (k =? k') = false -> Dict.get k (Dict.set k' v d) = Dict.get k d.
Proof.
  intros Hk. induction d as [|[k0 v0] d IH]; cbn [Dict.set Dict.get].
  - now rewrite Hk.
  - destruct (k' =? k0) eqn:H0; cbn [Dict.get].
    + apply String.eqb_eq in H0. subst k0. now rewrite Hk.
    + destruct (k =? k0); [reflexivity|exact IH].
Qed.

Lemma get_set_same k v d : Dict.get k (Dict.set k v d) = Some v.
Proof.
  induction d as [|[k0 v0] d IH]; cbn [Dict.set Dict.get].
  - now rewrite String.eqb_refl.
  - destruct (k =? k0) eqn:H0; cbn [Dict.get]; rewrite H0; [reflexivity|exact IH].
Qed.

Lemma get_copy_other k a b attrs d :
  (k =? b) = false -> Dict.get k (copy_attribute a b attrs d) = Dict.get k d.
Proof.
  intros Hk. unfold copy_attribute.
  destruct (Dict.get a attrs); [now apply get_set_other|reflexivity].
Qed.

Lemma filter_site_absent s (l : list publish) :
  ~ In s (map pub_site l) -> filter (at_site s) l = [].
Proof.
  induction l as [|p l IH]; cbn [map filter]; intros Hn; [reflexivity|].
  unfold at_site at 1.
  destruct (site_eqb (pub_site p) s) eqn:He.
  - exfalso. apply Hn. left. destruct (pub_site p), s; try discriminate; reflexivity.
  - apply IH. intros Hin. apply Hn. now right.
Qed.

Lemma timestamp_sites_early conf ns s :
  In s (timestamp_sites conf ns) -> s = SiteLastUpdated \/ s = SiteLastChanged.
Proof.
  unfold timestamp_sites.
  destruct (publish_timestamps conf), (last_updated ns), (last_changed ns);
    cbn; intuition auto.
Qed.

Lemma attribute_sites_early conf ns s :
  In s (attribute_sites conf ns) -> s = SiteAttribute.
Proof.
  unfold attribute_sites. destruct (publish_attributes conf); [|intros []].
  rewrite in_map_iff. intros (x & <- & _). reflexivity.
Qed.

Lemma light_payload_state st attrs payload :
  light_payload st attrs = inr payload ->
  Dict.get "state" payload = Some (JStr (light_state st)).
Proof.
  unfold light_payload. destruct (light_color attrs) as [ex|color]; cbn [rbind];
    [discriminate|].
  assert (Dict.get "state"
            (copy_attribute "effect" "effect" attrs
               (copy_attribute "color_temp" "color_temp" attrs
                  (copy_attribute "color_mode" "color_mode" attrs
                     (copy_attribute "brightness" "brightness" attrs
                        [("state", JStr (light_state st))]))))
          = Some (JStr (light_state st))) as H
    by (rewrite !get_copy_other by reflexivity; reflexivity).
  destruct color; intros [= <-]; [exact H|].
  rewrite get_set_other by reflexivity. exact H.
Qed.

(** An XY colour alone: the colour object keeps the second coordinate under
    the key x, and no key y. *)
Lemma xy_color_encoding a b :
  light_color [("xy_color", JArr [a; b])] = inr [("x", b)].
Proof. reflexivity. Qed.

(** The decoder asks such a colour object for the key y. *)
Lemma x_only_color_raises b sp :
  turn_on_payload (JObj [("state", JStr "ON"); ("color", JObj [("x", b)])]) sp
  = inl (KeyError (JStr "y")).
Proof. reflexivity. Qed.

Lemma offline_iff st :
  state_is_offline st = true
  <-> st = None \/ st = Some STATE_UNAVAILABLE \/ st = Some STATE_UNKNOWN.
Proof.
  destruct st as [s|]; cbn [state_is_offline].
  - rewrite orb_true_iff, !String.eqb_eq. split.
    + intros [->| ->]; auto.
    + intros [H|[[= ->]|[= ->]]]; [discriminate|auto|auto].
  - split; auto.
Qed.

Lemma light_state_on st : light_state st = "ON" <-> st = Some STATE_ON.
Proof.
  destruct st as [s|]; cbn [light_state]; [|split; discriminate].
  destruct (s =? STATE_ON) eqn:H.
  - apply String.eqb_eq in H. subst. split; reflexivity.
  - apply String.eqb_neq in H. split; [discriminate|]. intros [= ->]. now elim H.
Qed.

Lemma light_state_cases st : light_state st = "ON" \/ light_state st = "OFF".
Proof.
  destruct st as [s|]; cbn [light_state]; [destruct (s =? STATE_ON)|]; auto.
Qed.

(** ** One notification *)

Section Cycle.

Variable env : Env.
Variable conf : Conf.

Lemma notify_none reg e : 
  notify env conf reg (mkNotification e None) = ([], mkWorld reg None, inr tt).
Proof. reflexivity. Qed.

Lemma notify_filtered reg n :
  publish_filter conf (n_entity_id n) = false ->
  notify env conf reg n = ([], mkWorld reg (n_new_state n), inr tt).
Proof.
  intros Hf. unfold notify, _state_publisher. rewrite bind_get. cbn [new_state].
  destruct (n_new_state n); [|reflexivity]. now rewrite Hf.
Qed.

Lemma notify_processed reg n ns :
  n_new_state n = Some ns ->
  publish_filter conf (n_entity_id n) = true ->
  notify env conf reg n
  = publish_entity env conf (n_entity_id n) ns (mkWorld reg (Some ns)).
Proof.
  intros Hn Hf. unfold notify, _state_publisher. rewrite bind_get. cbn [new_state].
  now rewrite Hn, Hf.
Qed.

Lemma discovery_step_off e d i mybase w :
  publish_discovery conf = false ->
  discovery_step env conf e d i mybase w = ([], w, inr tt).
Proof.
  intros Hp. unfold discovery_step. rewrite bind_get, Hp. reflexivity.
Qed.

Lemma state_step_off d mybase ns w :
  publish_discovery conf = false ->
  state_step conf d mybase ns w
  = ([mkPublish SiteState (mybase ++ "state") (text_payload (state ns)) 1 true],
     w, inr tt).
Proof. intros Hp. unfold state_step. rewrite Hp. reflexivity. Qed.

Lemma filter_early s ts ats ns :
  map pub_site ts = timestamp_sites conf ns ->
  map pub_site ats = attribute_sites conf ns ->
  s <> SiteLastUpdated -> s <> SiteLastChanged -> s <> SiteAttribute ->
  filter (at_site s) ts = [] /\ filter (at_site s) ats = [].
Proof.
  intros Hts Hats H1 H2 H3. split; apply filter_site_absent.
  - rewrite Hts. intros Hin. apply timestamp_sites_early in Hin. tauto.
  - rewrite Hats. intros Hin. apply attribute_sites_early in Hin. tauto.
Qed.

(** C7, as amended.  With discovery publishing disabled a notification
    that is processed publishes one bare state payload and, before it, only
    the timestamp topics (when [publish_timestamps] is on) and one payload
    per attribute (when [publish_attributes] is on); no discovery config,
    no availability payload and no JSON attributes payload is published,
    and the registry stays as it was. *)
Theorem discovery_disabled_publishes reg n ns d i rest :
  publish_discovery conf = false ->
  n_new_state n = Some ns ->
  publish_filter conf (n_entity_id n) = true ->
  split_char "." (n_entity_id n) = d :: i :: rest ->
  let r := notify env conf reg n in
  outcome r = inr tt
  /\ store r = mkWorld reg (Some ns)
  /\ map pub_site (output r)
     = timestamp_sites conf ns ++ attribute_sites conf ns ++ [SiteState]
  /\ filter (at_site SiteState) (output r)
     = [mkPublish SiteState (mybase_of conf (n_entity_id n) ++ "state")
          (text_payload (state ns)) 1 true]
  /\ filter (at_site SiteConfig) (output r) = []
  /\ filter (at_site SiteAvailability) (output r) = []
  /\ filter (at_site SiteAttributes) (output r) = [].
Proof.
  intros Hp Hn Hf Hs r. subst r.
  rewrite (notify_processed reg n ns Hn Hf).
  destruct (publish_entity_stages env conf (n_entity_id n) ns reg)
    as (ts & ats & Hts & Hats & ->).
  rewrite Hs. rewrite (discovery_step_off _ _ _ _ _ Hp).
  cbv zeta. cbn [outcome store output fst snd].
  rewrite (state_step_off _ _ _ _ Hp). cbn [outcome store output fst snd app].
  repeat split.
  - now rewrite !map_app, Hts, Hats.
  - rewrite !filter_app.
    destruct (filter_early SiteState ts ats ns Hts Hats) as [-> ->];
      try discriminate. reflexivity.
  - rewrite !filter_app.
    destruct (filter_early SiteConfig ts ats ns Hts Hats) as [-> ->];
      try discriminate. reflexivity.
  - rewrite !filter_app.
    destruct (filter_early SiteAvailability ts ats ns Hts Hats) as [-> ->];
      try discriminate. reflexivity.
  - rewrite !filter_app.
    destruct (filter_early SiteAttributes ts ats ns Hts Hats) as [-> ->];
      try discriminate. reflexivity.
Qed.

(** A processed notification with discovery publishing enabled: the early
    publishes [ts] and [ats], then what the discovery check publishes
    ([cfgs]), then what lines 291-344 publish ([sts]). *)
Lemma cycle_enabled reg n ns d i rest :
  publish_discovery conf = true ->
  n_new_state n = Some ns ->
  publish_filter conf (n_entity_id n) = true ->
  split_char "." (n_entity_id n) = d :: i :: rest ->
  exists ts ats cfgs w' sts r,
    notify env conf reg n = (ts ++ ats ++ cfgs ++ sts, w', r)
    /\ map pub_site ts = timestamp_sites conf ns
    /\ map pub_site ats = attribute_sites conf ns
    /\ ((cfgs = [] /\ sts = [] /\ w' = mkWorld reg (Some ns) /\ exists ex, r = inl ex)
        \/ (((cfgs = [] /\ w' = mkWorld reg (Some ns)
              /\ (mem_string (n_entity_id n) reg = true
                  \/ eligible conf d (attributes ns) = false))
             \/ (exists config attrs',
                   cfgs = [mkPublish SiteConfig (entity_disc_topic conf (n_entity_id n))
                             (PJson (JObj config)) 1 true]
                   /\ w' = mkWorld (reg ++ [n_entity_id n])
                             (Some (with_attributes ns attrs'))
                   /\ mem_string (n_entity_id n) reg = false
                   /\ eligible conf d (attributes ns) = true))
            /\ state_outcome conf d (mybase_of conf (n_entity_id n)) ns w' (sts, w', r))).
Proof.
  intros Hp Hn Hf Hs.
  rewrite (notify_processed reg n ns Hn Hf).
  destruct (publish_entity_stages env conf (n_entity_id n) ns reg)
    as (ts & ats & Hts & Hats & ->).
  rewrite Hs. cbv zeta.
  pose proof (discovery_step_spec env conf (n_entity_id n) d i
                (mybase_of conf (n_entity_id n)) reg ns) as Hd.
  inversion Hd as [ex Heq | Hskip Heq | config attrs' _ Hm He Heq];
    cbn [outcome output store fst snd].
  - exists ts, ats, [], (mkWorld reg (Some ns)), [], (inl ex).
    repeat split; auto. left. repeat split; eauto.
  - pose proof (state_step_spec conf d (mybase_of conf (n_entity_id n)) ns reg ns) as Hst.
    rewrite (triple_eta (state_step _ _ _ _ _)) in Hst.
    assert (Hw : store (state_step conf d (mybase_of conf (n_entity_id n)) ns
                          (mkWorld reg (Some ns))) = mkWorld reg (Some ns))
      by (inversion Hst; reflexivity).
    rewrite Hw in Hst |- *.
    eexists ts, ats, [], _, _, _.
    split; [reflexivity|]. repeat split; auto.
    right. split; [|exact Hst]. left. repeat split.
    destruct Hskip as [Hx|[Hx|Hx]]; [congruence|now left|now right].
  - pose proof (state_step_spec conf d (mybase_of conf (n_entity_id n)) ns
                  (reg ++ [n_entity_id n]) (with_attributes ns attrs')) as Hst.
    rewrite (triple_eta (state_step _ _ _ _ _)) in Hst.
    assert (Hw : store (state_step conf d (mybase_of conf (n_entity_id n)) ns
                          (mkWorld (reg ++ [n_entity_id n])
                             (Some (with_attributes ns attrs'))))
                 = mkWorld (reg ++ [n_entity_id n]) (Some (with_attributes ns attrs')))
      by (inversion Hst; reflexivity).
    rewrite Hw in Hst |- *.
    eexists ts, ats, [_], _, _, _.
    split; [reflexivity|]. repeat split; auto.
    right. split; [|exact Hst]. right.
    exists config, attrs'. repeat split; assumption.
Qed.

(** C6, as amended.  With discovery publishing enabled, a processed
    notification that runs to its end publishes, in this order: the
    timestamp topics and one payload per attribute (when those flags are
    on), the discovery config (when the entity is not yet in the registry
    and is eligible), the state payload, the availability payload and,
    for every domain but light, the JSON attributes payload, after the
    availability payload. *)
Theorem publish_order_with_discovery reg n ns d i rest :
  publish_discovery conf = true ->
  n_new_state n = Some ns ->
  publish_filter conf (n_entity_id n) = true ->
  split_char "." (n_entity_id n) = d :: i :: rest ->
  outcome (notify env conf reg n) = inr tt ->
  map pub_site (output (notify env conf reg n))
  = timestamp_sites conf ns ++ attribute_sites conf ns
    ++ (if negb (mem_string (n_entity_id n) reg) && eligible conf d (attributes ns)
        then [SiteConfig] else [])
    ++ [SiteState; SiteAvailability]
    ++ (if d =? "light" then [] else [SiteAttributes]).
Proof.
  intros Hp Hn Hf Hs.
  destruct (cycle_enabled reg n ns d i rest Hp Hn Hf Hs)
    as (ts & ats & cfgs & w' & sts & r & -> & Hts & Hats & Hc).
  cbn [outcome output fst snd]. intros ->.
  destruct Hc as [(_ & _ & _ & ex & Hex) | [Hc Hst]]; [discriminate|].
  rewrite !map_app, Hts, Hats. f_equal. f_equal.
  assert (Hcf : map pub_site cfgs
                = if negb (mem_string (n_entity_id n) reg)
                     && eligible conf d (attributes ns)
                  then [SiteConfig] else []).
  { destruct Hc as [(-> & _ & [Hm|He]) | (config & attrs' & -> & _ & Hm & He)].
    - now rewrite Hm.
    - now rewrite He, andb_false_r.
    - now rewrite Hm, He. }
  rewrite Hcf. f_equal.
  inversion Hst as [Hoff | ex Hon Hd | payload attrs Hon Hd Hl | attrs Hon Hd].
  - congruence.
  - now rewrite Hd.
  - now rewrite Hd.
Qed.

Lemma early_not_at s ts ats ns p :
  map pub_site ts = timestamp_sites conf ns ->
  map pub_site ats = attribute_sites conf ns ->
  s <> SiteLastUpdated -> s <> SiteLastChanged -> s <> SiteAttribute ->
  In p (ts ++ ats) -> pub_site p <> s.
Proof.
  intros Hts Hats H1 H2 H3 Hin Hs.
  apply in_app_or in Hin. destruct Hin as [Hin|Hin];
    apply (in_map pub_site) in Hin; rewrite Hs in Hin.
  - rewrite Hts in Hin. apply timestamp_sites_early in Hin. tauto.
  - rewrite Hats in Hin. apply attribute_sites_early in Hin. tauto.
Qed.

(** C8.  With discovery publishing enabled, every availability payload a
    processed notification publishes is the one computed from the state,
    a notification that runs to its end publishes exactly one, and that
    payload is "offline" exactly when the state is "unavailable",
    "unknown" or None, and "online" for every other state. *)
Theorem availability_tracks_state reg n ns d i rest :
  publish_discovery conf = true ->
  n_new_state n = Some ns ->
  publish_filter conf (n_entity_id n) = true ->
  split_char "." (n_entity_id n) = d :: i :: rest ->
  let r := notify env conf reg n in
  let mybase := mybase_of conf (n_entity_id n) in
  (forall p, In p (output r) -> pub_site p = SiteAvailability ->
             p = availability_publish mybase ns)
  /\ (outcome r = inr tt ->
      filter (at_site SiteAvailability) (output r) = [availability_publish mybase ns])
  /\ (pub_payload (availability_publish mybase ns) = PText "offline"
      <-> state ns = None \/ state ns = Some "unavailable" \/ state ns = Some "unknown")
  /\ (pub_payload (availability_publish mybase ns) = PText "online"
      <-> ~ (state ns = None \/ state ns = Some "unavailable"
            \/ state ns = Some "unknown")).
Proof.
  intros Hp Hn Hf Hs r mybase. subst r mybase.
  destruct (cycle_enabled reg n ns d i rest Hp Hn Hf Hs)
    as (ts & ats & cfgs & w' & sts & r & -> & Hts & Hats & Hc).
  cbn [outcome output fst snd].
  assert (Hcfg : forall p, In p cfgs -> pub_site p = SiteConfig).
  { destruct Hc as [(-> & _) | [[(-> & _) | (config & attrs' & -> & _)] _]];
      intros p []; subst; try reflexivity. contradiction. }
  repeat split.
  - intros p Hin Hsite.
    rewrite app_assoc in Hin. apply in_app_or in Hin. destruct Hin as [Hin|Hin].
    { exfalso. revert Hsite.
      apply (early_not_at _ ts ats ns p Hts Hats); auto; discriminate. }
    apply in_app_or in Hin. destruct Hin as [Hin|Hin].
    { apply Hcfg in Hin. congruence. }
    destruct Hc as [(_ & -> & _) | [_ Hst]]; [destruct Hin|].
    inversion Hst as [Hoff Ho | ex Hon Hd Ho | payload attrs Hon Hd Hl Ho | attrs Hon Hd Ho];
      rewrite <- Ho in Hin; cbn [In] in Hin.
    + congruence.
    + destruct Hin.
    + destruct Hin as [<-|[<-|[]]]; [discriminate|reflexivity].
    + destruct Hin as [<-|[<-|[<-|[]]]]; [discriminate|reflexivity|discriminate].
  - intros ->.
    destruct Hc as [(_ & _ & _ & ex & Hex) | [_ Hst]]; [discriminate|].
    rewrite !filter_app.
    destruct (filter_early SiteAvailability ts ats ns Hts Hats) as [-> ->];
      try discriminate.
    rewrite (filter_site_absent SiteAvailability cfgs).
    2:{ rewrite in_map_iff. intros (p & Hp1 & Hp2). apply Hcfg in Hp2. congruence. }
    inversion Hst as [Hoff | ex Hon Hd | payload attrs Hon Hd Hl | attrs Hon Hd];
      [congruence|reflexivity|reflexivity].
  - intros H. apply offline_iff. cbn in H. unfold availability_payload in H.
    destruct (state_is_offline (state ns)); [reflexivity|discriminate].
  - intros H. apply offline_iff in H. cbn. unfold availability_payload.
    now rewrite H.
  - intros H H'. apply offline_iff in H'. cbn in H. unfold availability_payload in H.
    rewrite H' in H. discriminate.
  - intros H. cbn. unfold availability_payload.
    destruct (state_is_offline (state ns)) eqn:Ho; [|reflexivity].
    apply offline_iff in Ho. contradiction.
Qed.

(** C10.  With discovery publishing enabled, the state payload of a light
    is a JSON object whose field "state" is "ON" exactly when the state is
    "on" and "OFF" for every other state; so for "unavailable" and
    "unknown" the field is "OFF" while the availability payload of the same
    notification is "offline". *)
Theorem light_state_field reg n ns d i rest :
  publish_discovery conf = true ->
  n_new_state n = Some ns ->
  publish_filter conf (n_entity_id n) = true ->
  split_char "." (n_entity_id n) = d :: i :: rest ->
  d = "light" ->
  let r := notify env conf reg n in
  let mybase := mybase_of conf (n_entity_id n) in
  (forall p, In p (output r) -> pub_site p = SiteState ->
     exists payload,
       pub_payload p = PJson (JObj payload)
       /\ Dict.get "state" payload
          = Some (JStr (if match state ns with
                           | Some s => s =? "on"
                           | None => false
                           end then "ON" else "OFF")))
  /\ (outcome r = inr tt ->
      exists before payload,
        output r = before ++ [mkPublish SiteState (mybase ++ "state")
                                (PJson (JObj payload)) 1 true;
                              availability_publish mybase ns])
  /\ (state ns = Some "unavailable" \/ state ns = Some "unknown" ->
      light_state (state ns) = "OFF"
      /\ availability_payload (state ns) = "offline").
Proof.
  intros Hp Hn Hf Hs Hl r mybase. subst r mybase.
  destruct (cycle_enabled reg n ns d i rest Hp Hn Hf Hs)
    as (ts & ats & cfgs & w' & sts & r & -> & Hts & Hats & Hc).
  cbn [outcome output fst snd].
  assert (Hcfg : forall p, In p cfgs -> pub_site p = SiteConfig).
  { destruct Hc as [(-> & _) | [[(-> & _) | (config & attrs' & -> & _)] _]];
      intros p []; subst; try reflexivity. contradiction. }
  assert (Hd : (d =? "light") = true) by (subst d; reflexivity).
  repeat split.
  - intros p Hin Hsite.
    rewrite app_assoc in Hin. apply in_app_or in Hin. destruct Hin as [Hin|Hin].
    { exfalso. revert Hsite.
      apply (early_not_at _ ts ats ns p Hts Hats); auto; discriminate. }
    apply in_app_or in Hin. destruct Hin as [Hin|Hin].
    { apply Hcfg in Hin. congruence. }
    destruct Hc as [(_ & -> & _) | [_ Hst]]; [destruct Hin|].
    inversion Hst as [Hoff Ho | ex Hon Hd' Ho | payload attrs Hon Hd' Hpl Ho
                      | attrs Hon Hd' Ho];
      rewrite <- Ho in Hin; cbn [In] in Hin.
    + congruence.
    + destruct Hin.
    + destruct Hin as [<-|[<-|[]]]; [|discriminate].
      exists payload. split; [reflexivity|].
      rewrite (light_payload_state _ _ _ Hpl).
      destruct (state ns); reflexivity.
    + congruence.
  - intros ->.
    destruct Hc as [(_ & _ & _ & ex & Hex) | [_ Hst]]; [discriminate|].
    inversion Hst as [Hoff | ex Hon Hd' | payload attrs Hon Hd' Hpl | attrs Hon Hd'];
      [congruence| |congruence].
    exists (ts ++ ats ++ cfgs), payload. now rewrite <- !app_assoc.
  - destruct H as [-> | ->]; reflexivity.
  - destruct H as [-> | ->]; reflexivity.
Qed.

End Cycle.

(** ** The registry along a run *)

Lemma mem_string_app x l1 l2 :
  mem_string x (l1 ++ l2) = mem_string x l1 || mem_string x l2.
Proof. unfold mem_string. apply existsb_app. Qed.

Lemma mem_string_single x y : mem_string x [y] = (x =? y).
Proof. unfold mem_string. cbn. apply orb_false_r. Qed.

Lemma publishes_of_app e s tr1 tr2 :
  publishes_of e s (tr1 ++ tr2) = publishes_of e s tr1 ++ publishes_of e s tr2.
Proof. unfold publishes_of. apply filter_app. Qed.

Lemma publishes_of_cycle e s e' (evs : list publish) :
  publishes_of e s (map (pair e') evs)
  = if e' =? e then map (pair e') (filter (at_site s) evs) else [].
Proof.
  unfold publishes_of.
  induction evs as [|p evs IH]; cbn [map filter fst snd].
  - now destruct (e' =? e).
  - rewrite IH. destruct (e' =? e); cbn [andb]; [|reflexivity].
    destruct (at_site s p); reflexivity.
Qed.

Section Run.

Variable env : Env.
Variable conf : Conf.

Lemma state_step_quiet d mybase ns reg ns' :
  store (state_step conf d mybase ns (mkWorld reg (Some ns'))) = mkWorld reg (Some ns')
  /\ filter (at_site SiteConfig)
       (output (state_step conf d mybase ns (mkWorld reg (Some ns')))) = [].
Proof.
  pose proof (state_step_spec conf d mybase ns reg ns') as H.
  inversion H; split; reflexivity.
Qed.

(** A call leaves the registry alone and publishes no discovery config, or
    appends its entity, which was not there, and publishes one; the latter
    only for an entity that is eligible. *)
Lemma notify_registry reg n :
  let r := notify env conf reg n in
  (conf_published (store r) = reg /\ filter (at_site SiteConfig) (output r) = [])
  \/ (conf_published (store r) = reg ++ [n_entity_id n]
      /\ mem_string (n_entity_id n) reg = false
      /\ (exists cfg, filter (at_site SiteConfig) (output r) = [cfg])
      /\ exists ns d i rest,
           n_new_state n = Some ns
           /\ split_char "." (n_entity_id n) = d :: i :: rest
           /\ eligible conf d (attributes ns) = true).
Proof.
  cbv zeta.
  destruct (n_new_state n) as [ns|] eqn:Hn.
  2:{ left. unfold notify. rewrite Hn. split; reflexivity. }
  destruct (publish_filter conf (n_entity_id n)) eqn:Hf.
  2:{ left. rewrite (notify_filtered env conf reg n Hf). split; reflexivity. }
  rewrite (notify_processed env conf reg n ns Hn Hf).
  destruct (publish_entity_stages env conf (n_entity_id n) ns reg)
    as (ts & ats & Hts & Hats & ->).
  destruct (filter_early conf SiteConfig ts ats ns Hts Hats) as [Ht Ha];
    try discriminate.
  destruct (split_char "." (n_entity_id n)) as [|d [|i rest]] eqn:Hs.
  - left. cbn [store output fst snd]. now rewrite filter_app, Ht, Ha.
  - left. cbn [store output fst snd]. now rewrite filter_app, Ht, Ha.
  - cbv zeta.
    pose proof (discovery_step_spec env conf (n_entity_id n) d i
                  (mybase_of conf (n_entity_id n)) reg ns) as Hd.
    inversion Hd as [ex Heq | Hskip Heq | config attrs' Hp Hm He Heq];
      cbn [outcome output store fst snd].
    + left. now rewrite !filter_app, Ht, Ha.
    + left.
      destruct (state_step_quiet d (mybase_of conf (n_entity_id n)) ns reg ns)
        as [-> Hq].
      now rewrite !filter_app, Ht, Ha, Hq.
    + right.
      destruct (state_step_quiet d (mybase_of conf (n_entity_id n)) ns
                  (reg ++ [n_entity_id n]) (with_attributes ns attrs'))
        as [-> Hq].
      repeat split; auto.
      * rewrite !filter_app, Ht, Ha, Hq. cbn. eauto.
      * exists ns, d, i, rest. auto.
Qed.

Lemma sensor_needs_device_class d attrs :
  d = "sensor" \/ d = "binary_sensor" ->
  has_includes conf = false ->
  Dict.mem "device_class" attrs = false ->
  eligible conf d attrs = false.
Proof.
  intros Hd Hi Hc. unfold eligible. rewrite Hi, Hc.
  destruct Hd as [-> | ->]; reflexivity.
Qed.

(** C9.  For a sensor or binary_sensor entity, with no include filter
    active and no notification of the entity carrying a [device_class]
    attribute, a run publishes no discovery config for the entity, whatever
    the registry at its start and however many notifications arrive. *)
Theorem no_discovery_without_device_class e d rest reg ns :
  split_char "." e = d :: rest ->
  d = "sensor" \/ d = "binary_sensor" ->
  has_includes conf = false ->
  Forall (fun n => n_entity_id n = e ->
                   forall s, n_new_state n = Some s ->
                             Dict.mem "device_class" (attributes s) = false) ns ->
  publishes_of e SiteConfig (run env conf reg ns) = [].
Proof.
  intros Hs Hd Hi H. revert reg.
  induction H as [|n ns Hn _ IH]; intros reg; cbn [run]; [reflexivity|].
  rewrite publishes_of_app, IH, app_nil_r, publishes_of_cycle.
  destruct (n_entity_id n =? e) eqn:He; [|reflexivity].
  apply String.eqb_eq in He.
  destruct (notify_registry reg n)
    as [[_ ->] | (_ & _ & _ & s & d' & i & rest' & Hns & Hs' & Hel)];
    [reflexivity|].
  rewrite He, Hs in Hs'. injection Hs' as <- _.
  rewrite (sensor_needs_device_class d (attributes s) Hd Hi (Hn He s Hns)) in Hel.
  discriminate.
Qed.

End Run.

(** ** The command decoder *)


Lemma pass_through_obj k o sp :
  pass_through k (JObj o) sp = inr (copy_attribute k k o sp).
Proof.
  unfold pass_through, copy_attribute, py_in, py_getitem, Dict.mem. cbn [rbind].
  destruct (Dict.get k o); reflexivity.
Qed.

Lemma read_fields_fold o c fields :
  Dict.get ATTR_COLOR o = Some (JObj c) ->
  fold_right
    (fun f rest =>
       let* color := py_getitem (JObj o) ATTR_COLOR in
       let* v := py_getitem color f in
       let* vs := rest in
       inr (v :: vs))
    (inr []) fields
  = read_fields c fields.
Proof.
  intros Hc. induction fields as [|f fs IH]; cbn [fold_right read_fields];
    [reflexivity|].
  rewrite IH. unfold py_getitem. rewrite Hc. cbn [rbind].
  destruct (Dict.get f c); reflexivity.
Qed.

Lemma color_field_obj tag attr fields o c sp :
  Dict.get ATTR_COLOR o = Some (JObj c) ->
  color_field tag attr fields (JObj o) sp
  = if Dict.mem tag c
    then let* vs := read_fields c fields in inr (Dict.set attr (JArr vs) sp)
    else inr sp.
Proof.
  intros Hc. unfold color_field. rewrite (read_fields_fold o c fields Hc).
  unfold py_getitem. rewrite Hc. cbn [rbind py_in].
  destruct (Dict.mem tag c); reflexivity.
Qed.

Lemma mem_get k d : Dict.mem k d = match Dict.get k d with Some _ => true | None => false end.
Proof. reflexivity. Qed.

Section DecoderFacts.

Variable env : Env.

(** A message on [<base>/light/<entity>/set_light] reaches the [else]
    branch of lines 109-151 after the debug record. *)
Lemma set_light_reached msg base entity rest :
  split_char "/" (topic msg) = base :: "light" :: entity :: "set_light" :: rest ->
  _message_received env msg tt
  = (LogDebug (topic msg) (msg_payload msg)
       :: output (set_light env "light" entity msg tt),
     tt, outcome (set_light env "light" entity msg tt)).
Proof.
  intros Hs. unfold _message_received. cbv zeta. rewrite Hs.
  cbn [level nth_error]. rewrite !bind_lift_inr, bind_emit.
  change ("set_light" =? "set") with false. change ("set_light" =? "set_light") with true.
  change ("light" =? "light") with true. cbn [negb].
  rewrite bind_ret.
  destruct (set_light env "light" entity msg tt) as [[o []] r]. reflexivity.
Qed.

(** A payload that is not JSON: [json.loads] raises, nothing is logged as
    an error and nothing is dispatched. *)
Lemma not_json_raises msg base entity rest :
  split_char "/" (topic msg) = base :: "light" :: entity :: "set_light" :: rest ->
  json_loads env (msg_payload msg) = None ->
  _message_received env msg tt
  = ([LogDebug (topic msg) (msg_payload msg)], tt, inl JSONDecodeError).
Proof.
  intros Hs Hl. rewrite (set_light_reached msg base entity rest Hs).
  unfold set_light. rewrite Hl, bind_lift_inl. reflexivity.
Qed.

(** A JSON object without the field [state]: the subscript raises. *)
Lemma missing_state_raises msg base entity rest o :
  split_char "/" (topic msg) = base :: "light" :: entity :: "set_light" :: rest ->
  json_loads env (msg_payload msg) = Some (JObj o) ->
  Dict.get "state" o = None ->
  _message_received env msg tt
  = ([LogDebug (topic msg) (msg_payload msg)], tt, inl (KeyError (JStr "state"))).
Proof.
  intros Hs Hl Hst. rewrite (set_light_reached msg base entity rest Hs).
  unfold set_light. rewrite Hl, bind_lift_inr.
  rewrite pass_through_obj, bind_lift_inr.
  unfold py_getitem. rewrite Hst, bind_lift_inl. reflexivity.
Qed.

Lemma set_light_on entity msg o c :
  json_loads env (msg_payload msg) = Some (JObj o) ->
  Dict.get "state" o = Some (JStr "ON") ->
  Dict.get ATTR_COLOR o = Some (JObj c) ->
  color_complete c = true ->
  exists data,
    set_light env "light" entity msg tt
    = ([ServiceCall "light" SERVICE_TURN_ON data], tt, inr tt)
    /\ Dict.mem ATTR_HS_COLOR data = Dict.mem ATTR_H c
    /\ Dict.mem ATTR_XY_COLOR data = Dict.mem ATTR_X c
    /\ Dict.mem ATTR_RGB_COLOR data = Dict.mem ATTR_R c
    /\ (Dict.mem ATTR_H c = true ->
        inr (Dict.get ATTR_HS_COLOR data)
        = let* vs := read_fields c [ATTR_H; ATTR_S] in inr (Some (JArr vs)))
    /\ (Dict.mem ATTR_X c = true ->
        inr (Dict.get ATTR_XY_COLOR data)
        = let* vs := read_fields c [ATTR_X; ATTR_Y] in inr (Some (JArr vs)))
    /\ (Dict.mem ATTR_R c = true ->
        inr (Dict.get ATTR_RGB_COLOR data)
        = let* vs := read_fields c [ATTR_R; ATTR_G; ATTR_B] in inr (Some (JArr vs))).
Proof.
  intros Hl Hst Hc Hcomplete.
  unfold set_light. rewrite Hl, bind_lift_inr.
  rewrite pass_through_obj, bind_lift_inr.
  unfold py_getitem at 1. rewrite Hst, bind_lift_inr. cbn [json_eq_str].
  change ("ON" =? "ON") with true. cbv iota.
  unfold turn_on_payload.
  rewrite pass_through_obj. cbn [rbind].
  rewrite pass_through_obj. cbn [rbind py_in].
  rewrite mem_get, Hc.
  rewrite (color_field_obj ATTR_H _ _ o c _ Hc).
  set (sp1 := copy_attribute ATTR_COLOR_TEMP ATTR_COLOR_TEMP o
                (copy_attribute ATTR_BRIGHTNESS ATTR_BRIGHTNESS o
                   (copy_attribute ATTR_TRANSITION ATTR_TRANSITION o
                      [(ATTR_ENTITY_ID, JStr ("light" ++ "." ++ entity))]))).
  assert (Hsp1 : forall k, (k =? ATTR_COLOR_TEMP) = false ->
                           (k =? ATTR_BRIGHTNESS) = false ->
                           (k =? ATTR_TRANSITION) = false ->
                           (k =? ATTR_ENTITY_ID) = false ->
                           Dict.get k sp1 = None).
  { intros k H1 H2 H3 H4. unfold sp1. rewrite !get_copy_other by assumption.
    cbn [Dict.get]. now rewrite H4. }
  unfold color_complete in Hcomplete. rewrite !mem_get in Hcomplete.
  cbn [read_fields rbind]. rewrite !mem_get.
  destruct (Dict.get ATTR_H c) as [hv|];
    [destruct (Dict.get ATTR_S c) as [sv|]; [|discriminate]|];
    cbn [rbind];
    rewrite (color_field_obj ATTR_X _ _ o c _ Hc);
    cbn [read_fields rbind]; rewrite !mem_get;
    (destruct (Dict.get ATTR_X c) as [xv|];
     [destruct (Dict.get ATTR_Y c) as [yv|]; [|discriminate]|]);
    cbn [rbind];
    rewrite (color_field_obj ATTR_R _ _ o c _ Hc);
    cbn [read_fields rbind]; rewrite !mem_get;
    (destruct (Dict.get ATTR_R c) as [rv|];
     [destruct (Dict.get ATTR_G c) as [gv|]; [|discriminate];
      destruct (Dict.get ATTR_B c) as [bv|]; [|discriminate]|]);
    cbn [rbind]; rewrite bind_lift_inr;
    (eexists; split; [reflexivity|]);
    unfold Dict.mem;
    rewrite ?get_set_same, ?get_set_other by reflexivity;
    rewrite ?get_set_same, ?get_set_other by reflexivity;
    rewrite ?get_set_same, ?get_set_other by reflexivity;
    rewrite ?Hsp1 by reflexivity;
    repeat split; intros; try reflexivity; try discriminate.
Qed.

(** C5, as amended.  For a [set_light] payload with state "ON" whose
    colour object holds, for each tag present (h, x, r), the other
    sub-fields of that representation, the decoder dispatches one turn-on
    whose data holds every representation whose tag is present: [hs_color]
    exactly when h is, [xy_color] exactly when x is, [rgb_color] exactly
    when r is, each with the values of the colour object. *)
Theorem every_present_color_forwarded msg base entity rest o c :
  split_char "/" (topic msg) = base :: "light" :: entity :: "set_light" :: rest ->
  json_loads env (msg_payload msg) = Some (JObj o) ->
  Dict.get "state" o = Some (JStr "ON") ->
  Dict.get ATTR_COLOR o = Some (JObj c) ->
  color_complete c = true ->
  exists data,
    _message_received env msg tt
    = ([LogDebug (topic msg) (msg_payload msg);
        ServiceCall "light" SERVICE_TURN_ON data], tt, inr tt)
    /\ Dict.mem ATTR_HS_COLOR data = Dict.mem ATTR_H c
    /\ Dict.mem ATTR_XY_COLOR data = Dict.mem ATTR_X c
    /\ Dict.mem ATTR_RGB_COLOR data = Dict.mem ATTR_R c
    /\ (Dict.mem ATTR_H c = true ->
        inr (Dict.get ATTR_HS_COLOR data)
        = let* vs := read_fields c [ATTR_H; ATTR_S] in inr (Some (JArr vs)))
    /\ (Dict.mem ATTR_X c = true ->
        inr (Dict.get ATTR_XY_COLOR data)
        = let* vs := read_fields c [ATTR_X; ATTR_Y] in inr (Some (JArr vs)))
    /\ (Dict.mem ATTR_R c = true ->
        inr (Dict.get ATTR_RGB_COLOR data)
        = let* vs := read_fields c [ATTR_R; ATTR_G; ATTR_B] in inr (Some (JArr vs))).
Proof.
  intros Hs Hl Hst Hc Hcomplete.
  rewrite (set_light_reached msg base entity rest Hs).
  destruct (set_light_on entity msg o c Hl Hst Hc Hcomplete) as (data & -> & H).
  exists data. split; [reflexivity|exact H].
Qed.

End DecoderFacts.

(** ** The claims on sample data *)

Module Examples.

Import Sample.


(** C3.  The climate branch removes "none" from the very list the snapshot
    holds: after the call the snapshot's [preset_modes] is
    ["eco", "away"], not ["none", "eco", "away"] as handed in. *)
Theorem climate_discovery_mutates_snapshot :
  let r := notify env discovery_on [] hall in
  outcome r = inr tt
  /\ n_new_state hall = Some climate
  /\ Dict.get "preset_modes" (attributes climate)
     = Some (JArr [JStr "none"; JStr "eco"; JStr "away"])
  /\ (exists after,
        new_state (store r) = Some after
        /\ Dict.get "preset_modes" (attributes after)
           = Some (JArr [JStr "eco"; JStr "away"]))
  /\ new_state (store r) <> Some climate.
Proof.
  cbv zeta. repeat split.
  - eexists. split; reflexivity.
  - intros H. vm_compute in H. discriminate H.
Qed.

(** C2.  A light with the XY colour (0.3, 0.6) is published with the colour
    object holding the single key x, set to the second coordinate; decoding
    a command with that colour object raises on the key y and dispatches
    nothing. *)
Theorem xy_color_does_not_round_trip :
  light_color (attributes lamp_xy) = inr [("x", JNum (6 # 10))]
  /\ filter (at_site SiteState) (output (notify env discovery_on [] lamp))
     = [mkPublish SiteState "ha/light/lamp/state"
          (PJson (JObj [("state", JStr "ON");
                        ("color", JObj [("x", JNum (6 # 10))])])) 1 true]
  /\ json_loads env x_only_text
     = Some (JObj [("state", JStr "ON"); ("color", JObj [("x", JNum (6 # 10))])])
  /\ _message_received env (mkMessage "ha/light/lamp/set_light" x_only_text) tt
     = ([LogDebug "ha/light/lamp/set_light" x_only_text], tt,
        inl (KeyError (JStr "y"))).
Proof. repeat split. Qed.

(** C4.  A [set_light] payload that is not JSON, and one that is an object
    without the field state, make the handler raise: no error is logged
    and the handler does not return normally. *)
Theorem malformed_set_light_raises :
  json_loads env "nope" = None
  /\ _message_received env (mkMessage "ha/light/lamp/set_light" "nope") tt
     = ([LogDebug "ha/light/lamp/set_light" "nope"], tt, inl JSONDecodeError)
  /\ json_loads env "{}" = Some (JObj [])
  /\ _message_received env (mkMessage "ha/light/lamp/set_light" "{}") tt
     = ([LogDebug "ha/light/lamp/set_light" "{}"], tt,
        inl (KeyError (JStr "state"))).
Proof.
  split; [reflexivity|]. split.
  - exact (not_json_raises env (mkMessage "ha/light/lamp/set_light" "nope")
             "ha" "lamp" [] eq_refl eq_refl).
  - split; [reflexivity|].
    exact (missing_state_raises env (mkMessage "ha/light/lamp/set_light" "{}")
             "ha" "lamp" [] [] eq_refl eq_refl eq_refl).
Qed.

(** C5, counterexample.  A colour object with both an HS and an XY pair:
    both are forwarded, not the HS pair alone. *)
Lemma two_color_specs_forwarded :
  exists data,
    _message_received env (mkMessage "ha/light/lamp/set_light" two_colors_text) tt
    = ([LogDebug "ha/light/lamp/set_light" two_colors_text;
        ServiceCall "light" "turn_on" data], tt, inr tt)
    /\ forwarded_color_specs data = ["hs_color"; "xy_color"]
    /\ length (forwarded_color_specs data) <> 1.
Proof.
  eexists. split; [vm_compute; reflexivity|].
  split; [reflexivity|]. cbn. discriminate.
Qed.

(** C6, counterexample.  A switch: the attributes payload comes after the
    availability payload. *)
Lemma attributes_after_availability :
  map pub_site (output (notify env discovery_on [] plug))
  = [SiteConfig; SiteState; SiteAvailability; SiteAttributes]
  /\ exists before after,
       map pub_site (output (notify env discovery_on [] plug))
       = before ++ SiteAvailability :: after
       /\ In SiteAttributes after.
Proof.
  split; [reflexivity|].
  exists [SiteConfig; SiteState], [SiteAttributes].
  split; [reflexivity|]. now left.
Qed.

(** C7, counterexample.  Discovery publishing disabled and
    [publish_attributes] on: the attribute is published before the state,
    so the state payload is not the only publish. *)
Lemma attribute_published_without_discovery :
  publish_discovery attributes_only = false
  /\ output (notify env attributes_only [] plug)
     = [mkPublish SiteAttribute "ha/switch/plug/icon" (PJson (JStr "mdi:plug")) 1 true;
        mkPublish SiteState "ha/switch/plug/state" (PText "on") 1 true]
  /\ length (output (notify env attributes_only [] plug)) <> 1.
Proof. repeat split. cbn. discriminate. Qed.

(** C5 on the payload with an HS and an XY pair. *)
Lemma every_present_color_forwarded_witness :
  color_complete [("h", JNum 10); ("s", JNum 20); ("x", JNum 3); ("y", JNum 4)] = true
  /\ exists data,
       _message_received env (mkMessage "ha/light/lamp/set_light" two_colors_text) tt
       = ([LogDebug "ha/light/lamp/set_light" two_colors_text;
           ServiceCall "light" SERVICE_TURN_ON data], tt, inr tt)
       /\ Dict.mem ATTR_HS_COLOR data = true
       /\ Dict.mem ATTR_XY_COLOR data = true
       /\ Dict.mem ATTR_RGB_COLOR data = false.
Proof.
  split; [reflexivity|].
  destruct (every_present_color_forwarded env
              (mkMessage "ha/light/lamp/set_light" two_colors_text)
              "ha" "lamp" []
              [("state", JStr "ON");
               ("color", JObj [("h", JNum 10); ("s", JNum 20);
                               ("x", JNum 3); ("y", JNum 4)])]
              [("h", JNum 10); ("s", JNum 20); ("x", JNum 3); ("y", JNum 4)]
              eq_refl eq_refl eq_refl eq_refl eq_refl)
    as (data & H1 & H2 & H3 & H4 & _).
  exists data. repeat split; assumption.
Defined.

(** C6 on the plug. *)
Lemma publish_order_with_discovery_witness :
  map pub_site (output (notify env discovery_on [] plug))
  = timestamp_sites discovery_on switch ++ attribute_sites discovery_on switch
    ++ (if negb (mem_string (n_entity_id plug) [])
           && eligible discovery_on "switch" (attributes switch)
        then [SiteConfig] else [])
    ++ [SiteState; SiteAvailability]
    ++ (if "switch" =? "light" then [] else [SiteAttributes]).
Proof.
  exact (publish_order_with_discovery env discovery_on [] plug switch
           "switch" "plug" [] eq_refl eq_refl eq_refl eq_refl eq_refl).
Defined.

(** C7 on the plug, with [publish_attributes] on. *)
Lemma discovery_disabled_publishes_witness :
  let r := notify env attributes_only [] plug in
  outcome r = inr tt
  /\ store r = mkWorld [] (Some switch)
  /\ map pub_site (output r)
     = timestamp_sites attributes_only switch
         ++ attribute_sites attributes_only switch ++ [SiteState]
  /\ filter (at_site SiteState) (output r)
     = [mkPublish SiteState (mybase_of attributes_only (n_entity_id plug) ++ "state")
          (text_payload (state switch)) 1 true]
  /\ filter (at_site SiteConfig) (output r) = []
  /\ filter (at_site SiteAvailability) (output r) = []
  /\ filter (at_site SiteAttributes) (output r) = [].
Proof.
  exact (discovery_disabled_publishes env attributes_only [] plug switch
           "switch" "plug" [] eq_refl eq_refl eq_refl eq_refl).
Defined.

(** C8 on a light that is unavailable. *)
Lemma availability_tracks_state_witness :
  filter (at_site SiteAvailability) (output (notify env discovery_on [] lamp_unavailable))
  = [mkPublish SiteAvailability "ha/light/lamp/availability" (PText "offline") 1 true].
Proof.
  destruct (availability_tracks_state env discovery_on [] lamp_unavailable
              (mkState (Some "unavailable") [] None None) "light" "lamp" []
              eq_refl eq_refl eq_refl eq_refl) as (_ & H & _).
  exact (H eq_refl).
Defined.

(** C9 on a sensor without [device_class], notified twice. *)
Lemma no_discovery_without_device_class_witness :
  publishes_of "sensor.temp" SiteConfig
    (run env discovery_on [] [temp "20"; temp "21"]) = [].
Proof.
  apply (no_discovery_without_device_class env discovery_on "sensor.temp"
           "sensor" ["temp"] [] [temp "20"; temp "21"]).
  - reflexivity.
  - now left.
  - reflexivity.
  - repeat constructor; intros _ s [= <-]; reflexivity.
Defined.

(** C10 on a light that is unavailable. *)
Lemma light_state_field_witness :
  exists before payload,
    output (notify env discovery_on [] lamp_unavailable)
    = before ++ [mkPublish SiteState "ha/light/lamp/state" (PJson (JObj payload)) 1 true;
                 mkPublish SiteAvailability "ha/light/lamp/availability"
                   (PText "offline") 1 true]
    /\ Dict.get "state" payload = Some (JStr "OFF").
Proof.
  destruct (light_state_field env discovery_on [] lamp_unavailable
              (mkState (Some "unavailable") [] None None) "light" "lamp" []
              eq_refl eq_refl eq_refl eq_refl eq_refl) as (Hall & Hend & _).
  destruct (Hend eq_refl) as (before & payload & Hout).
  exists before, payload. split; [exact Hout|].
  destruct (Hall (mkPublish SiteState "ha/light/lamp/state" (PJson (JObj payload)) 1 true))
    as (payload' & Hp & Hs).
  - rewrite Hout. apply in_or_app. right. now left.
  - reflexivity.
  - injection Hp as <-. exact Hs.
Defined.

End Examples.

(** * More of the command decoder *)

Section DecoderCases.

Variable env : Env.

(** X1.  On a topic with the fourth level "set" the payload "on" dispatches
    one turn-on for the domain and the entity the topic names, "off" one
    turn-off, and any other payload (so also "ON" in capitals) is logged as
    an invalid service and dispatches nothing; the handler returns normally
    in the three cases, and the domain is not checked. *)
Theorem set_command_decoded msg base domain entity rest :
  split_char "/" (topic msg) = base :: domain :: entity :: "set" :: rest ->
  _message_received env msg tt
  = ([LogDebug (topic msg) (msg_payload msg);
      if msg_payload msg =? "on" then
        ServiceCall domain "turn_on" [("entity_id", JStr (domain ++ "." ++ entity))]
      else if msg_payload msg =? "off" then
        ServiceCall domain "turn_off" [("entity_id", JStr (domain ++ "." ++ entity))]
      else LogError InvalidService (msg_payload msg) entity],
     tt, inr tt).
Proof.
  intros Hs. unfold _message_received. cbv zeta. rewrite Hs.
  cbn [level nth_error]. rewrite !bind_lift_inr, bind_emit.
  change ("set" =? "set") with true. change ("set" =? "set_light") with false.
  cbv iota. unfold STATE_ON, STATE_OFF.
  destruct (msg_payload msg =? "on"); [reflexivity|].
  destruct (msg_payload msg =? "off"); reflexivity.
Qed.

(** X2.  On a topic with the fourth level "set_light" and a domain other
    than light, the payload is not even parsed: an invalid domain is logged,
    nothing is dispatched and the handler returns normally, whatever the
    payload. *)
Theorem set_light_wrong_domain msg base domain entity rest :
  split_char "/" (topic msg) = base :: domain :: entity :: "set_light" :: rest ->
  domain <> "light" ->
  _message_received env msg tt
  = ([LogDebug (topic msg) (msg_payload msg);
      LogError InvalidDomain (msg_payload msg) entity], tt, inr tt).
Proof.
  intros Hs Hd. apply String.eqb_neq in Hd.
  unfold _message_received. cbv zeta. rewrite Hs.
  cbn [level nth_error]. rewrite !bind_lift_inr, bind_emit.
  change ("set_light" =? "set") with false.
  change ("set_light" =? "set_light") with true.
  rewrite Hd. reflexivity.
Qed.

(** X3.  A topic with fewer than four levels raises IndexError before
    anything is logged or dispatched. *)
Theorem short_topic_raises msg :
  (length (split_char "/" (topic msg)) < 4)%nat ->
  _message_received env msg tt = ([], tt, inl IndexError).
Proof.
  intros Hl. unfold _message_received. cbv zeta.
  destruct (split_char "/" (topic msg)) as [|a [|b [|c [|d l]]]];
    cbn [level nth_error length] in *;
    rewrite ?bind_lift_inr, ?bind_lift_inl; try reflexivity.
  lia.
Qed.

(** A fourth level that is neither "set" nor "set_light": the debug record
    and nothing else. *)
Lemma other_element_ignored msg base domain entity element rest :
  split_char "/" (topic msg) = base :: domain :: entity :: element :: rest ->
  element <> "set" -> element <> "set_light" ->
  _message_received env msg tt
  = ([LogDebug (topic msg) (msg_payload msg)], tt, inr tt).
Proof.
  intros Hs H1 H2. apply String.eqb_neq in H1, H2.
  unfold _message_received. cbv zeta. rewrite Hs.
  cbn [level nth_error]. rewrite !bind_lift_inr, bind_emit.
  rewrite H1. rewrite ?bind_lift_inr. rewrite H2. reflexivity.
Qed.

End DecoderCases.

Lemma pass_through_keeps key k payload_json sp sp' :
  pass_through k payload_json sp = inr sp' ->
  (key =? k) = false ->
  Dict.get key sp' = Dict.get key sp.
Proof.
  unfold pass_through. intros H Hk.
  destruct (py_in k payload_json) as [ex|[|]]; cbn [rbind] in H; try discriminate.
  - destruct (py_getitem payload_json k) as [ex|v]; cbn [rbind] in H; [discriminate|].
    injection H as <-. now apply get_set_other.
  - now injection H as <-.
Qed.

Lemma color_field_keeps key tag attr fields payload_json sp sp' :
  color_field tag attr fields payload_json sp = inr sp' ->
  (key =? attr) = false ->
  Dict.get key sp' = Dict.get key sp.
Proof.
  unfold color_field. intros H Hk.
  destruct (py_getitem payload_json ATTR_COLOR) as [ex|color]; cbn [rbind] in H;
    [discriminate|].
  destruct (py_in tag color) as [ex|[|]]; cbn [rbind] in H; try discriminate.
  - destruct (fold_right _ _ fields) as [ex|vs]; cbn [rbind] in H; [discriminate|].
    injection H as <-. now apply get_set_other.
  - now injection H as <-.
Qed.

Lemma turn_on_payload_keeps key payload_json sp sp' :
  turn_on_payload payload_json sp = inr sp' ->
  mem_string key [ATTR_BRIGHTNESS; ATTR_COLOR_TEMP; ATTR_HS_COLOR;
                  ATTR_XY_COLOR; ATTR_RGB_COLOR] = false ->
  Dict.get key sp' = Dict.get key sp.
Proof.
  intros H Hk. cbn in Hk.
  apply orb_false_iff in Hk as [K1 Hk]. apply orb_false_iff in Hk as [K2 Hk].
  apply orb_false_iff in Hk as [K3 Hk]. apply orb_false_iff in Hk as [K4 Hk].
  apply orb_false_iff in Hk as [K5 _].
  unfold turn_on_payload in H.
  destruct (pass_through ATTR_BRIGHTNESS payload_json sp) as [ex|sp1] eqn:H1;
    cbn [rbind] in H; [discriminate|].
  destruct (pass_through ATTR_COLOR_TEMP payload_json sp1) as [ex|sp2] eqn:H2;
    cbn [rbind] in H; [discriminate|].
  apply (pass_through_keeps key) in H1; [|assumption].
  apply (pass_through_keeps key) in H2; [|assumption].
  destruct (py_in ATTR_COLOR payload_json) as [ex|[|]]; cbn [rbind] in H;
    try discriminate.
  - destruct (color_field ATTR_H _ _ payload_json sp2) as [ex|sp3] eqn:H3;
      cbn [rbind] in H; [discriminate|].
    destruct (color_field ATTR_X _ _ payload_json sp3) as [ex|sp4] eqn:H4;
      cbn [rbind] in H; [discriminate|].
    apply (color_field_keeps key) in H3; [|assumption].
    apply (color_field_keeps key) in H4; [|assumption].
    apply (color_field_keeps key) in H; [|assumption].
    congruence.
  - injection H as <-. congruence.
Qed.

Section DecoderInvariant.

Variable env : Env.

Lemma set_light_spec domain entity msg :
  set_light_outcome domain entity msg (set_light env domain entity msg tt).
Proof.
  unfold set_light.
  destruct (json_loads env (msg_payload msg)) as [pj|];
    [rewrite bind_lift_inr|rewrite bind_lift_inl; constructor].
  destruct (pass_through ATTR_TRANSITION pj _) as [ex|sp0] eqn:H0;
    [rewrite bind_lift_inl; constructor|rewrite bind_lift_inr].
  apply (pass_through_keeps ATTR_ENTITY_ID) in H0; [|reflexivity].
  cbn [Dict.get] in H0. change (ATTR_ENTITY_ID =? ATTR_ENTITY_ID) with true in H0.
  cbv iota in H0.
  destruct (py_getitem pj "state") as [ex|st];
    [rewrite bind_lift_inl; constructor|rewrite bind_lift_inr].
  destruct (json_eq_str st "ON").
  - destruct (turn_on_payload pj sp0) as [ex|sp1] eqn:H1;
      [rewrite bind_lift_inl; constructor|rewrite bind_lift_inr].
    apply (turn_on_payload_keeps ATTR_ENTITY_ID) in H1; [|reflexivity].
    unfold emit. constructor; [now left|congruence].
  - rewrite bind_lift_inr. destruct (json_eq_str st "OFF"); unfold emit.
    + constructor; [now right|assumption].
    + constructor.
Qed.

End DecoderInvariant.

Section DecoderCalls.

Variable env : Env.

(** X4.  Whatever the message, the handler dispatches at most one service
    call; a call it dispatches is a turn-on or a turn-off, for the domain in
    the second topic level and the entity [domain.entity] of the second and
    third levels, on a fourth level "set" or (for the domain light only)
    "set_light", and the handler then returns normally. *)
Theorem at_most_one_service_call msg :
  let r := _message_received env msg tt in
  (length (filter is_service_call (output r)) <= 1)%nat
  /\ forall domain service data,
       In (ServiceCall domain service data) (output r) ->
       outcome r = inr tt
       /\ (service = "turn_on" \/ service = "turn_off")
       /\ exists base entity element rest,
            split_char "/" (topic msg) = base :: domain :: entity :: element :: rest
            /\ Dict.get "entity_id" data = Some (JStr (domain ++ "." ++ entity))
            /\ (element = "set" \/ (element = "set_light" /\ domain = "light")).
Proof.
  cbv zeta. unfold _message_received. cbv zeta.
  destruct (split_char "/" (topic msg)) as [|base [|d [|e [|el rest]]]] eqn:Hs;
    cbn [level nth_error];
    rewrite ?bind_lift_inr, ?bind_lift_inl;
    try (cbn [output outcome fst snd filter length]; split; [lia|intros ? ? ? []]).
  rewrite bind_emit. cbn [output outcome fst snd filter is_service_call].
  destruct (el =? "set") eqn:H1.
  - apply String.eqb_eq in H1. subst el.
    change ("set" =? "set_light") with false. cbv iota.
    destruct (msg_payload msg =? STATE_ON);
      [|destruct (msg_payload msg =? STATE_OFF)];
      cbn; (split; [lia|]); intros domain service data [H|[H|[]]];
      try discriminate; injection H as <- <- <-;
      (split; [reflexivity|]); (split; [auto|]);
      exists base, e, "set", rest; auto.
  - destruct (el =? "set_light") eqn:H2.
    + apply String.eqb_eq in H2. subst el. rewrite bind_ret.
      destruct (d =? "light") eqn:H3; cbn [negb].
      * apply String.eqb_eq in H3. subst d.
        pose proof (set_light_spec env "light" e msg) as H.
        destruct H as [ex | service data Hsv Hid | ];
          cbn [output outcome fst snd filter is_service_call length In].
        -- split; [lia|]. intros ? ? ? [H|[]]. discriminate.
        -- split; [lia|]. intros domain sv dt [H|[H|[]]]; [discriminate|].
           injection H as <- <- <-. split; [reflexivity|]. split; [exact Hsv|].
           exists base, e, "set_light", rest. auto.
        -- split; [lia|]. intros ? ? ? [H|[H|[]]]; discriminate.
      * cbn. split; [lia|]. intros ? ? ? [H|[H|[]]]; discriminate.
    + rewrite bind_ret. cbn. split; [lia|]. intros ? ? ? [H|[]]. discriminate.
Qed.

(** X5.  A [set_light] payload that is a JSON object with state "OFF"
    dispatches one turn-off whose data is the entity and, when the payload
    has it, the transition; brightness, colour temperature and colour of the
    payload are not forwarded. *)
Theorem set_light_off msg base entity rest o :
  split_char "/" (topic msg) = base :: "light" :: entity :: "set_light" :: rest ->
  json_loads env (msg_payload msg) = Some (JObj o) ->
  Dict.get "state" o = Some (JStr "OFF") ->
  _message_received env msg tt
  = ([LogDebug (topic msg) (msg_payload msg);
      ServiceCall "light" "turn_off"
        (match Dict.get "transition" o with
         | Some t => [("entity_id", JStr ("light." ++ entity)); ("transition", t)]
         | None => [("entity_id", JStr ("light." ++ entity))]
         end)], tt, inr tt).
Proof.
  intros Hs Hl Hst. rewrite (set_light_reached env msg base entity rest Hs).
  unfold set_light. rewrite Hl, bind_lift_inr.
  rewrite pass_through_obj, bind_lift_inr.
  unfold py_getitem. rewrite Hst, !bind_lift_inr. cbn [json_eq_str].
  change ("OFF" =? "ON") with false. change ("OFF" =? "OFF") with true.
  cbv iota. unfold copy_attribute, ATTR_TRANSITION.
  destruct (Dict.get "transition" o); reflexivity.
Qed.

(** X6.  A [set_light] payload that is a JSON object whose state is neither
    "ON" nor "OFF" is logged as an invalid state; nothing is dispatched and
    the handler returns normally. *)
Theorem set_light_invalid_state msg base entity rest o st :
  split_char "/" (topic msg) = base :: "light" :: entity :: "set_light" :: rest ->
  json_loads env (msg_payload msg) = Some (JObj o) ->
  Dict.get "state" o = Some st ->
  st <> JStr "ON" -> st <> JStr "OFF" ->
  _message_received env msg tt
  = ([LogDebug (topic msg) (msg_payload msg);
      LogError InvalidState (msg_payload msg) entity], tt, inr tt).
Proof.
  intros Hs Hl Hst Hon Hoff. rewrite (set_light_reached env msg base entity rest Hs).
  unfold set_light. rewrite Hl, bind_lift_inr.
  rewrite pass_through_obj, bind_lift_inr.
  unfold py_getitem. rewrite Hst, !bind_lift_inr.
  assert (H1 : json_eq_str st "ON" = false).
  { destruct st; try reflexivity. cbn. apply String.eqb_neq. congruence. }
  assert (H2 : json_eq_str st "OFF" = false).
  { destruct st; try reflexivity. cbn. apply String.eqb_neq. congruence. }
  rewrite H1. rewrite ?bind_lift_inr. rewrite H2. reflexivity.
Qed.

(** X7.  A [set_light] payload that is valid JSON but not an object (a
    list, a string, a number, true, false, null) raises TypeError: nothing is
    logged as an error and nothing is dispatched. *)
Theorem set_light_not_an_object msg base entity rest v :
  split_char "/" (topic msg) = base :: "light" :: entity :: "set_light" :: rest ->
  json_loads env (msg_payload msg) = Some v ->
  (forall o, v <> JObj o) ->
  _message_received env msg tt
  = ([LogDebug (topic msg) (msg_payload msg)], tt, inl TypeError).
Proof.
  intros Hs Hl Hv. rewrite (set_light_reached env msg base entity rest Hs).
  unfold set_light. rewrite Hl, bind_lift_inr.
  unfold pass_through.
  destruct v as [|b|q|s|l|o]; cbn [py_in py_getitem rbind];
    rewrite ?bind_lift_inl; try reflexivity.
  - destruct (is_substring ATTR_TRANSITION s); cbn [rbind];
      rewrite ?bind_lift_inr, ?bind_lift_inl; reflexivity.
  - destruct (existsb _ l); cbn [rbind];
      rewrite ?bind_lift_inr, ?bind_lift_inl; reflexivity.
  - now elim (Hv o).
Qed.

(** X8.  A [set_light] payload that is a JSON object with state "ON" and no
    colour dispatches one turn-on whose data holds the entity and, verbatim,
    those of transition, brightness and colour temperature the payload has,
    and no colour parameter. *)
Theorem set_light_on_plain msg base entity rest o :
  split_char "/" (topic msg) = base :: "light" :: entity :: "set_light" :: rest ->
  json_loads env (msg_payload msg) = Some (JObj o) ->
  Dict.get "state" o = Some (JStr "ON") ->
  Dict.get "color" o = None ->
  exists data,
    _message_received env msg tt
    = ([LogDebug (topic msg) (msg_payload msg);
        ServiceCall "light" "turn_on" data], tt, inr tt)
    /\ Dict.get "entity_id" data = Some (JStr ("light." ++ entity))
    /\ Dict.get "transition" data = Dict.get "transition" o
    /\ Dict.get "brightness" data = Dict.get "brightness" o
    /\ Dict.get "color_temp" data = Dict.get "color_temp" o
    /\ forwarded_color_specs data = []
    /\ (length data <= 4)%nat.
Proof.
  intros Hs Hl Hst Hc. rewrite (set_light_reached env msg base entity rest Hs).
  assert (Hsl : set_light env "light" entity msg tt
                = ([ServiceCall "light" "turn_on"
                      (copy_attribute "color_temp" "color_temp" o
                         (copy_attribute "brightness" "brightness" o
                            (copy_attribute "transition" "transition" o
                               [("entity_id", JStr ("light." ++ entity))])))],
                   tt, inr tt)).
  { unfold set_light. rewrite Hl, bind_lift_inr.
    rewrite pass_through_obj, bind_lift_inr.
    unfold py_getitem at 1. rewrite Hst, bind_lift_inr. cbn [json_eq_str].
    change ("ON" =? "ON") with true. cbv iota.
    unfold turn_on_payload.
    rewrite pass_through_obj. cbn [rbind].
    rewrite pass_through_obj. cbn [rbind py_in].
    rewrite mem_get. unfold ATTR_COLOR. rewrite Hc. cbv iota.
    rewrite bind_lift_inr. reflexivity. }
  rewrite Hsl. cbn [output outcome fst snd].
  eexists. split; [reflexivity|].
  unfold forwarded_color_specs, copy_attribute.
  destruct (Dict.get "transition" o), (Dict.get "brightness" o),
    (Dict.get "color_temp" o); cbn; repeat split; lia.
Qed.

End DecoderCalls.

(** * The light state payload sent back as a command *)

Lemma get_copy_same a b attrs d :
  Dict.get b (copy_attribute a b attrs d)
  = match Dict.get a attrs with
    | Some v => Some v
    | None => Dict.get b d
    end.
Proof.
  unfold copy_attribute. destruct (Dict.get a attrs); [apply get_set_same|reflexivity].
Qed.

(** Without an XY colour, the colour object of the light payload is the HS
    pair read from [hs_color] followed by the RGB triple read from
    [rgb_color], each when the attribute is there. *)
Lemma light_color_no_xy attrs color :
  Dict.get "xy_color" attrs = None ->
  light_color attrs = inr color ->
  exists hs_part rgb_part,
    color = hs_part ++ rgb_part
    /\ match Dict.get "hs_color" attrs with
       | None => hs_part = []
       | Some hs => exists h s, py_index hs 0 = inr h /\ py_index hs 1 = inr s
                                /\ hs_part = [("h", h); ("s", s)]
       end
    /\ match Dict.get "rgb_color" attrs with
       | None => rgb_part = []
       | Some rgb => exists r g b, py_index rgb 0 = inr r /\ py_index rgb 1 = inr g
                                   /\ py_index rgb 2 = inr b
                                   /\ rgb_part = [("r", r); ("g", g); ("b", b)]
       end.
Proof.
  intros Hxy. unfold light_color. rewrite Hxy.
  destruct (Dict.get "hs_color" attrs) as [hs|].
  - destruct (py_index hs 0) as [ex|h]; cbn [rbind]; [discriminate|].
    destruct (py_index hs 1) as [ex|s]; cbn [rbind]; [discriminate|].
    destruct (Dict.get "rgb_color" attrs) as [rgb|].
    + destruct (py_index rgb 0) as [ex|r]; cbn [rbind]; [discriminate|].
      destruct (py_index rgb 1) as [ex|g]; cbn [rbind]; [discriminate|].
      destruct (py_index rgb 2) as [ex|b]; cbn [rbind]; [discriminate|].
      intros [= <-]. exists [("h", h); ("s", s)], [("r", r); ("g", g); ("b", b)].
      split; [reflexivity|]. split; eauto 10.
    + intros [= <-]. exists [("h", h); ("s", s)], []. split; [reflexivity|].
      split; eauto 10.
  - cbn [rbind].
    destruct (Dict.get "rgb_color" attrs) as [rgb|].
    + destruct (py_index rgb 0) as [ex|r]; cbn [rbind]; [discriminate|].
      destruct (py_index rgb 1) as [ex|g]; cbn [rbind]; [discriminate|].
      destruct (py_index rgb 2) as [ex|b]; cbn [rbind]; [discriminate|].
      intros [= <-]. exists [], [("r", r); ("g", g); ("b", b)].
      split; [reflexivity|]. split; eauto 10.
    + intros [= <-]. exists [], []. repeat split.
Qed.

Section RoundTrip.

Variable env : Env.

(** A turn-on with a complete colour object and no transition: the data of
    the call, key by key. *)
Lemma set_light_on_full entity msg o c :
  json_loads env (msg_payload msg) = Some (JObj o) ->
  Dict.get "state" o = Some (JStr "ON") ->
  Dict.get ATTR_COLOR o = Some (JObj c) ->
  color_complete c = true ->
  exists data,
    set_light env "light" entity msg tt
    = ([ServiceCall "light" SERVICE_TURN_ON data], tt, inr tt)
    /\ Dict.get "brightness" data = Dict.get "brightness" o
    /\ Dict.get "color_temp" data = Dict.get "color_temp" o
    /\ Dict.get "transition" data = Dict.get "transition" o
    /\ inr (Dict.get ATTR_HS_COLOR data)
       = (if Dict.mem ATTR_H c
          then let* vs := read_fields c [ATTR_H; ATTR_S] in inr (Some (JArr vs))
          else inr None)
    /\ inr (Dict.get ATTR_XY_COLOR data)
       = (if Dict.mem ATTR_X c
          then let* vs := read_fields c [ATTR_X; ATTR_Y] in inr (Some (JArr vs))
          else inr None)
    /\ inr (Dict.get ATTR_RGB_COLOR data)
       = (if Dict.mem ATTR_R c
          then let* vs := read_fields c [ATTR_R; ATTR_G; ATTR_B] in inr (Some (JArr vs))
          else inr None).
Proof.
  intros Hl Hst Hc Hcomplete.
  unfold set_light. rewrite Hl, bind_lift_inr.
  rewrite pass_through_obj, bind_lift_inr.
  unfold py_getitem at 1. rewrite Hst, bind_lift_inr. cbn [json_eq_str].
  change ("ON" =? "ON") with true. cbv iota.
  unfold turn_on_payload.
  rewrite pass_through_obj. cbn [rbind].
  rewrite pass_through_obj. cbn [rbind py_in].
  rewrite mem_get, Hc.
  rewrite (color_field_obj ATTR_H _ _ o c _ Hc).
  set (sp1 := copy_attribute ATTR_COLOR_TEMP ATTR_COLOR_TEMP o
                (copy_attribute ATTR_BRIGHTNESS ATTR_BRIGHTNESS o
                   (copy_attribute ATTR_TRANSITION ATTR_TRANSITION o
                      [(ATTR_ENTITY_ID, JStr ("light" ++ "." ++ entity))]))).
  assert (Hsp1 : forall k, (k =? ATTR_COLOR_TEMP) = false ->
                           (k =? ATTR_BRIGHTNESS) = false ->
                           (k =? ATTR_TRANSITION) = false ->
                           (k =? ATTR_ENTITY_ID) = false ->
                           Dict.get k sp1 = None).
  { intros k H1 H2 H3 H4. unfold sp1. rewrite !get_copy_other by assumption.
    cbn [Dict.get]. now rewrite H4. }
  assert (Hb : Dict.get "brightness" sp1 = Dict.get "brightness" o).
  { unfold sp1. rewrite get_copy_other by reflexivity.
    unfold ATTR_BRIGHTNESS. rewrite get_copy_same.
    destruct (Dict.get "brightness" o); [reflexivity|].
    rewrite get_copy_other by reflexivity. reflexivity. }
  assert (Hct : Dict.get "color_temp" sp1 = Dict.get "color_temp" o).
  { unfold sp1, ATTR_COLOR_TEMP. rewrite get_copy_same.
    destruct (Dict.get "color_temp" o); [reflexivity|].
    rewrite !get_copy_other by reflexivity. reflexivity. }
  assert (Htr : Dict.get "transition" sp1 = Dict.get "transition" o).
  { unfold sp1, ATTR_TRANSITION. rewrite !get_copy_other by reflexivity.
    rewrite get_copy_same.
    destruct (Dict.get "transition" o); reflexivity. }
  unfold color_complete in Hcomplete. rewrite !mem_get in Hcomplete.
  cbn [read_fields rbind]. rewrite !mem_get.
  destruct (Dict.get ATTR_H c) as [hv|];
    [destruct (Dict.get ATTR_S c) as [sv|]; [|discriminate]|];
    cbn [rbind];
    rewrite (color_field_obj ATTR_X _ _ o c _ Hc);
    cbn [read_fields rbind]; rewrite !mem_get;
    (destruct (Dict.get ATTR_X c) as [xv|];
     [destruct (Dict.get ATTR_Y c) as [yv|]; [|discriminate]|]);
    cbn [rbind];
    rewrite (color_field_obj ATTR_R _ _ o c _ Hc);
    cbn [read_fields rbind]; rewrite !mem_get;
    (destruct (Dict.get ATTR_R c) as [rv|];
     [destruct (Dict.get ATTR_G c) as [gv|]; [|discriminate];
      destruct (Dict.get ATTR_B c) as [bv|]; [|discriminate]|]);
    cbn [rbind]; rewrite bind_lift_inr;
    (eexists; split; [reflexivity|]);
    rewrite ?get_set_same, ?get_set_other by reflexivity;
    rewrite ?get_set_same, ?get_set_other by reflexivity;
    rewrite ?get_set_same, ?get_set_other by reflexivity;
    rewrite Hb, Hct, Htr;
    rewrite ?(Hsp1 ATTR_HS_COLOR), ?(Hsp1 ATTR_XY_COLOR), ?(Hsp1 ATTR_RGB_COLOR)
      by reflexivity;
    repeat split.
Qed.

(** X9.  The state payload published for a light that is on and has no XY
    colour, sent back on the [set_light] topic, turns the light on with the
    same brightness and colour temperature and with the HS pair and the RGB
    triple of the attributes; no XY colour and no transition are sent. *)
Theorem light_state_round_trip msg base entity rest attrs payload :
  split_char "/" (topic msg) = base :: "light" :: entity :: "set_light" :: rest ->
  light_payload (Some "on") attrs = inr payload ->
  Dict.get "xy_color" attrs = None ->
  json_loads env (msg_payload msg) = Some (JObj payload) ->
  exists data,
    _message_received env msg tt
    = ([LogDebug (topic msg) (msg_payload msg);
        ServiceCall "light" "turn_on" data], tt, inr tt)
    /\ Dict.get "brightness" data = Dict.get "brightness" attrs
    /\ Dict.get "color_temp" data = Dict.get "color_temp" attrs
    /\ (forall h s, Dict.get "hs_color" attrs = Some (JArr [h; s]) ->
                    Dict.get "hs_color" data = Some (JArr [h; s]))
    /\ (forall r g b, Dict.get "rgb_color" attrs = Some (JArr [r; g; b]) ->
                      Dict.get "rgb_color" data = Some (JArr [r; g; b]))
    /\ Dict.get "xy_color" data = None
    /\ Dict.get "transition" data = None.
Proof.
  intros Hs Hpl Hxy Hl.
  rewrite (set_light_reached env msg base entity rest Hs).
  unfold light_payload in Hpl.
  destruct (light_color attrs) as [ex|color] eqn:Hcol; cbn [rbind] in Hpl;
    [discriminate|].
  set (basep := copy_attribute "effect" "effect" attrs
                  (copy_attribute "color_temp" "color_temp" attrs
                     (copy_attribute "color_mode" "color_mode" attrs
                        (copy_attribute "brightness" "brightness" attrs
                           [("state", JStr (light_state (Some "on")))])))) in *.
  assert (Bst : Dict.get "state" basep = Some (JStr "ON"))
    by (unfold basep; rewrite !get_copy_other by reflexivity; reflexivity).
  assert (Btr : Dict.get "transition" basep = None)
    by (unfold basep; rewrite !get_copy_other by reflexivity; reflexivity).
  assert (Bco : Dict.get "color" basep = None)
    by (unfold basep; rewrite !get_copy_other by reflexivity; reflexivity).
  assert (Bbr : Dict.get "brightness" basep = Dict.get "brightness" attrs).
  { unfold basep. rewrite !get_copy_other by reflexivity. rewrite get_copy_same.
    destruct (Dict.get "brightness" attrs); reflexivity. }
  assert (Bct : Dict.get "color_temp" basep = Dict.get "color_temp" attrs).
  { unfold basep. rewrite get_copy_other by reflexivity. rewrite get_copy_same.
    destruct (Dict.get "color_temp" attrs); [reflexivity|].
    rewrite !get_copy_other by reflexivity. reflexivity. }
  destruct (light_color_no_xy attrs color Hxy Hcol) as (hsp & rgbp & -> & Hhs & Hrgb).
  destruct (hsp ++ rgbp) as [|kv color'] eqn:Hcolor.
  - (* no colour at all *)
    injection Hpl as <-.
    assert (Hsl : set_light env "light" entity msg tt
                  = ([ServiceCall "light" "turn_on"
                        (copy_attribute "color_temp" "color_temp" basep
                           (copy_attribute "brightness" "brightness" basep
                              (copy_attribute "transition" "transition" basep
                                 [("entity_id", JStr ("light." ++ entity))])))],
                     tt, inr tt)).
    { unfold set_light. rewrite Hl, bind_lift_inr.
      rewrite pass_through_obj, bind_lift_inr.
      unfold py_getitem at 1. rewrite Bst, bind_lift_inr. cbn [json_eq_str].
      change ("ON" =? "ON") with true. cbv iota.
      unfold turn_on_payload.
      rewrite pass_through_obj. cbn [rbind].
      rewrite pass_through_obj. cbn [rbind py_in].
      rewrite mem_get. unfold ATTR_COLOR. rewrite Bco. cbv iota.
      rewrite bind_lift_inr. reflexivity. }
    rewrite Hsl. cbn [output outcome fst snd]. eexists. split; [reflexivity|].
    apply app_eq_nil in Hcolor. destruct Hcolor as [-> ->].
    repeat split.
    + rewrite get_copy_other by reflexivity. rewrite get_copy_same, Bbr.
      destruct (Dict.get "brightness" attrs); [reflexivity|].
      rewrite get_copy_other by reflexivity. reflexivity.
    + rewrite get_copy_same, Bct.
      destruct (Dict.get "color_temp" attrs); [reflexivity|].
      rewrite !get_copy_other by reflexivity. reflexivity.
    + intros h s Hh. rewrite Hh in Hhs. destruct Hhs as (? & ? & _ & _ & ?).
      discriminate.
    + intros r g b Hr. rewrite Hr in Hrgb. destruct Hrgb as (? & ? & ? & _ & _ & _ & ?).
      discriminate.
    + rewrite !get_copy_other by reflexivity. reflexivity.
    + rewrite !get_copy_other by reflexivity. rewrite get_copy_same, Btr.
      reflexivity.
  - (* a colour object *)
    injection Hpl as <-. rewrite <- Hcolor in Hl. clear Hcolor Hcol kv color'.
    assert (Hcomplete : color_complete (hsp ++ rgbp) = true).
    { destruct (Dict.get "hs_color" attrs), (Dict.get "rgb_color" attrs);
        repeat match goal with
               | H : exists _, _ |- _ => destruct H
               | H : _ /\ _ |- _ => destruct H
               end; subst; reflexivity. }
    destruct (set_light_on_full entity msg _ (hsp ++ rgbp) Hl) as (data & -> & H).
    + now rewrite get_set_other by reflexivity.
    + apply get_set_same.
    + exact Hcomplete.
    + cbn [output outcome fst snd]. exists data. split; [reflexivity|].
      destruct H as (Hb & Hc & Ht & Hh & Hx & Hr).
      rewrite get_set_other in Hb, Hc, Ht by reflexivity.
      rewrite Hb, Hc, Ht, Bbr, Bct, Btr.
      split; [reflexivity|]. split; [reflexivity|].
      destruct (Dict.get "hs_color" attrs) as [hs|],
               (Dict.get "rgb_color" attrs) as [rgb|];
        repeat match goal with
               | H : exists _, _ |- _ => destruct H
               | H : _ /\ _ |- _ => destruct H
               end; subst hsp rgbp; cbn in Hh, Hx, Hr;
        unfold ATTR_HS_COLOR, ATTR_XY_COLOR, ATTR_RGB_COLOR in Hh, Hx, Hr;
        injection Hh as Hh; injection Hx as Hx; injection Hr as Hr;
        (split; [intros h0 s0 Heq; try discriminate; injection Heq as ->
                |split; [intros r0 g0 b0 Heq; try discriminate; injection Heq as ->
                        |split; [exact Hx|reflexivity]]]);
        cbn in *; congruence.
Qed.

End RoundTrip.

(** * More of the state publisher *)

Lemma get_del_other k k' d :
  (k =? k') = false -> Dict.get k (Dict.del k' d) = Dict.get k d.
Proof.
  intros Hk. induction d as [|[k0 v0] d IH]; cbn [Dict.del Dict.get]; [reflexivity|].
  destruct (k' =? k0) eqn:H0.
  - apply String.eqb_eq in H0. subst k0. now rewrite Hk.
  - cbn [Dict.get]. destruct (k =? k0); [reflexivity|exact IH].
Qed.

Lemma del_set_other k k' v d :
  (k =? k') = false ->
  Dict.del k (Dict.set k' v d) = Dict.set k' v (Dict.del k d).
Proof.
  intros Hk. induction d as [|[k0 v0] d IH]; cbn [Dict.del Dict.set].
  - now rewrite Hk.
  - destruct (k' =? k0) eqn:H0, (k =? k0) eqn:H1; cbn [Dict.del Dict.set];
      rewrite ?H0, ?H1; try reflexivity.
    + apply String.eqb_eq in H0, H1. subst. rewrite String.eqb_refl in Hk. discriminate.
    + now rewrite IH.
Qed.

Lemma del_copy_other k a b attrs d :
  (k =? b) = false ->
  Dict.del k (copy_attribute a b attrs d) = copy_attribute a b attrs (Dict.del k d).
Proof.
  intros Hk. unfold copy_attribute.
  destruct (Dict.get a attrs); [now apply del_set_other|reflexivity].
Qed.

Ltac split_keys H :=
  unfold mem_string, branch_keys in H; cbn [existsb] in H;
  repeat (apply orb_false_iff in H;
          let K := fresh "K" in destruct H as [K H]);
  clear H.

Section Configs.

Variable env : Env.
Variable conf : Conf.

Lemma link_device_keeps k e config :
  (k =? "dev") = false ->
  Dict.get k (link_device env e config) = Dict.get k config.
Proof.
  intros Hk. unfold link_device.
  generalize (ent_reg env). intros entries. revert config.
  induction entries as [|entry entries IH]; intros config; cbn [fold_left];
    [reflexivity|].
  rewrite IH. destruct (negb (entry_entity_id entry =? e)); [reflexivity|].
  generalize (dev_reg env). intros devices. revert config.
  induction devices as [|device devices IHd]; intros config; cbn [fold_left];
    [reflexivity|].
  rewrite IHd. destruct (negb (same_device device entry)); [reflexivity|].
  now apply get_set_other.
Qed.

Lemma climate_config_keeps k mybase config reg ns o w1 c b :
  climate_config mybase config (mkWorld reg (Some ns)) = (o, w1, inr (c, b)) ->
  mem_string k branch_keys = false ->
  Dict.get k c = Dict.get k config.
Proof.
  intros H Hk. split_keys Hk.
  revert H.
  unfold climate_config, new_state_attributes, dict_getitem, py_getitem,
    mutate_attribute.
  run_effects.
  destruct (Dict.get "max_temp" (attributes ns)); [|discriminate].
  destruct (Dict.get "min_temp" (attributes ns)); [|discriminate].
  destruct (Dict.get "hvac_modes" (attributes ns)); [|discriminate].
  destruct (Dict.get "preset_modes" (attributes ns)) as [pm|]; [|discriminate].
  destruct (py_in "none" pm) as [ex|[|]]; run_effects; [discriminate| |].
  - destruct pm; try discriminate. run_effects. intros [= _ _ <- _].
    rewrite !get_set_other by assumption.
    rewrite get_copy_other by assumption.
    now rewrite !get_set_other by assumption.
  - intros [= _ _ <- _].
    rewrite !get_set_other by assumption.
    rewrite get_copy_other by assumption.
    now rewrite !get_set_other by assumption.
Qed.

Lemma light_config_keeps k e mybase attrs config :
  mem_string k branch_keys = false ->
  Dict.get k (light_config env e mybase attrs config) = Dict.get k config.
Proof.
  intros Hk. split_keys Hk. unfold light_config.
  destruct (Dict.get "supported_color_modes" attrs);
    destruct (has_feature _ SUPPORT_BRIGHTNESS), (has_feature _ SUPPORT_EFFECT);
    rewrite ?get_set_other by assumption;
    now apply get_del_other.
Qed.

(** A key no branch touches comes out of the branch on the domain as it
    went in. *)
Lemma domain_config_keeps k e d mybase config reg ns o w1 c b :
  domain_config env conf e d mybase config (mkWorld reg (Some ns)) = (o, w1, inr (c, b)) ->
  mem_string k branch_keys = false ->
  Dict.get k c = Dict.get k config.
Proof.
  intros H Hk. unfold domain_config in H. rewrite bind_attributes in H.
  destruct ((d =? "sensor") && _); [now injection H as _ _ <- _|].
  destruct ((d =? "binary_sensor") && _).
  { injection H as _ _ <- _. split_keys Hk. now rewrite !get_set_other by assumption. }
  destruct (d =? "switch").
  { injection H as _ _ <- _. split_keys Hk. now rewrite !get_set_other by assumption. }
  destruct (d =? "device_tracker"); [now injection H as _ _ <- _|].
  destruct (d =? "climate"); [exact (climate_config_keeps k _ _ _ _ _ _ _ _ H Hk)|].
  destruct (d =? "light").
  { injection H as _ _ <- _. now apply light_config_keeps. }
  now injection H as _ _ <- _.
Qed.

(** What the discovery check publishes is the configuration the branch on
    the domain returned, with the device block. *)
Lemma discovery_step_config e d i mybase reg ns p :
  In p (output (discovery_step env conf e d i mybase (mkWorld reg (Some ns)))) ->
  exists c w1,
    domain_config env conf e d mybase (common_config env e i mybase (attributes ns))
      (mkWorld reg (Some ns)) = ([], w1, inr (c, true))
    /\ p = mkPublish SiteConfig (entity_disc_topic conf e)
             (PJson (JObj (link_device env e c))) 1 true
    /\ mem_string e reg = false
    /\ publish_discovery conf = true.
Proof.
  unfold discovery_step. rewrite bind_get. cbn [conf_published].
  destruct (publish_discovery conf); cbn [andb]; [|intros []].
  destruct (mem_string e reg); cbn [negb]; [intros []|].
  rewrite bind_attributes. unfold bind at 1.
  destruct (domain_config_spec env conf e d mybase
              (common_config env e i mybase (attributes ns)) reg ns) as [H _].
  destruct (domain_config env conf e d mybase _ _) as [[o w1] [ex|[c b]]];
    [inversion H; intros []|].
  assert (Ho : o = []) by (inversion H; reflexivity). subst o.
  cbn [snd fst]. destruct b; [|intros []].
  unfold async_publish, mark_published. run_effects.
  intros [<-|[]]. exists c, w1. auto.
Qed.

(** A publish made at the discovery site, traced back. *)
Lemma config_publish_inversion reg n p :
  In p (output (notify env conf reg n)) ->
  pub_site p = SiteConfig ->
  exists ns d i rest c w1,
    n_new_state n = Some ns
    /\ split_char "." (n_entity_id n) = d :: i :: rest
    /\ domain_config env conf (n_entity_id n) d (mybase_of conf (n_entity_id n))
         (common_config env (n_entity_id n) i (mybase_of conf (n_entity_id n))
            (attributes ns))
         (mkWorld reg (Some ns)) = ([], w1, inr (c, true))
    /\ p = mkPublish SiteConfig (entity_disc_topic conf (n_entity_id n))
             (PJson (JObj (link_device env (n_entity_id n) c))) 1 true
    /\ mem_string (n_entity_id n) reg = false
    /\ publish_discovery conf = true.
Proof.
  intros Hin Hsite.
  destruct (n_new_state n) as [ns|] eqn:Hn.
  2:{ unfold notify in Hin. rewrite Hn in Hin. destruct Hin. }
  destruct (publish_filter conf (n_entity_id n)) eqn:Hf.
  2:{ rewrite (notify_filtered env conf reg n Hf) in Hin. destruct Hin. }
  rewrite (notify_processed env conf reg n ns Hn Hf) in Hin.
  destruct (publish_entity_stages env conf (n_entity_id n) ns reg)
    as (ts & ats & Hts & Hats & Heq).
  rewrite Heq in Hin. clear Heq.
  assert (Hearly : ~ In p (ts ++ ats)).
  { intros H. revert Hsite.
    apply (early_not_at conf _ ts ats ns p Hts Hats); auto; discriminate. }
  destruct (split_char "." (n_entity_id n)) as [|d [|i rest]];
    cbn [output fst snd] in Hin; try contradiction.
  cbv zeta in Hin.
  set (r1 := discovery_step env conf (n_entity_id n) d i
               (mybase_of conf (n_entity_id n)) (mkWorld reg (Some ns))) in *.
  assert (Hin' : In p (output r1)).
  { pose proof (discovery_step_spec env conf (n_entity_id n) d i
                  (mybase_of conf (n_entity_id n)) reg ns) as Hd.
    fold r1 in Hd.
    destruct (outcome r1) eqn:Ho; cbn [output fst snd] in Hin.
    - rewrite app_assoc in Hin. apply in_app_or in Hin. tauto.
    - rewrite app_assoc in Hin. apply in_app_or in Hin.
      destruct Hin as [Hin|Hin]; [tauto|].
      apply in_app_or in Hin. destruct Hin as [Hin|Hin]; [exact Hin|].
      exfalso.
      assert (exists reg' ns', store r1 = mkWorld reg' (Some ns')) as (reg' & ns' & Hst)
        by (inversion Hd; cbn; eauto).
      rewrite Hst in Hin.
      pose proof (state_step_spec conf d (mybase_of conf (n_entity_id n)) ns reg' ns')
        as Hs.
      inversion Hs as [Hoff Hx | ex Hon Hd' Hx | payload attrs Hon Hd' Hl Hx
                       | attrs Hon Hd' Hx];
        rewrite <- Hx in Hin; cbn in Hin;
        repeat (destruct Hin as [<-|Hin]; [discriminate|]); exact Hin. }
  destruct (discovery_step_config _ _ _ _ _ _ _ Hin') as (c & w1 & H1 & H2 & H3 & H4).
  exists ns, d, i, rest, c, w1. repeat split; assumption.
Qed.

End Configs.

Lemma remove_first_absent s l :
  existsb (fun x => json_eq_str x s) l = false -> remove_first s l = l.
Proof.
  induction l as [|x l IH]; cbn [existsb remove_first]; [reflexivity|].
  intros H. apply orb_false_iff in H. destruct H as [Hx Hl].
  rewrite Hx. now rewrite IH.
Qed.

Lemma remove_first_others s l :
  filter (fun x => negb (json_eq_str x s)) (remove_first s l)
  = filter (fun x => negb (json_eq_str x s)) l.
Proof.
  induction l as [|x l IH]; cbn [remove_first filter]; [reflexivity|].
  destruct (json_eq_str x s) eqn:Hx; cbn [negb filter]; [reflexivity|].
  now rewrite Hx, IH.
Qed.

Lemma remove_first_count s l :
  length (filter (fun x => json_eq_str x s) (remove_first s l))
  = pred (length (filter (fun x => json_eq_str x s) l)).
Proof.
  induction l as [|x l IH]; cbn [remove_first filter]; [reflexivity|].
  destruct (json_eq_str x s) eqn:Hx; cbn [filter length pred]; [reflexivity|].
  now rewrite Hx, IH.
Qed.

Section ConfigContents.

Variable env : Env.
Variable conf : Conf.

Lemma common_config_core e i mybase attrs :
  let config := common_config env e i mybase attrs in
  Dict.get "uniq_id" config = Some (JStr ("mqtt_" ++ e))
  /\ Dict.get "name" config = Some (JStr (str_title env (replace_char "_" " " i)))
  /\ Dict.get "stat_t" config = Some (JStr (mybase ++ "state"))
  /\ Dict.get "avty_t" config = Some (JStr (mybase ++ "availability"))
  /\ Dict.get "json_attr_t" config = Some (JStr (mybase ++ "attributes"))
  /\ Dict.get "dev_cla" config = Dict.get "device_class" attrs
  /\ Dict.get "unit_of_meas" config = Dict.get "unit_of_measurement" attrs
  /\ Dict.get "stat_cla" config = Dict.get "state_class" attrs.
Proof.
  cbv zeta. unfold common_config.
  repeat split; rewrite ?get_copy_other by reflexivity; try reflexivity.
  - rewrite get_copy_same. destruct (Dict.get "device_class" attrs); reflexivity.
  - rewrite get_copy_same.
    destruct (Dict.get "unit_of_measurement" attrs); [reflexivity|].
    rewrite get_copy_other by reflexivity. reflexivity.
  - rewrite get_copy_same.
    destruct (Dict.get "state_class" attrs); [reflexivity|].
    rewrite !get_copy_other by reflexivity. reflexivity.
Qed.

(** X10.  Every discovery config that is published, whatever the domain,
    goes retained with QoS 1 to [<discovery_topic><domain>/<object_id>/config]
    and holds the unique id "mqtt_" + entity id, the name made of the object
    id, the state topic and the availability topic of the entity, and the
    device class, unit of measurement and state class exactly when the
    attributes have them. *)
Theorem config_core_fields reg n p :
  In p (output (notify env conf reg n)) ->
  pub_site p = SiteConfig ->
  exists ns d i rest config,
    n_new_state n = Some ns
    /\ split_char "." (n_entity_id n) = d :: i :: rest
    /\ p = mkPublish SiteConfig
             (discovery_topic conf ++ replace_char "." "/" (n_entity_id n) ++ "/config")
             (PJson (JObj config)) 1 true
    /\ Dict.get "uniq_id" config = Some (JStr ("mqtt_" ++ n_entity_id n))
    /\ Dict.get "name" config = Some (JStr (str_title env (replace_char "_" " " i)))
    /\ Dict.get "stat_t" config = Some (JStr (mybase_of conf (n_entity_id n) ++ "state"))
    /\ Dict.get "avty_t" config
       = Some (JStr (mybase_of conf (n_entity_id n) ++ "availability"))
    /\ Dict.get "dev_cla" config = Dict.get "device_class" (attributes ns)
    /\ Dict.get "unit_of_meas" config = Dict.get "unit_of_measurement" (attributes ns)
    /\ Dict.get "stat_cla" config = Dict.get "state_class" (attributes ns).
Proof.
  intros Hin Hsite.
  destruct (config_publish_inversion env conf reg n p Hin Hsite)
    as (ns & d & i & rest & c & w1 & Hn & Hs & Hdc & Hp & _ & _).
  exists ns, d, i, rest, (link_device env (n_entity_id n) c).
  destruct (common_config_core (n_entity_id n) i (mybase_of conf (n_entity_id n))
              (attributes ns)) as (C1 & C2 & C3 & C4 & _ & C6 & C7 & C8).
  repeat split; try assumption;
    rewrite link_device_keeps by reflexivity;
    rewrite (domain_config_keeps env conf _ _ _ _ _ _ _ _ _ _ _ Hdc) by reflexivity;
    assumption.
Qed.

(** [x & 2^n] is truthy exactly when bit [n] of [x] is set. *)
Lemma has_feature_bit features n :
  (0 <= n)%Z ->
  has_feature features (2 ^ n) = Z.testbit features n.
Proof.
  intros Hn. unfold has_feature.
  assert (H : Z.land features (2 ^ n)
              = if Z.testbit features n then (2 ^ n)%Z else 0%Z).
  { apply Z.bits_inj'. intros m Hm.
    rewrite Z.land_spec, Z.pow2_bits_eqb by exact Hn.
    destruct (Z.eqb_spec n m) as [->|Hne].
    - rewrite andb_true_r. destruct (Z.testbit features m) eqn:Hb.
      + now rewrite Z.pow2_bits_true.
      + now rewrite Z.bits_0.
    - rewrite andb_false_r. destruct (Z.testbit features n).
      + now rewrite Z.pow2_bits_false.
      + now rewrite Z.bits_0. }
  rewrite H. destruct (Z.testbit features n); [|reflexivity].
  assert (0 < 2 ^ n)%Z by (apply Z.pow_pos_nonneg; lia).
  destruct (Z.eqb_spec (2 ^ n) 0); [lia|reflexivity].
Qed.

(** X11.  The discovery config of a light has no attributes topic; its
    command topic is [<mybase>set_light] with the schema "json"; it says
    brightness (effect) exactly when bit 0 (bit 2) of the supported features
    is set, and carries the supported colour modes, with the colour-mode
    flag, exactly when the attributes have them. *)
Theorem light_config_fields reg n p :
  In p (output (notify env conf reg n)) ->
  pub_site p = SiteConfig ->
  nth_error (split_char "." (n_entity_id n)) 0 = Some "light" ->
  exists ns config,
    n_new_state n = Some ns
    /\ pub_payload p = PJson (JObj config)
    /\ Dict.get "json_attr_t" config = None
    /\ Dict.get "cmd_t" config
       = Some (JStr (mybase_of conf (n_entity_id n) ++ "set_light"))
    /\ Dict.get "schema" config = Some (JStr "json")
    /\ Dict.get "brightness" config
       = (if Z.testbit (get_supported_features env (n_entity_id n)) 0
          then Some (JBool true) else None)
    /\ Dict.get "effect" config
       = (if Z.testbit (get_supported_features env (n_entity_id n)) 2
          then Some (JBool true) else None)
    /\ Dict.get "supported_color_modes" config
       = Dict.get "supported_color_modes" (attributes ns)
    /\ Dict.get "color_mode" config
       = (if Dict.mem "supported_color_modes" (attributes ns)
          then Some (JBool true) else None).
Proof.
  intros Hin Hsite Hd.
  destruct (config_publish_inversion env conf reg n p Hin Hsite)
    as (ns & d & i & rest & c & w1 & Hn & Hs & Hdc & Hp & _ & _).
  rewrite Hs in Hd. injection Hd as ->.
  unfold domain_config in Hdc. rewrite bind_attributes in Hdc.
  change ("light" =? "sensor") with false in Hdc.
  change ("light" =? "binary_sensor") with false in Hdc.
  change ("light" =? "switch") with false in Hdc.
  change ("light" =? "device_tracker") with false in Hdc.
  change ("light" =? "climate") with false in Hdc.
  change ("light" =? "light") with true in Hdc.
  cbn [andb] in Hdc. injection Hdc as _ <-.
  eexists ns, _. split; [exact Hn|]. split; [rewrite Hp; reflexivity|].
  set (e := n_entity_id n). set (mybase := mybase_of conf e).
  set (attrs := attributes ns).
  pose proof (has_feature_bit (get_supported_features env e) 0 ltac:(lia)) as Hb.
  pose proof (has_feature_bit (get_supported_features env e) 2 ltac:(lia)) as He.
  change (2 ^ 0)%Z with SUPPORT_BRIGHTNESS in Hb.
  change (2 ^ 2)%Z with SUPPORT_EFFECT in He.
  assert (Hdel : Dict.get "json_attr_t"
                   (Dict.del "json_attr_t" (common_config env e i mybase attrs)) = None).
  { unfold common_config. rewrite !del_copy_other by reflexivity.
    rewrite !get_copy_other by reflexivity. reflexivity. }
  assert (Hbase : forall k, mem_string k ["uniq_id"; "name"; "stat_t"; "json_attr_t";
                                          "avty_t"; "dev_cla"; "unit_of_meas"; "stat_cla"]
                            = false ->
                  Dict.get k (Dict.del "json_attr_t" (common_config env e i mybase attrs))
                  = None).
  { intros k Hk. cbn in Hk.
    repeat (apply orb_false_iff in Hk; let K := fresh "K" in destruct Hk as [K Hk]).
    rewrite get_del_other by assumption.
    unfold common_config. rewrite !get_copy_other by assumption.
    cbn [Dict.get]. now rewrite K, K0, K1, K2, K3. }
  unfold light_config. fold e mybase attrs. rewrite Hb, He. unfold Dict.mem.
  destruct (Dict.get "supported_color_modes" attrs) as [modes|];
    destruct (Z.testbit (get_supported_features env e) 0),
             (Z.testbit (get_supported_features env e) 2);
    repeat split; rewrite link_device_keeps by reflexivity;
    rewrite ?get_set_same, ?get_set_other by reflexivity;
    rewrite ?get_set_same, ?get_set_other by reflexivity;
    rewrite ?get_set_same, ?get_set_other by reflexivity;
    rewrite ?get_set_same, ?get_set_other by reflexivity;
    rewrite ?get_set_same, ?get_set_other by reflexivity;
    rewrite ?get_set_same, ?get_set_other by reflexivity;
    try reflexivity; try exact Hdel; apply Hbase; reflexivity.
Qed.

End ConfigContents.

Section DomainConfigs.

Variable env : Env.
Variable conf : Conf.

(** X12.  The discovery config of a switch has the payload constants "on"
    and "off", the command topic [<mybase>set] and the attributes topic. *)
Theorem switch_config_fields reg n p :
  In p (output (notify env conf reg n)) ->
  pub_site p = SiteConfig ->
  nth_error (split_char "." (n_entity_id n)) 0 = Some "switch" ->
  exists config,
    pub_payload p = PJson (JObj config)
    /\ Dict.get "pl_on" config = Some (JStr "on")
    /\ Dict.get "pl_off" config = Some (JStr "off")
    /\ Dict.get "cmd_t" config = Some (JStr (mybase_of conf (n_entity_id n) ++ "set"))
    /\ Dict.get "json_attr_t" config
       = Some (JStr (mybase_of conf (n_entity_id n) ++ "attributes")).
Proof.
  intros Hin Hsite Hd.
  destruct (config_publish_inversion env conf reg n p Hin Hsite)
    as (ns & d & i & rest & c & w1 & Hn & Hs & Hdc & Hp & _ & _).
  rewrite Hs in Hd. injection Hd as ->.
  unfold domain_config in Hdc. rewrite bind_attributes in Hdc.
  change ("switch" =? "sensor") with false in Hdc.
  change ("switch" =? "binary_sensor") with false in Hdc.
  change ("switch" =? "switch") with true in Hdc.
  cbn [andb] in Hdc. injection Hdc as _ <-.
  eexists. split; [rewrite Hp; reflexivity|].
  destruct (common_config_core env (n_entity_id n) i (mybase_of conf (n_entity_id n))
              (attributes ns)) as (_ & _ & _ & _ & C5 & _).
  repeat split; rewrite link_device_keeps by reflexivity;
    rewrite ?get_set_same, ?get_set_other by reflexivity;
    rewrite ?get_set_same, ?get_set_other by reflexivity;
    rewrite ?get_set_same, ?get_set_other by reflexivity;
    try reflexivity. exact C5.
Qed.

(** X13.  The discovery config of a climate entity copies [max_temp],
    [min_temp] and [hvac_modes] (as modes) from the attributes; its
    [preset_modes] is the list of the attributes without its first "none":
    the other modes stay, in order, and a second "none" stays too. *)
Theorem climate_config_fields reg n p :
  In p (output (notify env conf reg n)) ->
  pub_site p = SiteConfig ->
  nth_error (split_char "." (n_entity_id n)) 0 = Some "climate" ->
  exists ns config,
    n_new_state n = Some ns
    /\ pub_payload p = PJson (JObj config)
    /\ Dict.get "max_temp" config = Dict.get "max_temp" (attributes ns)
    /\ Dict.get "min_temp" config = Dict.get "min_temp" (attributes ns)
    /\ Dict.get "modes" config = Dict.get "hvac_modes" (attributes ns)
    /\ Dict.get "mode_state_topic" config
       = Some (JStr (mybase_of conf (n_entity_id n) ++ "state"))
    /\ forall l, Dict.get "preset_modes" (attributes ns) = Some (JArr l) ->
         Dict.get "preset_modes" config = Some (JArr (remove_first "none" l))
         /\ filter (fun x => negb (json_eq_str x "none")) (remove_first "none" l)
            = filter (fun x => negb (json_eq_str x "none")) l
         /\ length (filter (fun x => json_eq_str x "none") (remove_first "none" l))
            = pred (length (filter (fun x => json_eq_str x "none") l)).
Proof.
  intros Hin Hsite Hd.
  destruct (config_publish_inversion env conf reg n p Hin Hsite)
    as (ns & d & i & rest & c & w1 & Hn & Hs & Hdc & Hp & _ & _).
  rewrite Hs in Hd. injection Hd as ->.
  unfold domain_config in Hdc. rewrite bind_attributes in Hdc.
  change ("climate" =? "sensor") with false in Hdc.
  change ("climate" =? "binary_sensor") with false in Hdc.
  change ("climate" =? "switch") with false in Hdc.
  change ("climate" =? "device_tracker") with false in Hdc.
  change ("climate" =? "climate") with true in Hdc.
  cbn [andb] in Hdc.
  exists ns, (link_device env (n_entity_id n) c).
  split; [exact Hn|]. split; [now rewrite Hp|].
  revert Hdc.
  unfold climate_config, new_state_attributes, dict_getitem, py_getitem,
    mutate_attribute.
  run_effects.
  destruct (Dict.get "max_temp" (attributes ns)) as [mx|]; [|discriminate].
  destruct (Dict.get "min_temp" (attributes ns)) as [mn|]; [|discriminate].
  destruct (Dict.get "hvac_modes" (attributes ns)) as [hv|]; [|discriminate].
  destruct (Dict.get "preset_modes" (attributes ns)) as [pm|]; [|discriminate].
  destruct (py_in "none" pm) as [ex|[|]] eqn:Hnone; run_effects; [discriminate| |].
  - destruct pm as [| | | |l|]; try discriminate. run_effects.
    intros [= _ <-].
    repeat split; rewrite ?link_device_keeps by reflexivity;
      rewrite ?get_set_same, ?get_set_other by reflexivity;
      rewrite ?get_set_same, ?get_set_other by reflexivity;
      rewrite ?get_set_same, ?get_set_other by reflexivity;
      try reflexivity.
    + injection H as <-. reflexivity.
    + apply remove_first_others.
    + apply remove_first_count.
  - intros [= _ <-].
    repeat split; rewrite ?link_device_keeps by reflexivity;
      rewrite ?get_set_same, ?get_set_other by reflexivity;
      rewrite ?get_set_same, ?get_set_other by reflexivity;
      rewrite ?get_set_same, ?get_set_other by reflexivity;
      try reflexivity.
    + injection H as ->. cbn [py_in] in Hnone. injection Hnone as Hnone.
      now rewrite remove_first_absent.
    + apply remove_first_others.
    + apply remove_first_count.
Qed.

End DomainConfigs.

Section Layout.

Variable env : Env.
Variable conf : Conf.

(** The stages of a call with the early publishes spelled out. *)
Lemma publish_entity_explicit e ns reg :
  let w := mkWorld reg (Some ns) in
  let mybase := mybase_of conf e in
  let ts := output (publish_timestamps_step conf mybase ns w) in
  let ats := if publish_attributes conf
             then map (fun kv => mkPublish SiteAttribute (mybase ++ fst kv)
                                   (PJson (snd kv)) 1 true) (attributes ns)
             else [] in
  publish_entity env conf e ns w
  = match split_char "." e with
    | d :: i :: _ =>
        let r1 := discovery_step env conf e d i mybase w in
        match outcome r1 with
        | inl ex => (ts ++ ats ++ output r1, store r1, inl ex)
        | inr _ =>
            let r2 := state_step conf d mybase ns (store r1) in
            (ts ++ ats ++ output r1 ++ output r2, store r2, outcome r2)
        end
    | _ => (ts ++ ats, w, inl IndexError)
    end.
Proof.
  cbv zeta.
  destruct (timestamps_step_spec conf (mybase_of conf e) ns (mkWorld reg (Some ns)))
    as (ts & Hts & _).
  assert (Hats : publish_attributes_step conf (mybase_of conf e) (mkWorld reg (Some ns))
                 = (if publish_attributes conf
                    then map (fun kv => mkPublish SiteAttribute
                                          (mybase_of conf e ++ fst kv)
                                          (PJson (snd kv)) 1 true) (attributes ns)
                    else [],
                    mkWorld reg (Some ns), inr tt)).
  { unfold publish_attributes_step. destruct (publish_attributes conf); [|reflexivity].
    rewrite bind_attributes. unfold async_publish. apply for_each_publish. }
  unfold publish_entity. cbv zeta.
  unfold bind at 1. rewrite Hts. cbn [output fst snd].
  unfold bind at 1. rewrite Hats.
  destruct (split_char "." e) as [|d [|i rest]]; cbn [nth_error].
  - rewrite bind_lift_inl. now rewrite app_nil_r.
  - rewrite bind_lift_inr, bind_lift_inl. now rewrite app_nil_r.
  - rewrite bind_lift_inr, bind_lift_inr. unfold bind.
    destruct (discovery_step env conf e d i (mybase_of conf e) (mkWorld reg (Some ns)))
      as [[o1 w1] [ex|[]]]; cbn [outcome output store fst snd].
    + reflexivity.
    + destruct (state_step conf d (mybase_of conf e) ns w1) as [[o2 w2] r2].
      cbn [outcome output store fst snd]. reflexivity.
Qed.

(** Every publish of a call, by its site: the topic in terms of [mybase]
    and [entity_disc_topic], and the QoS and retain flag it is made with. *)
Lemma publishes_by_site reg n ns p :
  n_new_state n = Some ns ->
  In p (output (notify env conf reg n)) ->
  addressed conf (n_entity_id n) (attributes ns) p
  /\ pub_qos p = 1%Z
  /\ pub_retain p = true.
Proof.
  intros Hn Hin.
  destruct (publish_filter conf (n_entity_id n)) eqn:Hf.
  2:{ rewrite (notify_filtered env conf reg n Hf) in Hin. destruct Hin. }
  rewrite (notify_processed env conf reg n ns Hn Hf) in Hin.
  rewrite publish_entity_explicit in Hin. cbv zeta in Hin.
  set (e := n_entity_id n) in *. set (mybase := mybase_of conf e) in *.
  assert (Hts : forall q, In q (output (publish_timestamps_step conf mybase ns
                                          (mkWorld reg (Some ns)))) ->
                          addressed conf e (attributes ns) q
                          /\ pub_qos q = 1%Z /\ pub_retain q = true).
  { unfold publish_timestamps_step, async_publish.
    destruct (publish_timestamps conf), (last_updated ns), (last_changed ns);
      cbn; intros q Hq; intuition (subst; cbn; auto). }
  assert (Hats : forall q, In q (if publish_attributes conf
                                 then map (fun kv => mkPublish SiteAttribute
                                                       (mybase ++ fst kv)
                                                       (PJson (snd kv)) 1 true)
                                        (attributes ns)
                                 else []) ->
                           addressed conf e (attributes ns) q
                           /\ pub_qos q = 1%Z /\ pub_retain q = true).
  { destruct (publish_attributes conf); [|intros q []].
    intros q Hq. apply in_map_iff in Hq. destruct Hq as ([k v] & <- & Hkv).
    repeat split. unfold addressed. cbn. eauto. }
  assert (Hdisc : forall d i q,
             In q (output (discovery_step env conf e d i mybase (mkWorld reg (Some ns)))) ->
             addressed conf e (attributes ns) q
             /\ pub_qos q = 1%Z /\ pub_retain q = true).
  { intros d i q Hq.
    pose proof (discovery_step_spec env conf e d i mybase reg ns) as Hd.
    inversion Hd as [ex Hx | Hskip Hx | config attrs' Hp Hm He Hx];
      rewrite <- Hx in Hq; cbn in Hq; try contradiction.
    destruct Hq as [<-|[]]. repeat split. }
  assert (Hstate : forall d w q,
             (exists reg' ns', w = mkWorld reg' (Some ns')) ->
             In q (output (state_step conf d mybase ns w)) ->
             addressed conf e (attributes ns) q
             /\ pub_qos q = 1%Z /\ pub_retain q = true).
  { intros d w q (reg' & ns' & ->) Hq.
    pose proof (state_step_spec conf d mybase ns reg' ns') as Hs.
    inversion Hs as [Hoff Hx | ex Hon Hd' Hx | payload attrs Hon Hd' Hl Hx
                     | attrs Hon Hd' Hx];
      rewrite <- Hx in Hq; cbn in Hq;
      repeat (destruct Hq as [<-|Hq]; [repeat split|]); contradiction. }
  destruct (split_char "." e) as [|d [|i rest]]; cbn [output fst snd] in Hin.
  - apply in_app_or in Hin. destruct Hin; auto.
  - apply in_app_or in Hin. destruct Hin; auto.
  - cbv zeta in Hin.
    pose proof (discovery_step_spec env conf e d i mybase reg ns) as Hd.
    assert (Hw : exists reg' ns',
               store (discovery_step env conf e d i mybase (mkWorld reg (Some ns)))
               = mkWorld reg' (Some ns'))
      by (inversion Hd; cbn; eauto).
    destruct (outcome (discovery_step env conf e d i mybase (mkWorld reg (Some ns))));
      cbn [output fst snd] in Hin;
      repeat (apply in_app_or in Hin; destruct Hin as [Hin|Hin]); eauto.
Qed.

End Layout.

Lemma mem_string_In x l : mem_string x l = true <-> In x l.
Proof.
  unfold mem_string. rewrite existsb_exists. split.
  - intros (y & Hy & Heq). apply String.eqb_eq in Heq. now subst.
  - intros H. exists x. split; [exact H|apply String.eqb_refl].
Qed.

Lemma copy_dict_fresh (l acc : dict) :
  NoDup (Dict.keys (acc ++ l)) ->
  fold_left (fun a kv => Dict.set (fst kv) (snd kv) a) l acc = acc ++ l.
Proof.
  revert acc. induction l as [|[k v] l IH]; intros acc Hnd; cbn [fold_left].
  - now rewrite app_nil_r.
  - assert (Hset : Dict.set k v acc = acc ++ [(k, v)]).
    { assert (Hk : ~ In k (Dict.keys acc)).
      { unfold Dict.keys in Hnd. rewrite map_app in Hnd. cbn [map fst] in Hnd.
        apply NoDup_remove_2 in Hnd. intros H. apply Hnd.
        apply in_or_app. now left. }
      clear -Hk. induction acc as [|[k0 v0] acc IHa]; cbn [Dict.set app];
        [reflexivity|].
      destruct (k =? k0) eqn:H0.
      - apply String.eqb_eq in H0. subst. elim Hk. now left.
      - rewrite IHa; [reflexivity|]. intros H. apply Hk. now right. }
    cbn [fst snd]. rewrite Hset, IH; rewrite <- app_assoc; [reflexivity|exact Hnd].
Qed.

Section Registry.

Variable env : Env.
Variable conf : Conf.

(** X16.  An entity the filter rejects leaves no trace in a run: nothing is
    published for it and it is not entered in the registry. *)
Theorem filtered_entity_silent e reg ns :
  publish_filter conf e = false ->
  Forall (fun ep => fst ep <> e) (run env conf reg ns)
  /\ mem_string e (registry_after env conf reg ns) = mem_string e reg.
Proof.
  intros Hf. revert reg. induction ns as [|n ns IH]; intros reg;
    cbn [run registry_after]; [split; [constructor|reflexivity]|].
  destruct (String.eqb_spec (n_entity_id n) e) as [He|He].
  - rewrite <- He in Hf. rewrite (notify_filtered env conf reg n Hf).
    cbn [output store conf_published fst snd map app]. apply IH.
  - destruct (IH (conf_published (store (notify env conf reg n)))) as [H1 H2].
    split.
    + apply Forall_app. split; [|exact H1].
      apply Forall_forall. intros ep Hin. apply in_map_iff in Hin.
      destruct Hin as (p & <- & _). exact He.
    + rewrite H2.
      destruct (notify_registry env conf reg n) as [[-> _] | [-> _]]; [reflexivity|].
      rewrite mem_string_app, mem_string_single.
      apply String.eqb_neq in He. rewrite String.eqb_sym, He. apply orb_false_r.
Qed.

End Registry.

Section Edges.

Variable env : Env.
Variable conf : Conf.

Lemma discovery_step_keeps_state e d i mybase reg ns :
  (d =? "climate") = false ->
  new_state (store (discovery_step env conf e d i mybase (mkWorld reg (Some ns))))
  = Some ns.
Proof.
  intros Hd. unfold discovery_step. rewrite bind_get. cbn [conf_published].
  destruct (publish_discovery conf); cbn [andb]; [|reflexivity].
  destruct (mem_string e reg); cbn [negb]; [reflexivity|].
  rewrite bind_attributes. unfold bind at 1.
  destruct (domain_config_spec env conf e d mybase
              (common_config env e i mybase (attributes ns)) reg ns) as [H _].
  inversion H as [ex Hx | config attrs' Hat Hx]; [reflexivity|].
  destruct Hat as [-> | Hc]; [|congruence].
  rewrite with_attributes_same. cbn [snd fst].
  destruct (eligible conf d (attributes ns)); reflexivity.
Qed.

Lemma discovery_step_registered e d i mybase reg ns :
  mem_string e reg = true ->
  discovery_step env conf e d i mybase (mkWorld reg (Some ns))
  = ([], mkWorld reg (Some ns), inr tt).
Proof.
  intros Hm. unfold discovery_step. rewrite bind_get. cbn [conf_published].
  rewrite Hm. now destruct (publish_discovery conf).
Qed.

Lemma state_step_store d mybase ns reg ns' :
  store (state_step conf d mybase ns (mkWorld reg (Some ns'))) = mkWorld reg (Some ns').
Proof. apply state_step_quiet. Qed.

(** X17.  A call changes the state object it is handed only when it builds
    the discovery config of a climate entity: for any other domain, for an
    entity already in the registry, and with discovery publishing disabled,
    the state object is after the call what it was before. *)
Theorem snapshot_kept reg n :
  nth_error (split_char "." (n_entity_id n)) 0 <> Some "climate"
  \/ mem_string (n_entity_id n) reg = true
  \/ publish_discovery conf = false ->
  new_state (store (notify env conf reg n)) = n_new_state n.
Proof.
  intros H.
  destruct (n_new_state n) as [ns|] eqn:Hn.
  2:{ unfold notify. now rewrite Hn. }
  destruct (publish_filter conf (n_entity_id n)) eqn:Hf.
  2:{ now rewrite (notify_filtered env conf reg n Hf). }
  rewrite (notify_processed env conf reg n ns Hn Hf).
  destruct (publish_entity_stages env conf (n_entity_id n) ns reg)
    as (ts & ats & _ & _ & ->).
  destruct (split_char "." (n_entity_id n)) as [|d [|i rest]]; try reflexivity.
  cbv zeta.
  set (r1 := discovery_step env conf (n_entity_id n) d i
               (mybase_of conf (n_entity_id n)) (mkWorld reg (Some ns))).
  assert (Hr1 : exists reg', store r1 = mkWorld reg' (Some ns)).
  { destruct H as [H|[H|H]].
    - assert (Hd : (d =? "climate") = false).
      { apply String.eqb_neq. intros ->. now apply H. }
      pose proof (discovery_step_keeps_state (n_entity_id n) d i
                    (mybase_of conf (n_entity_id n)) reg ns Hd) as Hk.
      fold r1 in Hk. destruct (store r1) as [reg' st]. cbn in Hk. subst st. eauto.
    - unfold r1. rewrite (discovery_step_registered _ _ _ _ _ _ H). cbn. eauto.
    - unfold r1. rewrite (discovery_step_off env conf _ _ _ _ _ H). cbn. eauto. }
  destruct Hr1 as [reg' Hr1].
  destruct (outcome r1); cbn [store fst snd]; rewrite Hr1; [reflexivity|].
  now rewrite state_step_store.
Qed.

(** X18.  A climate entity not yet in the registry that lacks one of
    [max_temp], [min_temp], [hvac_modes], [preset_modes] makes the call
    raise KeyError on a missing attribute, after the timestamp and
    per-attribute publishes and before any config, state or availability
    publish; the registry and the state object stay as they were, so the
    same happens at every notification. *)
Theorem climate_missing_attribute reg n ns i rest :
  publish_discovery conf = true ->
  n_new_state n = Some ns ->
  publish_filter conf (n_entity_id n) = true ->
  split_char "." (n_entity_id n) = "climate" :: i :: rest ->
  mem_string (n_entity_id n) reg = false ->
  Dict.get "max_temp" (attributes ns) = None
  \/ Dict.get "min_temp" (attributes ns) = None
  \/ Dict.get "hvac_modes" (attributes ns) = None
  \/ Dict.get "preset_modes" (attributes ns) = None ->
  exists k,
    outcome (notify env conf reg n) = inl (KeyError (JStr k))
    /\ Dict.get k (attributes ns) = None
    /\ In k ["max_temp"; "min_temp"; "hvac_modes"; "preset_modes"]
    /\ map pub_site (output (notify env conf reg n))
       = timestamp_sites conf ns ++ attribute_sites conf ns
    /\ store (notify env conf reg n) = mkWorld reg (Some ns).
Proof.
  intros Hp Hn Hf Hs Hm Hmiss.
  rewrite (notify_processed env conf reg n ns Hn Hf).
  destruct (publish_entity_stages env conf (n_entity_id n) ns reg)
    as (ts & ats & Hts & Hats & ->).
  rewrite Hs. cbv zeta.
  assert (Hd : exists k,
             discovery_step env conf (n_entity_id n) "climate" i
               (mybase_of conf (n_entity_id n)) (mkWorld reg (Some ns))
             = ([], mkWorld reg (Some ns), inl (KeyError (JStr k)))
             /\ Dict.get k (attributes ns) = None
             /\ In k ["max_temp"; "min_temp"; "hvac_modes"; "preset_modes"]).
  { unfold discovery_step. rewrite bind_get. cbn [conf_published].
    rewrite Hp, Hm. cbn [andb negb]. rewrite bind_attributes.
    unfold domain_config. unfold bind at 1. rewrite bind_attributes.
    change ("climate" =? "sensor") with false.
    change ("climate" =? "binary_sensor") with false.
    change ("climate" =? "switch") with false.
    change ("climate" =? "device_tracker") with false.
    change ("climate" =? "climate") with true. cbn [andb].
    unfold climate_config, new_state_attributes, dict_getitem, py_getitem.
    run_effects.
    destruct (Dict.get "max_temp" (attributes ns)) eqn:H1;
      [|exists "max_temp"; repeat split; [assumption|cbn; tauto]].
    destruct (Dict.get "min_temp" (attributes ns)) eqn:H2;
      [|exists "min_temp"; repeat split; [assumption|cbn; tauto]].
    destruct (Dict.get "hvac_modes" (attributes ns)) eqn:H3;
      [|exists "hvac_modes"; repeat split; [assumption|cbn; tauto]].
    destruct (Dict.get "preset_modes" (attributes ns)) eqn:H4;
      [|exists "preset_modes"; repeat split; [assumption|cbn; tauto]].
    destruct Hmiss as [H|[H|[H|H]]]; discriminate. }
  destruct Hd as (k & -> & Hk & Hin). cbn [outcome output store fst snd].
  exists k. repeat split; try assumption.
  now rewrite app_nil_r, map_app, Hts, Hats.
Qed.

(** X19.  A light whose colour attributes cannot be read (a pair too short,
    a value that is no sequence) makes the call raise after the discovery
    step: no state and no availability payload is published, while the
    discovery config of an entity not yet registered has been published and
    the entity entered in the registry. *)
Theorem light_unreadable_color reg n ns i rest ex :
  publish_discovery conf = true ->
  n_new_state n = Some ns ->
  publish_filter conf (n_entity_id n) = true ->
  split_char "." (n_entity_id n) = "light" :: i :: rest ->
  light_payload (state ns) (attributes ns) = inl ex ->
  outcome (notify env conf reg n) = inl ex
  /\ map pub_site (output (notify env conf reg n))
     = timestamp_sites conf ns ++ attribute_sites conf ns
       ++ (if mem_string (n_entity_id n) reg then [] else [SiteConfig])
  /\ conf_published (store (notify env conf reg n))
     = (if mem_string (n_entity_id n) reg then reg else reg ++ [n_entity_id n])
  /\ new_state (store (notify env conf reg n)) = Some ns.
Proof.
  intros Hp Hn Hf Hs Hl.
  rewrite (notify_processed env conf reg n ns Hn Hf).
  destruct (publish_entity_stages env conf (n_entity_id n) ns reg)
    as (ts & ats & Hts & Hats & ->).
  rewrite Hs. cbv zeta.
  assert (Hstate : forall reg',
             state_step conf "light" (mybase_of conf (n_entity_id n)) ns
               (mkWorld reg' (Some ns))
             = ([], mkWorld reg' (Some ns), inl ex)).
  { intros reg'. unfold state_step. rewrite Hp.
    change ("light" =? "light") with true. cbv iota.
    rewrite bind_attributes, Hl. apply bind_lift_inl. }
  pose proof (discovery_step_keeps_state (n_entity_id n) "light" i
                (mybase_of conf (n_entity_id n)) reg ns eq_refl) as Hk.
  destruct (mem_string (n_entity_id n) reg) eqn:Hm.
  - rewrite (discovery_step_registered _ _ _ _ _ _ Hm).
    cbn [outcome output store fst snd]. rewrite Hstate.
    cbn [outcome output store fst snd conf_published new_state].
    repeat split. now rewrite !app_nil_r, map_app, Hts, Hats.
  - destruct (discovery_step_ready env conf (n_entity_id n) "light" i
                (mybase_of conf (n_entity_id n)) reg ns Hp Hm)
      as (config & ns' & Hd); [reflexivity|discriminate|].
    rewrite Hd in Hk |- *. cbn in Hk. injection Hk as ->.
    cbn [outcome output store fst snd]. rewrite Hstate.
    cbn [outcome output store fst snd conf_published new_state].
    repeat split. now rewrite !map_app, Hts, Hats.
Qed.

(** X20.  For a domain other than climate and light a processed
    notification of a well-formed entity never raises; with discovery
    publishing enabled it publishes the state as text, then the
    availability, then the attributes as one JSON object, which is the
    attribute mapping itself. *)
Theorem plain_domain_publishes reg n ns d i rest :
  publish_discovery conf = true ->
  n_new_state n = Some ns ->
  publish_filter conf (n_entity_id n) = true ->
  split_char "." (n_entity_id n) = d :: i :: rest ->
  d <> "climate" -> d <> "light" ->
  NoDup (Dict.keys (attributes ns)) ->
  let mybase := mybase_of conf (n_entity_id n) in
  exists before,
    notify env conf reg n
    = (before ++ [mkPublish SiteState (mybase ++ "state") (text_payload (state ns)) 1 true;
                  availability_publish mybase ns;
                  mkPublish SiteAttributes (mybase ++ "attributes")
                    (PJson (JObj (attributes ns))) 1 true],
       mkWorld (if negb (mem_string (n_entity_id n) reg)
                   && eligible conf d (attributes ns)
                then reg ++ [n_entity_id n] else reg) (Some ns),
       inr tt)
    /\ map pub_site before
       = timestamp_sites conf ns ++ attribute_sites conf ns
         ++ (if negb (mem_string (n_entity_id n) reg) && eligible conf d (attributes ns)
             then [SiteConfig] else []).
Proof.
  intros Hp Hn Hf Hs Hc Hli Hnd mybase. subst mybase.
  apply String.eqb_neq in Hc, Hli.
  rewrite (notify_processed env conf reg n ns Hn Hf).
  destruct (publish_entity_stages env conf (n_entity_id n) ns reg)
    as (ts & ats & Hts & Hats & ->).
  rewrite Hs. cbv zeta.
  assert (Hstate : forall reg',
             state_step conf d (mybase_of conf (n_entity_id n)) ns
               (mkWorld reg' (Some ns))
             = ([mkPublish SiteState (mybase_of conf (n_entity_id n) ++ "state")
                   (text_payload (state ns)) 1 true;
                 availability_publish (mybase_of conf (n_entity_id n)) ns;
                 mkPublish SiteAttributes (mybase_of conf (n_entity_id n) ++ "attributes")
                   (PJson (JObj (attributes ns))) 1 true],
                mkWorld reg' (Some ns), inr tt)).
  { intros reg'. unfold state_step. rewrite Hp, Hli.
    unfold async_publish. rewrite !bind_emit, bind_attributes.
    unfold copy_dict. rewrite (copy_dict_fresh (attributes ns) []) by exact Hnd.
    reflexivity. }
  pose proof (discovery_step_keeps_state (n_entity_id n) d i
                (mybase_of conf (n_entity_id n)) reg ns Hc) as Hk.
  pose proof (discovery_step_spec env conf (n_entity_id n) d i
                (mybase_of conf (n_entity_id n)) reg ns) as Hd.
  destruct (mem_string (n_entity_id n) reg) eqn:Hm; cbn [negb andb].
  - rewrite (discovery_step_registered _ _ _ _ _ _ Hm).
    cbn [outcome output store fst snd]. rewrite Hstate.
    cbn [outcome output store fst snd]. exists (ts ++ ats).
    split; [now rewrite <- !app_assoc|].
    now rewrite map_app, Hts, Hats, app_nil_r.
  - destruct (eligible conf d (attributes ns)) eqn:He.
    + destruct (discovery_step_ready env conf (n_entity_id n) d i
                  (mybase_of conf (n_entity_id n)) reg ns Hp Hm He)
        as (config & ns' & Heq); [congruence|].
      rewrite Heq in Hk |- *. cbn in Hk. injection Hk as ->.
      cbn [outcome output store fst snd]. rewrite Hstate.
      cbn [outcome output store fst snd].
      eexists (ts ++ ats ++ [_]). split; [now rewrite <- !app_assoc|].
      now rewrite !map_app, Hts, Hats.
    + inversion Hd as [ex Hx | Hskip Hx | config attrs' _ _ He' Hx]; [| |congruence].
      * exfalso.
        destruct (domain_config_spec env conf (n_entity_id n) d
                    (mybase_of conf (n_entity_id n))
                    (common_config env (n_entity_id n) i
                       (mybase_of conf (n_entity_id n)) (attributes ns)) reg ns)
          as [Hdo _].
        revert Hx. unfold discovery_step. rewrite bind_get. cbn [conf_published].
        rewrite Hp, Hm. cbn [andb negb]. rewrite bind_attributes. unfold bind at 1.
        revert Hdo. unfold domain_config. rewrite bind_attributes.
        unfold eligible in He. rewrite Hc, Hli in He. rewrite !orb_false_r in He.
        apply orb_false_iff in He as [He He4].
        apply orb_false_iff in He as [He He3].
        apply orb_false_iff in He as [He1 He2].
        rewrite He1, He2, He3, He4, Hc, Hli. unfold ret. cbn. discriminate.
      * cbn [outcome output store fst snd]. rewrite Hstate.
        cbn [outcome output store fst snd]. exists (ts ++ ats).
        split; [now rewrite <- !app_assoc|].
        now rewrite map_app, Hts, Hats, app_nil_r.
Qed.

(** X21.  An entity id without a dot makes the call raise IndexError after
    the timestamp and per-attribute publishes: no config, state or
    availability payload is published and the registry stays as it was. *)
Theorem entity_id_without_dot reg n ns d :
  n_new_state n = Some ns ->
  publish_filter conf (n_entity_id n) = true ->
  split_char "." (n_entity_id n) = [d] ->
  outcome (notify env conf reg n) = inl IndexError
  /\ map pub_site (output (notify env conf reg n))
     = timestamp_sites conf ns ++ attribute_sites conf ns
  /\ store (notify env conf reg n) = mkWorld reg (Some ns).
Proof.
  intros Hn Hf Hs.
  rewrite (notify_processed env conf reg n ns Hn Hf).
  destruct (publish_entity_stages env conf (n_entity_id n) ns reg)
    as (ts & ats & Hts & Hats & ->).
  rewrite Hs. cbn [outcome output store fst snd].
  repeat split. now rewrite map_app, Hts, Hats.
Qed.

End Edges.

(** * Topics *)

Lemma string_app_assoc (a b c : string) : ((a ++ b) ++ c = a ++ b ++ c)%string.
Proof. induction a as [|x a IH]; cbn; [reflexivity|now rewrite IH]. Qed.

Lemma has_char_app c a b :
  has_char c (a ++ b) = has_char c a || has_char c b.
Proof.
  induction a as [|x a IH]; cbn [append has_char]; [reflexivity|].
  now rewrite IH, orb_assoc.
Qed.

Lemma replace_char_app a b s t :
  (replace_char a b (s ++ t) = replace_char a b s ++ replace_char a b t)%string.
Proof. induction s as [|x s IH]; cbn; [reflexivity|now rewrite IH]. Qed.

Lemma replace_char_absent a b s :
  has_char a s = false -> replace_char a b s = s.
Proof.
  induction s as [|x s IH]; cbn [has_char replace_char]; [reflexivity|].
  intros H. apply orb_false_iff in H. destruct H as [Hx Hs].
  now rewrite Hx, IH.
Qed.

Lemma split_char_absent sep s :
  has_char sep s = false -> split_char sep s = [s].
Proof.
  induction s as [|x s IH]; cbn [has_char split_char]; [reflexivity|].
  intros H. apply orb_false_iff in H. destruct H as [Hx Hs].
  now rewrite Hx, IH.
Qed.

Lemma split_char_level sep a s :
  has_char sep a = false ->
  split_char sep (a ++ String sep s) = a :: split_char sep s.
Proof.
  induction a as [|x a IH]; cbn [has_char split_char append].
  - intros _. now rewrite Ascii.eqb_refl.
  - intros H. apply orb_false_iff in H. destruct H as [Hx Ha].
    now rewrite Hx, IH.
Qed.

Lemma ends_with_app c s : ends_with c (s ++ String c EmptyString) = true.
Proof.
  induction s as [|x s IH]; cbn [append ends_with]; [apply Ascii.eqb_refl|].
  destruct (s ++ String c "")%string eqn:H; [|exact IH].
  destruct s; discriminate.
Qed.

Section Topics.

Variable env : Env.
Variable conf : Conf.

(** The levels of a topic below [mybase], for a base topic of one level. *)
Lemma command_topic_levels b d x suffix :
  base_topic conf = (b ++ "/")%string ->
  has_char "/" b = false ->
  has_char "/" d = false -> has_char "." d = false ->
  has_char "/" x = false -> has_char "." x = false ->
  has_char "/" suffix = false ->
  split_char "/" (mybase_of conf (d ++ "." ++ x) ++ suffix) = [b; d; x; suffix].
Proof.
  intros Hb Hsb Hsd Hdd Hsx Hdx Hss.
  unfold mybase_of. rewrite Hb.
  rewrite !replace_char_app, (replace_char_absent _ _ d Hdd),
    (replace_char_absent _ _ x Hdx).
  cbn [replace_char]. change (Ascii.eqb "." ".") with true. cbv iota.
  rewrite !string_app_assoc. cbn [append].
  rewrite (split_char_level "/" b) by exact Hsb.
  rewrite (split_char_level "/" d) by exact Hsd.
  rewrite (split_char_level "/" x) by exact Hsx.
  now rewrite (split_char_absent "/" suffix) by exact Hss.
Qed.

(** The same for a base topic of two levels. *)
Lemma deep_topic_levels a b d x suffix :
  base_topic conf = (a ++ "/" ++ b ++ "/")%string ->
  has_char "/" a = false -> has_char "/" b = false ->
  has_char "/" d = false -> has_char "." d = false ->
  has_char "/" x = false -> has_char "." x = false ->
  split_char "/" (mybase_of conf (d ++ "." ++ x) ++ suffix)
  = a :: b :: d :: x :: split_char "/" suffix.
Proof.
  intros Hb Hsa Hsb Hsd Hdd Hsx Hdx.
  unfold mybase_of. rewrite Hb.
  rewrite !replace_char_app, (replace_char_absent _ _ d Hdd),
    (replace_char_absent _ _ x Hdx).
  cbn [replace_char]. change (Ascii.eqb "." ".") with true. cbv iota.
  rewrite !string_app_assoc. cbn [append].
  rewrite (split_char_level "/" a) by exact Hsa.
  rewrite (split_char_level "/" b) by exact Hsb.
  rewrite (split_char_level "/" d) by exact Hsd.
  now rewrite (split_char_level "/" x) by exact Hsx.
Qed.

(** X22.  With a base topic of one level, the command topic advertised in a
    switch's discovery config ([<mybase>set]) decodes back to that switch:
    the payload "on" (the advertised [pl_on]) turns the entity
    [switch.<object_id>] on, "off" turns it off. *)
Theorem switch_command_topic_decoded b x payload :
  base_topic conf = (b ++ "/")%string ->
  has_char "/" b = false ->
  has_char "/" x = false -> has_char "." x = false ->
  payload = "on" \/ payload = "off" ->
  _message_received env
    (mkMessage (mybase_of conf ("switch." ++ x) ++ "set") payload) tt
  = ([LogDebug (mybase_of conf ("switch." ++ x) ++ "set") payload;
      ServiceCall "switch" (if payload =? "on" then "turn_on" else "turn_off")
        [("entity_id", JStr ("switch." ++ x))]],
     tt, inr tt).
Proof.
  intros Hb Hsb Hsx Hdx Hpl.
  pose proof (command_topic_levels b "switch" x "set" Hb Hsb eq_refl eq_refl
                Hsx Hdx eq_refl) as Hs.
  change ("switch" ++ "." ++ x)%string with ("switch." ++ x)%string in Hs.
  unfold _message_received. cbv zeta. cbn [topic msg_payload]. rewrite Hs.
  cbn [level nth_error]. rewrite !bind_lift_inr, bind_emit.
  change ("set" =? "set") with true. change ("set" =? "set_light") with false.
  destruct Hpl as [-> | ->]; reflexivity.
Qed.

(** X23.  With a base topic of two levels the same command topic is not
    understood: the decoder reads the domain from the second level and the
    element from the fourth, so a command for an object id other than "set"
    and "set_light" is only logged at debug level and dispatches nothing. *)
Theorem deep_base_topic_ignored a b x payload :
  base_topic conf = (a ++ "/" ++ b ++ "/")%string ->
  has_char "/" a = false -> has_char "/" b = false ->
  has_char "/" x = false -> has_char "." x = false ->
  x <> "set" -> x <> "set_light" ->
  _message_received env
    (mkMessage (mybase_of conf ("switch." ++ x) ++ "set") payload) tt
  = ([LogDebug (mybase_of conf ("switch." ++ x) ++ "set") payload], tt, inr tt).
Proof.
  intros Hb Hsa Hsb Hsx Hdx H1 H2.
  pose proof (deep_topic_levels a b "switch" x "set" Hb Hsa Hsb eq_refl eq_refl
                Hsx Hdx) as Hs.
  change ("switch" ++ "." ++ x)%string with ("switch." ++ x)%string in Hs.
  apply String.eqb_neq in H1, H2.
  unfold _message_received. cbv zeta. cbn [topic msg_payload]. rewrite Hs.
  cbn [level nth_error]. rewrite !bind_lift_inr, bind_emit.
  rewrite H1, H2. reflexivity.
Qed.

End Topics.

(** * [async_setup] *)

Section SetupFacts.

Variable convert : Config -> string -> bool.
Variable subscribe_ok : string -> bool.

Lemma with_trailing_slash_ends t : ends_with "/" (with_trailing_slash t) = true.
Proof.
  unfold with_trailing_slash. destruct (ends_with "/" t) eqn:H; [exact H|].
  apply ends_with_app.
Qed.

(** X24.  After setup both topics end with a slash (a topic that already
    does is kept as it is), the discovery topic is the base topic when it is
    unset or empty, the registry is empty, and setup reports success. *)
Theorem setup_topics config :
  let s := async_setup convert subscribe_ok config in
  ends_with "/" (base_topic (closure s)) = true
  /\ ends_with "/" (discovery_topic (closure s)) = true
  /\ (ends_with "/" (cfg_base_topic config) = true ->
      base_topic (closure s) = cfg_base_topic config)
  /\ (cfg_discovery_topic config = None \/ cfg_discovery_topic config = Some "" ->
      discovery_topic (closure s) = base_topic (closure s))
  /\ (forall t, cfg_discovery_topic config = Some t -> t <> "" ->
                ends_with "/" t = true -> discovery_topic (closure s) = t)
  /\ initial_published s = []
  /\ setup_result s = true.
Proof.
  cbv zeta. unfold async_setup. cbn [closure base_topic discovery_topic
                                       initial_published setup_result].
  repeat split; try apply with_trailing_slash_ends.
  - intros H. unfold with_trailing_slash. now rewrite H.
  - intros [-> | ->]; reflexivity.
  - intros t -> Ht He. apply String.eqb_neq in Ht. rewrite Ht.
    unfold with_trailing_slash. now rewrite He.
Qed.

(** X25.  Setup always ends by registering the state publisher, whatever
    the transport does.  It subscribes only with discovery publishing
    enabled, only to [<base>switch/+/set] and [<base>light/+/set_light], and
    logs a warning exactly when a subscription is refused; after a refused
    first subscription the second is not attempted. *)
Theorem setup_subscriptions config :
  let s := async_setup convert subscribe_ok config in
  let base := base_topic (closure s) in
  (exists before, setup_effects s = before ++ [TrackStateChange]
                  /\ ~ In TrackStateChange before)
  /\ (forall pattern, In (Subscribe pattern) (setup_effects s) ->
        cfg_publish_discovery config = true
        /\ subscribe_ok pattern = true
        /\ (pattern = (base ++ "switch/+/set")%string
            \/ (pattern = (base ++ "light/+/set_light")%string
                /\ In (Subscribe (base ++ "switch/+/set")) (setup_effects s))))
  /\ ((exists text, In (LogWarning text) (setup_effects s))
      <-> cfg_publish_discovery config = true
          /\ (subscribe_ok (base ++ "switch/+/set") = false
              \/ subscribe_ok (base ++ "light/+/set_light") = false))
  /\ (cfg_publish_discovery config = false -> setup_effects s = [TrackStateChange]).
Proof.
  cbv zeta. unfold async_setup. cbn [closure base_topic setup_effects].
  set (base := with_trailing_slash (cfg_base_topic config)).
  unfold subscribe_commands.
  destruct (cfg_publish_discovery config);
    [destruct (subscribe_ok (base ++ "switch/+/set")) eqn:H1;
     [destruct (subscribe_ok (base ++ "light/+/set_light")) eqn:H2|]|];
    (split; [eexists; split; [reflexivity|cbn; intuition discriminate]|]);
    (split; [cbn; intros pattern Hin;
             repeat (destruct Hin as [Hin|Hin]; try discriminate; try contradiction);
             try (injection Hin as <-); auto 6|]);
    (split; [|intros; try discriminate; reflexivity]);
    (split; [intros (text & Hin); cbn in Hin;
             repeat (destruct Hin as [Hin|Hin]; try discriminate; try contradiction);
             auto
            |intros (Hd & Hor); try discriminate;
             try (destruct Hor; congruence);
             exists "MQTT Not ready"; cbn; auto]).
Qed.

End SetupFacts.

(** * The device block *)

Section Devices.

Variable env : Env.
Variable conf : Conf.

Lemma get_set_if_truthy k k' v d :
  Dict.get k (set_if_truthy k' v d)
  = if (k =? k') && truthy v
    then match v with Some s => Some (JStr s) | None => None end
    else Dict.get k d.
Proof.
  unfold set_if_truthy. destruct v as [s|]; [|now rewrite andb_false_r].
  destruct (truthy (Some s)); [|now rewrite andb_false_r].
  rewrite andb_true_r. destruct (k =? k') eqn:Hk.
  - apply String.eqb_eq in Hk. subst. apply get_set_same.
  - now apply get_set_other.
Qed.

(** The text fields of a device block are never empty. *)
Lemma device_block_texts device k s :
  Dict.get k (device_block device) = Some (JStr s) -> s <> "".
Proof.
  unfold device_block.
  set (d4 := set_if_truthy "sw" (sw_version device)
               (set_if_truthy "name" (dev_name device)
                  (set_if_truthy "mdl" (model device)
                     (set_if_truthy "mf" (manufacturer device) [])))).
  assert (H4 : Dict.get k d4 = Some (JStr s) -> s <> "").
  { unfold d4. rewrite !get_set_if_truthy.
    destruct (k =? "sw"), (sw_version device) as [[|c t]|]; cbn;
      destruct (k =? "name"), (dev_name device) as [[|c1 t1]|]; cbn;
      destruct (k =? "mdl"), (model device) as [[|c2 t2]|]; cbn;
      destruct (k =? "mf"), (manufacturer device) as [[|c3 t3]|]; cbn;
      intros H; try discriminate; injection H as <-; discriminate. }
  destruct (identifiers device) as [|id ids], (connections device) as [|cn cns];
    try exact H4.
  - destruct (k =? "cns") eqn:Hk.
    + apply String.eqb_eq in Hk. subst. rewrite get_set_same. discriminate.
    + rewrite get_set_other by exact Hk. exact H4.
  - destruct (k =? "ids") eqn:Hk.
    + apply String.eqb_eq in Hk. subst. rewrite get_set_same. discriminate.
    + rewrite get_set_other by exact Hk. exact H4.
  - destruct (k =? "cns") eqn:Hk.
    + apply String.eqb_eq in Hk. subst. rewrite get_set_same. discriminate.
    + rewrite get_set_other by exact Hk.
      destruct (k =? "ids") eqn:Hk'.
      * apply String.eqb_eq in Hk'. subst. rewrite get_set_same. discriminate.
      * rewrite get_set_other by exact Hk'. exact H4.
Qed.

Lemma link_devices_inner entry devices config :
  let result :=
    fold_left
      (fun config device =>
         if negb (same_device device entry) then config
         else Dict.set "dev" (JObj (device_block device)) config)
      devices config in
  (exists device, In device devices /\ same_device device entry = true
                  /\ Dict.get "dev" result = Some (JObj (device_block device)))
  \/ ((forall device, In device devices -> same_device device entry = false)
      /\ result = config).
Proof.
  cbv zeta. revert config.
  induction devices as [|device devices IH]; intros config; cbn [fold_left].
  - right. split; [intros ? []|reflexivity].
  - destruct (IH (if negb (same_device device entry) then config
                  else Dict.set "dev" (JObj (device_block device)) config))
      as [(dv & Hin & Hsame & Hget) | (Hnone & Heq)].
    + left. exists dv. split; [now right|]. split; assumption.
    + rewrite Heq. destruct (same_device device entry) eqn:Hs; cbn [negb].
      * left. exists device. split; [now left|]. split; [exact Hs|apply get_set_same].
      * right. split; [|reflexivity]. intros dv [<-|Hin]; [exact Hs|now apply Hnone].
Qed.

(** The device block of a configuration: that of a device the entity
    registry links the entity to, or none when there is no such device. *)
Lemma link_device_block e config :
  (exists entry device,
      In entry (ent_reg env) /\ entry_entity_id entry = e
      /\ In device (dev_reg env) /\ same_device device entry = true
      /\ Dict.get "dev" (link_device env e config) = Some (JObj (device_block device)))
  \/ ((forall entry device,
          In entry (ent_reg env) -> entry_entity_id entry = e ->
          In device (dev_reg env) -> same_device device entry = false)
      /\ link_device env e config = config).
Proof.
  unfold link_device. generalize (ent_reg env). intros entries. revert config.
  induction entries as [|entry entries IH]; intros config; cbn [fold_left].
  - right. split; [intros ? ? []|reflexivity].
  - match goal with
    | |- context [fold_left ?f entries ?c] => destruct (IH c) as [H | (Hnone & Heq)]
    end.
    + left. destruct H as (en & dv & H1 & H2 & H3 & H4 & H5).
      exists en, dv. repeat split; try assumption. now right.
    + rewrite Heq. destruct (entry_entity_id entry =? e) eqn:He; cbn [negb].
      * apply String.eqb_eq in He.
        destruct (link_devices_inner entry (dev_reg env) config)
          as [(dv & Hin & Hsame & Hget) | (Hno & Hsame)].
        -- left. exists entry, dv. repeat split; try assumption. now left.
        -- right. split; [|exact Hsame].
           intros en dv [<-|Hin] Hen Hdv; [now apply Hno|now apply (Hnone en dv)].
      * right. split; [|reflexivity].
        intros en dv [<-|Hin] Hen Hdv; [|now apply (Hnone en dv)].
        apply String.eqb_neq in He. contradiction.
Qed.

(** X26.  A published discovery config has a device block exactly when the
    entity registry links the entity to a device of the device registry; the
    block is then that of such a device, and its manufacturer, model, name
    and firmware are present only when not empty. *)
Theorem config_device_block reg n p :
  In p (output (notify env conf reg n)) ->
  pub_site p = SiteConfig ->
  exists config,
    pub_payload p = PJson (JObj config)
    /\ ((exists entry device,
           In entry (ent_reg env) /\ entry_entity_id entry = n_entity_id n
           /\ In device (dev_reg env)
           /\ entry_device_id entry = Some (dev_id device)
           /\ Dict.get "dev" config = Some (JObj (device_block device))
           /\ forall k s, Dict.get k (device_block device) = Some (JStr s) -> s <> "")
        \/ ((forall entry device,
               In entry (ent_reg env) -> entry_entity_id entry = n_entity_id n ->
               In device (dev_reg env) ->
               entry_device_id entry <> Some (dev_id device))
            /\ Dict.get "dev" config = None)).
Proof.
  intros Hin Hsite.
  destruct (config_publish_inversion env conf reg n p Hin Hsite)
    as (ns & d & i & rest & c & w1 & Hn & Hs & Hdc & Hp & _ & _).
  exists (link_device env (n_entity_id n) c). split; [now rewrite Hp|].
  assert (Hsame : forall device entry,
             same_device device entry = true
             <-> entry_device_id entry = Some (dev_id device)).
  { intros device entry. unfold same_device.
    destruct (entry_device_id entry) as [x|]; [|split; discriminate].
    rewrite String.eqb_eq. split; [intros ->; reflexivity|intros [= ->]; reflexivity]. }
  destruct (link_device_block (n_entity_id n) c)
    as [(entry & device & H1 & H2 & H3 & H4 & H5) | (Hnone & Heq)].
  - left. exists entry, device. repeat split; try assumption.
    + now apply Hsame.
    + apply device_block_texts.
  - right. split.
    + intros entry device H1 H2 H3 H4. apply Hsame in H4.
      rewrite (Hnone entry device H1 H2 H3) in H4. discriminate.
    + rewrite Heq.
      rewrite (domain_config_keeps env conf _ _ _ _ _ _ _ _ _ _ _ Hdc) by reflexivity.
      unfold common_config. rewrite !get_copy_other by reflexivity. reflexivity.
Qed.

End Devices.

(** * Calls in flight *)

Lemma world_eta (w : world) : mkWorld (conf_published w) (new_state w) = w.
Proof. destruct w; reflexivity. Qed.

Lemma system_eta (sys : System) : mkSystem (sys_published sys) (sys_pending sys) = sys.
Proof. destruct sys; reflexivity. Qed.

Lemma bind_cong {S E A B} (m : M S E A) (k k' : A -> M S E B) (s : S) :
  (forall a s', k a s' = k' a s') -> bind m k s = bind m k' s.
Proof.
  intros H. unfold bind. destruct (m s) as [[o s1] [e|a]]; [reflexivity|].
  now rewrite H.
Qed.

Section PartsFacts.

Variable env : Env.
Variable conf : Conf.

(** The discovery check is its first part followed by the append. *)
Lemma discovery_step_parts e d i mybase w :
  discovery_step env conf e d i mybase w
  = bind (discovery_check env conf e d i mybase)
         (fun b : bool => if b then mark_published e else ret tt) w.
Proof.
  unfold discovery_step, discovery_check.
  rewrite bind_assoc, !bind_get.
  destruct (publish_discovery conf && negb (mem_string e (conf_published w)));
    [|now rewrite bind_ret].
  unfold bind, async_publish, emit, ret, mark_published.
  destruct (new_state_attributes w) as [[o1 w1] [ex|attrs]]; [reflexivity|].
  destruct (domain_config env conf e d mybase _ w1) as [[o2 w2] [ex|[config []]]];
    cbn [fst snd]; try reflexivity.
  all: try now rewrite !app_nil_r.
Qed.

(** A call, past the two early returns, is its three parts. *)
Lemma publish_entity_parts e ns w :
  publish_entity env conf e ns w
  = bind (call_early conf e ns)
      (fun _ => bind (call_check env conf e)
                  (fun db => call_after_publish conf e (fst db) (snd db) ns)) w.
Proof.
  unfold publish_entity, call_early, call_check, call_after_publish. cbv zeta.
  rewrite bind_assoc. apply bind_cong. intros _ w1.
  apply bind_cong. intros _ w2.
  rewrite bind_assoc. apply bind_cong. intros d w3.
  rewrite bind_assoc. apply bind_cong. intros i w4.
  rewrite bind_assoc.
  unfold bind at 1. rewrite discovery_step_parts.
  unfold bind, ret.
  destruct (discovery_check env conf e d i (mybase_of conf e) w4)
    as [[o3 w5] [ex|b]]; [reflexivity|].
  cbn [fst snd].
  destruct (if b then mark_published e else _) as [[o4 w6] [ex|[]]];
    cbn [fst snd app]; rewrite ?app_nil_r; [reflexivity|].
  destruct (state_step conf d (mybase_of conf e) ns w6) as [[o5 w7] r5].
  now rewrite ?app_nil_r, ?app_assoc.
Qed.

(** The publishes before the check: they never fail and touch nothing. *)
Lemma call_early_spec e ns reg :
  exists ts ats,
    map pub_site ts = timestamp_sites conf ns
    /\ map pub_site ats = attribute_sites conf ns
    /\ call_early conf e ns (mkWorld reg (Some ns))
       = (ts ++ ats, mkWorld reg (Some ns), inr tt).
Proof.
  destruct (timestamps_step_spec conf (mybase_of conf e) ns (mkWorld reg (Some ns)))
    as (ts & Hts & Hs1).
  destruct (attributes_step_spec conf (mybase_of conf e) ns reg) as (ats & Hats & Hs2).
  exists ts, ats. split; [exact Hs1|]. split; [exact Hs2|].
  unfold call_early. cbv zeta. unfold bind. now rewrite Hts, Hats.
Qed.

(** The first part of the discovery check raises, or publishes nothing, or
    publishes the config; it leaves the list alone in each case. *)
Lemma discovery_check_spec e d i mybase reg ns :
  let r := discovery_check env conf e d i mybase (mkWorld reg (Some ns)) in
  (exists ex, r = ([], mkWorld reg (Some ns), inl ex))
  \/ r = ([], mkWorld reg (Some ns), inr false)
  \/ (exists config attrs',
        r = ([mkPublish SiteConfig (entity_disc_topic conf e) (PJson (JObj config))
                1 true],
             mkWorld reg (Some (with_attributes ns attrs')), inr true)
        /\ publish_discovery conf = true
        /\ mem_string e reg = false
        /\ eligible conf d (attributes ns) = true).
Proof.
  cbv zeta.
  remember (discovery_check env conf e d i mybase (mkWorld reg (Some ns))) as r eqn:Hr.
  unfold discovery_check in Hr. rewrite bind_get in Hr. cbn [conf_published] in Hr.
  destruct (publish_discovery conf) eqn:Hp; cbn [andb] in Hr;
    [|right; left; exact Hr].
  destruct (mem_string e reg) eqn:Hm; cbn [negb] in Hr; [right; left; exact Hr|].
  rewrite bind_attributes in Hr. unfold bind at 1 in Hr.
  destruct (domain_config_spec env conf e d mybase
              (common_config env e i mybase (attributes ns)) reg ns) as [H _].
  destruct (domain_config env conf e d mybase _ _) as [[o w1] [ex|[config b]]].
  - left. inversion H. subst. eauto.
  - inversion H as [|config' attrs' Hat [Ho Hw Hc Hb]]. cbn [snd fst] in Hr.
    rewrite <- Hw, <- Ho in Hr. clear Hw Ho.
    destruct b.
    + unfold async_publish in Hr. run_effects. right; right.
      exists (link_device env e config), attrs'. auto.
    + destruct Hat as [Hat | Hcl].
      * rewrite Hat, with_attributes_same in Hr. right; left; exact Hr.
      * unfold eligible in Hb. rewrite Hcl in Hb.
        rewrite !orb_true_r in Hb. discriminate.
Qed.

Lemma discovery_check_ready e d i mybase reg ns :
  publish_discovery conf = true ->
  mem_string e reg = false ->
  eligible conf d (attributes ns) = true ->
  ((d =? "climate") = true -> climate_ready (attributes ns) = true) ->
  exists config ns',
    discovery_check env conf e d i mybase (mkWorld reg (Some ns))
    = ([mkPublish SiteConfig (entity_disc_topic conf e) (PJson (JObj config)) 1 true],
       mkWorld reg (Some ns'), inr true).
Proof.
  intros Hp Hm He Hc.
  unfold discovery_check. rewrite bind_get. cbn [conf_published].
  rewrite Hp, Hm. cbn [andb negb].
  rewrite bind_attributes. unfold bind at 1.
  destruct (domain_config_spec env conf e d mybase
              (common_config env e i mybase (attributes ns)) reg ns) as [H1 H2].
  destruct (H2 He Hc) as (c & w' & Heq).
  rewrite Heq in H1 |- *. cbn [snd fst].
  apply domain_outcome_store in H1. destruct H1 as [ns' ->].
  unfold async_publish. run_effects.
  eauto.
Qed.

(** The check, whatever the state object: the list is left alone, and
    either nothing is published and the call does not wait, or the config
    is published, the entity not being in the list, and the call waits. *)
Lemma call_check_spec e w :
  let r := call_check env conf e w in
  conf_published (store r) = conf_published w
  /\ ((output r = [] /\ forall d, outcome r <> inr (d, true))
      \/ (exists d config,
            output r = [mkPublish SiteConfig (entity_disc_topic conf e)
                          (PJson (JObj config)) 1 true]
            /\ outcome r = inr (d, true)
            /\ mem_string e (conf_published w) = false)).
Proof.
  cbv zeta. unfold call_check. cbv zeta.
  destruct (split_char "." e) as [|d [|i rest]]; cbn [nth_error].
  - rewrite bind_lift_inl. split; [reflexivity|]. left. split; [reflexivity|discriminate].
  - rewrite bind_lift_inr, bind_lift_inl. split; [reflexivity|].
    left. split; [reflexivity|discriminate].
  - rewrite bind_lift_inr, bind_lift_inr.
    destruct w as [reg [ns|]].
    + unfold bind, ret.
      destruct (discovery_check_spec e d i (mybase_of conf e) reg ns)
        as [[ex ->] | [-> | (config & attrs' & -> & _ & Hm & _)]];
        cbn [store output outcome conf_published fst snd app].
      * split; [reflexivity|]. left. split; [reflexivity|discriminate].
      * split; [reflexivity|]. left. split; [reflexivity|discriminate].
      * split; [reflexivity|]. right. exists d, config. auto.
    + unfold discovery_check. rewrite bind_assoc, bind_get. cbn [conf_published new_state].
      destruct (publish_discovery conf && negb (mem_string e reg)).
      * unfold bind, new_state_attributes. cbn.
        split; [reflexivity|]. left. split; [reflexivity|discriminate].
      * rewrite bind_ret. unfold ret. cbn.
        split; [reflexivity|]. left. split; [reflexivity|discriminate].
Qed.

(** The check for an eligible entity that is not in the list: the config
    is published. *)
Lemma call_check_ready e d i rest reg ns :
  split_char "." e = d :: i :: rest ->
  publish_discovery conf = true ->
  mem_string e reg = false ->
  eligible conf d (attributes ns) = true ->
  ((d =? "climate") = true -> climate_ready (attributes ns) = true) ->
  exists config ns',
    call_check env conf e (mkWorld reg (Some ns))
    = ([mkPublish SiteConfig (entity_disc_topic conf e) (PJson (JObj config)) 1 true],
       mkWorld reg (Some ns'), inr (d, true)).
Proof.
  intros Hs Hp Hm He Hc.
  destruct (discovery_check_ready e d i (mybase_of conf e) reg ns Hp Hm He Hc)
    as (config & ns' & Hd).
  exists config, ns'.
  unfold call_check. cbv zeta. rewrite Hs. cbn [nth_error].
  rewrite bind_lift_inr, bind_lift_inr. unfold bind, ret. rewrite Hd. reflexivity.
Qed.

(** The state publishes: no discovery config among them, and the list is
    left as it is. *)
Lemma state_step_frame d mybase ns w :
  store (state_step conf d mybase ns w) = w
  /\ filter (at_site SiteConfig) (output (state_step conf d mybase ns w)) = []
  /\ (length (output (state_step conf d mybase ns w)) <= 3)%nat.
Proof.
  unfold state_step, async_publish, bind, emit, new_state_attributes, lift.
  destruct (publish_discovery conf); [|repeat split; cbn; lia].
  destruct (d =? "light").
  - destruct (new_state w) as [s|]; [|repeat split; cbn; lia].
    destruct (light_payload (state ns) (attributes s)); repeat split; cbn; lia.
  - destruct (new_state w) as [s|]; repeat split; cbn; lia.
Qed.

Lemma call_after_publish_spec e d (b : bool) ns w :
  conf_published (store (call_after_publish conf e d b ns w))
  = (if b then conf_published w ++ [e] else conf_published w)
  /\ filter (at_site SiteConfig) (output (call_after_publish conf e d b ns w)) = []
  /\ (length (output (call_after_publish conf e d b ns w)) <= 3)%nat.
Proof.
  unfold call_after_publish, bind, mark_published, ret.
  destruct b.
  - destruct (state_step_frame d (mybase_of conf e) ns
                (mkWorld (conf_published w ++ [e]) (new_state w))) as (Hs & Ho & Hl).
    destruct (state_step conf d (mybase_of conf e) ns _) as [[o w'] r].
    cbn [store output fst snd app] in *. now rewrite Hs, Ho.
  - destruct (state_step_frame d (mybase_of conf e) ns w) as (Hs & Ho & Hl).
    destruct (state_step conf d (mybase_of conf e) ns w) as [[o w'] r].
    cbn [store output fst snd app] in *. now rewrite Hs, Ho.
Qed.

End PartsFacts.

(** ** Lists of calls *)

Lemma mem_string_cons x y l : mem_string x (y :: l) = (x =? y) || mem_string x l.
Proof. reflexivity. Qed.

Lemma remove_nth_split {A} i (l : list A) x :
  nth_error l i = Some x ->
  exists l1 l2, l = l1 ++ x :: l2 /\ remove_nth i l = l1 ++ l2.
Proof.
  revert i. induction l as [|y l IH]; intros [|i] H; cbn [nth_error] in H;
    try discriminate.
  - injection H as ->. exists [], l. split; reflexivity.
  - destruct (IH i H) as (l1 & l2 & -> & Hr).
    exists (y :: l1), l2. cbn [remove_nth app]. now rewrite Hr.
Qed.

Lemma remove_nth_perm {A} i (l : list A) x :
  nth_error l i = Some x -> Permutation l (x :: remove_nth i l).
Proof.
  intros H. destruct (remove_nth_split i l x H) as (l1 & l2 & -> & ->).
  symmetry. apply Permutation_middle.
Qed.

Lemma existsb_remove_nth {A} (g : A -> bool) i l x :
  nth_error l i = Some x -> existsb g l = g x || existsb g (remove_nth i l).
Proof.
  intros H. destruct (remove_nth_split i l x H) as (l1 & l2 & -> & ->).
  rewrite !existsb_app. cbn [existsb].
  now rewrite !orb_assoc, (orb_comm (existsb g l1)).
Qed.

Lemma forallb_remove_nth {A} (g : A -> bool) i l x :
  nth_error l i = Some x -> forallb g l = g x && forallb g (remove_nth i l).
Proof.
  intros H. destruct (remove_nth_split i l x H) as (l1 & l2 & -> & ->).
  rewrite !forallb_app. cbn [forallb].
  now rewrite !andb_assoc, (andb_comm (forallb g l1)).
Qed.

Lemma count_remove_nth {A} (g : A -> bool) i l x :
  nth_error l i = Some x ->
  length (filter g l)
  = ((if g x then 1 else 0) + length (filter g (remove_nth i l)))%nat.
Proof.
  intros H. destruct (remove_nth_split i l x H) as (l1 & l2 & -> & ->).
  rewrite !filter_app, !length_app. cbn [filter].
  destruct (g x); cbn [length]; lia.
Qed.

Lemma existsb_count {A} (g : A -> bool) l :
  existsb g l = (0 <? length (filter g l))%nat.
Proof.
  induction l as [|x l IH]; [reflexivity|]. cbn [existsb filter].
  destruct (g x); [reflexivity|exact IH].
Qed.

Lemma of_entity_other e f c : (c_entity c =? e) = false -> of_entity e f c = false.
Proof. intros H. unfold of_entity. now rewrite H. Qed.

Lemma of_entity_same f c : of_entity (c_entity c) f c = f c.
Proof. unfold of_entity. now rewrite String.eqb_refl. Qed.

Lemma at_publish_before c : at_publish c = true -> before_append c = true.
Proof. unfold at_publish, before_append. now destruct (c_stage c). Qed.

Lemma awaited_unsettled e sys : unsettled e sys = false -> awaited e sys = false.
Proof.
  unfold unsettled, awaited. induction (sys_pending sys) as [|c l IH]; [reflexivity|].
  cbn [existsb]. intros H. apply orb_false_iff in H. destruct H as [Hc Hl].
  rewrite (IH Hl), orb_false_r. unfold of_entity in *.
  destruct (c_entity c =? e); [|reflexivity]. cbn [andb] in *.
  destruct (at_publish c) eqn:Ha; [|reflexivity].
  now rewrite (at_publish_before c Ha) in Hc.
Qed.

Section Turns.

Variable env : Env.
Variable conf : Conf.

(** The state publishes up to the first [await]. *)
Lemma enter_late_cases e d (b : bool) ns w :
  exists evs oc,
    enter_late conf e d b ns w
    = ((if b then conf_published w ++ [e] else conf_published w), evs, oc)
    /\ filter (at_site SiteConfig) evs = []
    /\ (length evs <= 1)%nat
    /\ forall c, oc = Some c ->
                 c_entity c = e /\ c_state c = ns /\ quiet c = true
                 /\ before_append c = false /\ at_publish c = false.
Proof.
  unfold enter_late.
  destruct (call_after_publish_spec conf e d b ns w) as (-> & Ho & _).
  destruct (output (call_after_publish conf e d b ns w)) as [|p rest].
  - exists [], None. repeat split; try discriminate. cbn. lia.
  - cbn [filter] in Ho. destruct (at_site SiteConfig p) eqn:Hp; [discriminate|].
    exists [p], (Some (mkCall e ns (new_state (store (call_after_publish conf e d b ns w)))
                         (Late rest))).
    split; [reflexivity|]. split; [cbn; now rewrite Hp|]. split; [cbn; lia|].
    intros c [= <-]. repeat split. unfold quiet. cbn [c_stage].
    clear -Ho. induction rest as [|q rest IH]; [reflexivity|].
    cbn [filter] in Ho. cbn [forallb].
    destruct (at_site SiteConfig q); [discriminate|]. cbn. auto.
Qed.

(** The check and what follows it up to the first [await]. *)
Lemma enter_check_cases e ns w :
  (exists evs oc,
     enter_check env conf e ns w = (conf_published w, evs, oc)
     /\ filter (at_site SiteConfig) evs = []
     /\ (length evs <= 1)%nat
     /\ forall c, oc = Some c ->
                  c_entity c = e /\ c_state c = ns /\ quiet c = true
                  /\ before_append c = false /\ at_publish c = false)
  \/ (exists config d obj,
        enter_check env conf e ns w
        = (conf_published w, [(mkPublish SiteConfig (entity_disc_topic conf e) (PJson (JObj config)) 1 true)], Some (mkCall e ns obj (Waited d)))
        /\ mem_string e (conf_published w) = false).
Proof.
  unfold enter_check.
  destruct (call_check_spec env conf e w) as [Hreg [[Ho Hn] | (d & config & Ho & Hr & Hm)]].
  - left. rewrite Ho.
    destruct (outcome (call_check env conf e w)) as [ex|[d [|]]] eqn:Hr.
    + exists [], None. rewrite Hreg. repeat split; try discriminate. cbn. lia.
    + elim (Hn d). reflexivity.
    + destruct (enter_late_cases e d false ns (store (call_check env conf e w)))
        as (evs & oc & -> & H1 & H2 & H3).
      exists evs, oc. rewrite Hreg. cbn [app]. auto.
  - right. rewrite Hr, Ho, Hreg. eauto.
Qed.

(** A call in flight goes on: whose call comes out, and what the list
    becomes. *)
Lemma resume_frame c reg :
  exists reg' evs oc,
    resume env conf c reg = (reg', evs, oc)
    /\ (reg' = reg \/ reg' = reg ++ [c_entity c])
    /\ (length evs <= 1)%nat
    /\ forall c', oc = Some c' -> c_entity c' = c_entity c /\ c_state c' = c_state c.
Proof.
  unfold resume. destruct (c_stage c) as [[|p rest]|d|[|p rest]].
  - destruct (enter_check_cases (c_entity c) (c_state c) (mkWorld reg (c_object c)))
      as [(evs & oc & -> & _ & Hl & H) | (config & d & obj & -> & _)].
    + exists reg, evs, oc. repeat split; auto; now apply H.
    + eexists _, _, _. split; [reflexivity|]. split; [now left|].
      split; [cbn; lia|]. intros c' [= <-]. split; reflexivity.
  - eexists _, _, _. split; [reflexivity|]. split; [now left|].
    split; [cbn; lia|]. intros c' [= <-]. split; reflexivity.
  - destruct (enter_late_cases (c_entity c) d true (c_state c) (mkWorld reg (c_object c)))
      as (evs & oc & -> & _ & Hl & H).
    eexists _, _, _. split; [reflexivity|]. split; [now right|].
    split; [exact Hl|]. intros c' Hc. split; now apply H.
  - eexists _, _, _. split; [reflexivity|]. split; [now left|].
    split; [cbn; lia|]. discriminate.
  - eexists _, _, _. split; [reflexivity|]. split; [now left|].
    split; [cbn; lia|]. intros c' [= <-]. split; reflexivity.
Qed.

(** A call in flight goes on: it does not come to wait at line 288 and the
    list stays as it is; or it makes the check, the entity not being in the
    list, publishes the config and waits at line 288; or it waited there
    and appends its entity.  The config apart, a discovery config is
    published only by a call that is not [quiet]. *)
Lemma resume_cases c reg :
  (at_publish c = false
   /\ exists evs oc,
        resume env conf c reg = (reg, evs, oc)
        /\ (quiet c = true -> filter (at_site SiteConfig) evs = [])
        /\ forall c', oc = Some c' ->
                      c_entity c' = c_entity c
                      /\ (quiet c = true -> quiet c' = true)
                      /\ at_publish c' = false
                      /\ (before_append c' = true -> before_append c = true))
  \/ (c_stage c = Early [] /\ mem_string (c_entity c) reg = false
      /\ exists config d obj,
           resume env conf c reg
           = (reg, [mkPublish SiteConfig (entity_disc_topic conf (c_entity c))
                      (PJson (JObj config)) 1 true],
              Some (mkCall (c_entity c) (c_state c) obj (Waited d))))
  \/ (at_publish c = true
      /\ exists evs oc,
           resume env conf c reg = (reg ++ [c_entity c], evs, oc)
           /\ filter (at_site SiteConfig) evs = []
           /\ forall c', oc = Some c' ->
                         c_entity c' = c_entity c
                         /\ quiet c' = true /\ at_publish c' = false
                         /\ before_append c' = false).
Proof.
  unfold resume, quiet, at_publish, before_append.
  destruct (c_stage c) as [[|p rest]|d|[|p rest]]; cbn [forallb].
  - destruct (enter_check_cases (c_entity c) (c_state c) (mkWorld reg (c_object c)))
      as [(evs & oc & -> & He & _ & H) | (config & d & obj & -> & Hm)].
    + left. split; [reflexivity|]. exists evs, oc. split; [reflexivity|].
      split; [auto|]. intros c' Hc. destruct (H c' Hc) as (H0 & _ & H1 & H2 & H3).
      unfold quiet, at_publish, before_append in *. rewrite H2. auto.
    + right; left. split; [reflexivity|]. split; [exact Hm|]. eauto.
  - left. split; [reflexivity|]. eexists _, _. split; [reflexivity|].
    split.
    + intros Hq. apply andb_true_iff in Hq. destruct Hq as [Hp Hq].
      cbn. apply negb_true_iff in Hp. now rewrite Hp.
    + intros c' [= <-]. cbn [c_stage c_entity].
      split; [reflexivity|]. split; [|split; [reflexivity|auto]].
      intros Hq. apply andb_true_iff in Hq. now destruct Hq.
  - right; right. split; [reflexivity|].
    destruct (enter_late_cases (c_entity c) d true (c_state c) (mkWorld reg (c_object c)))
      as (evs & oc & -> & He & _ & H).
    exists evs, oc. split; [reflexivity|]. split; [exact He|].
    intros c' Hc. destruct (H c' Hc) as (H0 & _ & H1 & H2 & H3).
    unfold quiet, at_publish, before_append in *. auto.
  - left. split; [reflexivity|]. eexists _, _. split; [reflexivity|].
    split; [reflexivity|]. discriminate.
  - left. split; [reflexivity|]. eexists _, _. split; [reflexivity|].
    split.
    + intros Hq. apply andb_true_iff in Hq. destruct Hq as [Hp Hq].
      cbn. apply negb_true_iff in Hp. now rewrite Hp.
    + intros c' [= <-]. cbn [c_stage c_entity].
      split; [reflexivity|]. split; [|split; [reflexivity|discriminate]].
      intros Hq. apply andb_true_iff in Hq. now destruct Hq.
Qed.

(** Beginning a call is creating it with the publishes of lines 164-177
    still to make, and letting it go on. *)
Lemma begin_cases n reg :
  begin env conf n reg = (reg, [], None)
  \/ exists ns todo,
       n_new_state n = Some ns
       /\ publish_filter conf (n_entity_id n) = true
       /\ output (call_early conf (n_entity_id n) ns (mkWorld reg (Some ns))) = todo
       /\ filter (at_site SiteConfig) todo = []
       /\ filter (at_site SiteState) todo = []
       /\ begin env conf n reg
          = resume env conf (mkCall (n_entity_id n) ns (Some ns) (Early todo)) reg.
Proof.
  unfold begin.
  destruct (n_new_state n) as [ns|]; [|now left].
  destruct (publish_filter conf (n_entity_id n)); cbn [negb]; [|now left].
  right. exists ns.
  destruct (call_early_spec conf (n_entity_id n) ns reg) as (ts & ats & Hts & Hats & ->).
  destruct (filter_early conf SiteConfig ts ats ns Hts Hats) as [Ht Ha];
    try discriminate.
  destruct (filter_early conf SiteState ts ats ns Hts Hats) as [Ht' Ha'];
    try discriminate.
  exists (ts ++ ats). cbn [outcome output store new_state conf_published fst snd].
  split; [reflexivity|]. split; [reflexivity|]. split; [reflexivity|].
  split; [now rewrite filter_app, Ht, Ha|].
  split; [now rewrite filter_app, Ht', Ha'|].
  unfold resume. cbn [c_stage c_entity c_state c_object].
  destruct (ts ++ ats); reflexivity.
Qed.

Lemma quiet_filter todo :
  filter (at_site SiteConfig) todo = [] ->
  forallb (fun p => negb (at_site SiteConfig p)) todo = true.
Proof.
  induction todo as [|q rest IH]; [reflexivity|].
  cbn [filter forallb]. destruct (at_site SiteConfig q); [discriminate|]. cbn. auto.
Qed.

End Turns.

(** ** Steps of the event loop *)

Section OverlapFacts.

Variable env : Env.
Variable conf : Conf.

Lemma execute_cons sys a acts :
  fst (execute env conf sys (a :: acts))
  = fst (execute env conf (fst (step env conf sys a)) acts)
  /\ snd (execute env conf sys (a :: acts))
     = snd (step env conf sys a)
         ++ snd (execute env conf (fst (step env conf sys a)) acts).
Proof.
  cbn [execute]. destruct (step env conf sys a) as [sys1 tr1].
  cbn [fst snd]. destruct (execute env conf sys1 acts). split; reflexivity.
Qed.

Lemma execute_app sys acts1 acts2 :
  fst (execute env conf sys (acts1 ++ acts2))
  = fst (execute env conf (fst (execute env conf sys acts1)) acts2)
  /\ snd (execute env conf sys (acts1 ++ acts2))
     = snd (execute env conf sys acts1)
         ++ snd (execute env conf (fst (execute env conf sys acts1)) acts2).
Proof.
  revert sys. induction acts1 as [|a acts1 IH]; intros sys; [split; reflexivity|].
  rewrite <- app_comm_cons.
  destruct (execute_cons sys a (acts1 ++ acts2)) as [-> ->].
  destruct (execute_cons sys a acts1) as [-> ->].
  destruct (IH (fst (step env conf sys a))) as [-> ->].
  split; [reflexivity|apply app_assoc].
Qed.

Lemma exclusive_app c sys acts1 acts2 :
  exclusive env conf c sys (acts1 ++ acts2)
  = exclusive env conf c sys acts1
    && exclusive env conf c (fst (execute env conf sys acts1)) acts2.
Proof.
  revert sys. induction acts1 as [|a acts1 IH]; intros sys; [reflexivity|].
  rewrite <- app_comm_cons. cbn [exclusive].
  destruct (execute_cons sys a acts1) as [-> _].
  now rewrite IH, andb_assoc.
Qed.

(** A step does nothing, or is a turn of one call: of a call just created,
    with the publishes of lines 164-177 to make, or of a call in flight,
    which is taken out of the calls in flight and put back at their end. *)
Lemma step_turn sys a :
  step env conf sys a = (sys, [])
  \/ exists c base,
       step env conf sys a
       = (mkSystem (fst (fst (resume env conf c (sys_published sys))))
            (base ++ olist (snd (resume env conf c (sys_published sys)))),
          map (pair (c_entity c)) (snd (fst (resume env conf c (sys_published sys)))))
       /\ ((exists n ns todo,
              a = Begin n
              /\ c = mkCall (n_entity_id n) ns (Some ns) (Early todo)
              /\ n_new_state n = Some ns
              /\ publish_filter conf (n_entity_id n) = true
              /\ filter (at_site SiteConfig) todo = []
              /\ filter (at_site SiteState) todo = []
              /\ base = sys_pending sys)
           \/ (exists i,
                 a = Resume i
                 /\ nth_error (sys_pending sys) i = Some c
                 /\ base = remove_nth i (sys_pending sys))).
Proof.
  destruct a as [n|i]; cbn [step].
  - destruct (begin_cases env conf n (sys_published sys))
      as [-> | (ns & todo & Hn & Hf & _ & Hc & Hs & ->)].
    + left. cbn [olist]. now rewrite app_nil_r, system_eta.
    + right. exists (mkCall (n_entity_id n) ns (Some ns) (Early todo)), (sys_pending sys).
      split.
      * destruct (resume env conf _ _) as [[reg evs] oc]. reflexivity.
      * left. exists n, ns, todo. repeat split; auto.
  - destruct (nth_error (sys_pending sys) i) as [c|] eqn:Hi; [|now left].
    right. exists c, (remove_nth i (sys_pending sys)). split.
    + destruct (resume env conf _ _) as [[reg evs] oc]. reflexivity.
    + right. exists i. auto.
Qed.

Lemma calm_olist e (oc : option Call) :
  (forall c, oc = Some c -> quiet c = true) -> calm e (olist oc) = true.
Proof.
  destruct oc as [c|]; [|reflexivity]. intros H. cbn.
  rewrite (H c eq_refl). now rewrite orb_true_r.
Qed.

Lemma count_none e l :
  length (filter (of_entity e before_append) l) = 0%nat ->
  existsb (of_entity e at_publish) l = false.
Proof.
  induction l as [|c l IH]; [reflexivity|]. cbn [filter existsb].
  destruct (of_entity e before_append c) eqn:Hb; [discriminate|].
  intros H. rewrite (IH H), orb_false_r. unfold of_entity in *.
  destruct (c_entity c =? e); [|reflexivity]. cbn [andb] in *.
  destruct (at_publish c) eqn:Ha; [|reflexivity].
  now rewrite (at_publish_before c Ha) in Hb.
Qed.

(** One turn of a call of [e] and the discovery configs of [e]. *)
Lemma turn_track e c reg base :
  c_entity c = e ->
  quiet c = true ->
  calm e base = true ->
  ((if before_append c then 1 else 0)
   + length (filter (of_entity e before_append) base) <= 1)%nat ->
  let t := resume env conf c reg in
  let pending := base ++ olist (snd t) in
  calm e pending = true
  /\ (length (filter (of_entity e before_append) pending) <= 1)%nat
  /\ ((filter (at_site SiteConfig) (snd (fst t)) = []
       /\ mem_string e (fst (fst t)) || existsb (of_entity e at_publish) pending
          = mem_string e reg || (at_publish c || existsb (of_entity e at_publish) base))
      \/ (mem_string e reg || (at_publish c || existsb (of_entity e at_publish) base)
          = false
          /\ mem_string e (fst (fst t)) || existsb (of_entity e at_publish) pending
             = true
          /\ exists cfg, snd (fst t) = [cfg] /\ at_site SiteConfig cfg = true)).
Proof.
  intros He Hq Hcalm Hn. cbv zeta.
  unfold calm. rewrite forallb_app, filter_app, length_app, existsb_app.
  fold (calm e base). fold (calm e (olist (snd (resume env conf c reg)))).
  rewrite Hcalm. cbn [andb].
  destruct (resume_cases env conf c reg)
    as [(Ha & evs & oc & -> & Hev & Hoc)
       | [(Hst & Hm & config & d & obj & ->)
         | (Ha & evs & oc & -> & Hev & Hoc)]];
    cbn [fst snd].
  - specialize (Hev Hq).
    split; [apply calm_olist; intros c' Hc'; now apply Hoc|].
    rewrite Ha. cbn [orb].
    destruct oc as [c'|]; cbn [olist filter existsb length].
    + destruct (Hoc c' eq_refl) as (_ & _ & Ha' & Hb').
      assert (Hoa : of_entity e at_publish c' = false)
        by (unfold of_entity; now rewrite Ha', andb_false_r).
      rewrite Hoa, !orb_false_r.
      split; [|left; auto].
      destruct (of_entity e before_append c') eqn:Hx; cbn [length]; [|lia].
      unfold of_entity in Hx. apply andb_true_iff in Hx. destruct Hx as [_ Hx].
      rewrite (Hb' Hx) in Hn. lia.
    + rewrite !orb_false_r. split; [lia|left; auto].
  - assert (Hb : before_append c = true)
      by (unfold before_append; now rewrite Hst).
    assert (Ha : at_publish c = false)
      by (unfold at_publish; now rewrite Hst).
    rewrite Hb in Hn.
    assert (Hb0 : length (filter (of_entity e before_append) base) = 0%nat) by lia.
    rewrite Hb0, (count_none e base Hb0), Ha. rewrite He in *.
    cbn [olist filter existsb length calm forallb c_entity].
    unfold of_entity, quiet, before_append, at_publish. cbn [c_entity c_stage].
    rewrite String.eqb_refl, Hm. cbn.
    split; [reflexivity|]. split; [lia|]. right. repeat split. eauto.
  - assert (Hb : before_append c = true) by now apply at_publish_before.
    rewrite Hb in Hn.
    assert (Hb0 : length (filter (of_entity e before_append) base) = 0%nat) by lia.
    split; [apply calm_olist; intros c' Hc'; now apply Hoc|].
    rewrite Ha, He, mem_string_app, mem_string_single, String.eqb_refl.
    rewrite !orb_true_r. cbn [orb].
    split; [|left; auto].
    destruct oc as [c'|]; cbn [olist filter length]; [|lia].
    destruct (Hoc c' eq_refl) as (_ & _ & _ & Hb').
    assert (Hob : of_entity e before_append c' = false)
      by (unfold of_entity; now rewrite Hb', andb_false_r).
    rewrite Hob. cbn [length]. lia.
Qed.

(** One step and the discovery configs of [e]: none is published and [e] is
    held as before, or one is published for [e], which was not held and is
    held from then on. *)
Lemma step_track e sys a :
  match a with
  | Begin n => negb ((e =? n_entity_id n) && unsettled (n_entity_id n) sys)
  | Resume _ => true
  end = true ->
  calm e (sys_pending sys) = true ->
  (length (filter (of_entity e before_append) (sys_pending sys)) <= 1)%nat ->
  calm e (sys_pending (fst (step env conf sys a))) = true
  /\ (length (filter (of_entity e before_append)
                (sys_pending (fst (step env conf sys a)))) <= 1)%nat
  /\ ((publishes_of e SiteConfig (snd (step env conf sys a)) = []
       /\ held e (fst (step env conf sys a)) = held e sys)
      \/ (held e sys = false
          /\ held e (fst (step env conf sys a)) = true
          /\ exists cfg,
               publishes_of e SiteConfig (snd (step env conf sys a)) = [(e, cfg)])).
Proof.
  intros Hx Hcalm Hn.
  destruct (step_turn sys a) as [-> | (c & base & -> & Horigin)];
    [split; [exact Hcalm|]; split; [exact Hn|]; left; split; reflexivity|].
  cbn [fst snd sys_pending].
  destruct (c_entity c =? e) eqn:He.
  - apply String.eqb_eq in He.
    assert (H : quiet c = true /\ calm e base = true
                /\ ((if before_append c then 1 else 0)
                    + length (filter (of_entity e before_append) base) <= 1)%nat
                /\ held e sys
                   = mem_string e (sys_published sys)
                     || (at_publish c || existsb (of_entity e at_publish) base)).
    { destruct Horigin as [(n & ns & todo & -> & -> & _ & _ & Hc & _ & ->)
                          | (i & -> & Hi & ->)].
      - cbn [c_entity] in He. subst e. rewrite String.eqb_refl in Hx.
        cbn [andb] in Hx. apply negb_true_iff in Hx.
        unfold unsettled in Hx. rewrite existsb_count in Hx.
        apply Nat.ltb_ge in Hx.
        assert (H0 : length (filter (of_entity (n_entity_id n) before_append)
                               (sys_pending sys)) = 0%nat) by lia.
        split; [unfold quiet; cbn [c_stage]; now apply quiet_filter|].
        split; [exact Hcalm|]. split; [rewrite H0; cbn; lia|].
        unfold held, awaited. now rewrite (count_none _ _ H0).
      - unfold calm in Hcalm. rewrite (forallb_remove_nth _ i _ c Hi) in Hcalm.
        apply andb_true_iff in Hcalm. destruct Hcalm as [Hq Hcalm].
        subst e. rewrite String.eqb_refl in Hq.
        rewrite (count_remove_nth _ i _ c Hi), of_entity_same in Hn.
        split; [exact Hq|]. split; [exact Hcalm|]. split; [exact Hn|].
        unfold held, awaited.
        now rewrite (existsb_remove_nth _ i _ c Hi), of_entity_same. }
    destruct H as (Hq & Hcb & Hnb & Hheld).
    destruct (turn_track e c (sys_published sys) base He Hq Hcb Hnb)
      as (H1 & H2 & H3).
    split; [exact H1|]. split; [exact H2|].
    rewrite Hheld. unfold held, awaited. cbn [sys_published sys_pending].
    rewrite publishes_of_cycle, He, String.eqb_refl.
    destruct H3 as [[Hc Hh] | (Hh0 & Hh1 & cfg & Hc & Hs)].
    + left. rewrite Hc. split; [reflexivity|exact Hh].
    + right. split; [exact Hh0|]. split; [exact Hh1|].
      exists cfg. rewrite Hc. cbn. now rewrite Hs.
  - destruct (resume_frame env conf c (sys_published sys))
      as (reg' & evs & oc & -> & Hreg & _ & Hoc).
    cbn [fst snd].
    assert (Hoc' : forall g, filter (of_entity e g) (olist oc) = []
                             /\ existsb (of_entity e g) (olist oc) = false
                             /\ calm e (olist oc) = true).
    { intros g. destruct oc as [c'|]; [|auto]. destruct (Hoc c' eq_refl) as [Hc' _].
      cbn. unfold of_entity. rewrite Hc', He. auto. }
    assert (Hbase : calm e base = true
                    /\ (forall g, filter (of_entity e g) base
                                  = filter (of_entity e g) (sys_pending sys))
                    /\ (forall g, existsb (of_entity e g) base
                                  = existsb (of_entity e g) (sys_pending sys))).
    { destruct Horigin as [(n & ns & todo & _ & _ & _ & _ & _ & _ & ->)
                          | (i & _ & Hi & ->)]; [auto|].
      destruct (remove_nth_split i _ c Hi) as (l1 & l2 & Hl & ->).
      rewrite Hl in *. unfold calm in *.
      rewrite forallb_app in *. cbn [forallb] in Hcalm.
      apply andb_true_iff in Hcalm. destruct Hcalm as [Hc1 Hc2].
      apply andb_true_iff in Hc2. destruct Hc2 as [_ Hc2].
      split; [now rewrite Hc1, Hc2|].
      split; intros g; rewrite ?filter_app, ?existsb_app; cbn [filter existsb];
        now rewrite (of_entity_other e g c He). }
    destruct Hbase as (Hcb & Hfb & Heb).
    unfold calm. rewrite forallb_app. fold (calm e base). fold (calm e (olist oc)).
    rewrite Hcb, (proj2 (proj2 (Hoc' before_append))).
    rewrite filter_app, (proj1 (Hoc' before_append)), app_nil_r, Hfb.
    split; [reflexivity|]. split; [exact Hn|]. left.
    rewrite publishes_of_cycle, He. split; [reflexivity|].
    unfold held, awaited. cbn [sys_published sys_pending].
    rewrite existsb_app, (proj1 (proj2 (Hoc' at_publish))), orb_false_r, Heb.
    f_equal. destruct Hreg as [-> | ->]; [reflexivity|].
    rewrite mem_string_app, mem_string_single, String.eqb_sym, He.
    apply orb_false_r.
Qed.

(** Once [e] is held and no call of [e] is begun while an earlier one has
    not got past line 289, no discovery config is published for [e]. *)
Lemma execute_settled e sys acts :
  exclusive env conf (String.eqb e) sys acts = true ->
  calm e (sys_pending sys) = true ->
  (length (filter (of_entity e before_append) (sys_pending sys)) <= 1)%nat ->
  held e sys = true ->
  publishes_of e SiteConfig (snd (execute env conf sys acts)) = []
  /\ held e (fst (execute env conf sys acts)) = true.
Proof.
  revert sys. induction acts as [|a acts IH]; intros sys Hx Hc Hn Hh;
    [split; [reflexivity|exact Hh]|].
  cbn [exclusive] in Hx. apply andb_true_iff in Hx. destruct Hx as [Ha Hx].
  destruct (execute_cons sys a acts) as [-> ->].
  rewrite publishes_of_app.
  destruct (step_track e sys a Ha Hc Hn) as (Hc1 & Hn1 & [[-> Hh1] | (Hh0 & _)]);
    [|congruence].
  apply (IH _ Hx Hc1 Hn1). now rewrite Hh1.
Qed.

End OverlapFacts.

Section FirstCall.

Variable env : Env.
Variable conf : Conf.

Lemma not_in_flight e l :
  existsb (fun c => c_entity c =? e) l = false ->
  calm e l = true
  /\ (forall g, filter (of_entity e g) l = [])
  /\ (forall g, existsb (of_entity e g) l = false)
  /\ filter (fun c => c_entity c =? e) l = [].
Proof.
  induction l as [|c l IH]; [auto|]. cbn [existsb]. intros H.
  apply orb_false_iff in H. destruct H as [Hc Hl].
  destruct (IH Hl) as (H1 & H2 & H3 & H4).
  cbn [calm forallb filter existsb]. fold (calm e l).
  rewrite Hc, H1, H4. cbn [negb orb andb].
  split; [reflexivity|].
  split; [intros g; rewrite (of_entity_other e g c Hc); apply H2|].
  split; [intros g; rewrite (of_entity_other e g c Hc); apply H3|reflexivity].
Qed.

Lemma filter_none_in_flight e l :
  filter (fun c => c_entity c =? e) l = [] ->
  existsb (fun c => c_entity c =? e) l = false.
Proof.
  induction l as [|c l IH]; [reflexivity|]. cbn [filter existsb].
  destruct (c_entity c =? e); [discriminate|exact IH].
Qed.

(** While no call of [e] is begun and none is in flight, nothing is
    published for [e] and [e] does not enter the list. *)
Lemma execute_others e sys acts :
  Forall (fun a => begins e a = false) acts ->
  in_flight e sys = false ->
  (forall s, publishes_of e s (snd (execute env conf sys acts)) = [])
  /\ in_flight e (fst (execute env conf sys acts)) = false
  /\ mem_string e (sys_published (fst (execute env conf sys acts)))
     = mem_string e (sys_published sys).
Proof.
  intros H. revert sys. induction H as [|a acts Ha _ IH]; intros sys Hw;
    [repeat split; auto|].
  destruct (execute_cons env conf sys a acts) as [-> ->].
  assert (Hstep : (forall s, publishes_of e s (snd (step env conf sys a)) = [])
                  /\ in_flight e (fst (step env conf sys a)) = false
                  /\ mem_string e (sys_published (fst (step env conf sys a)))
                     = mem_string e (sys_published sys)).
  { destruct (step_turn env conf sys a) as [-> | (c & base & -> & Horigin)];
      [auto|].
    assert (Hc : (c_entity c =? e) = false
                 /\ existsb (fun c => c_entity c =? e) base = false).
    { destruct Horigin as [(n & ns & todo & -> & -> & _ & _ & _ & _ & ->)
                          | (i & _ & Hi & ->)].
      - split; [exact Ha|exact Hw].
      - unfold in_flight in Hw. rewrite (existsb_remove_nth _ i _ c Hi) in Hw.
        now apply orb_false_iff in Hw. }
    destruct Hc as [Hc Hb].
    destruct (resume_frame env conf c (sys_published sys))
      as (reg' & evs & oc & -> & Hreg & _ & Hoc).
    cbn [fst snd sys_published]. unfold in_flight. cbn [sys_pending].
    split; [intros s; now rewrite publishes_of_cycle, Hc|].
    split.
    - rewrite existsb_app, Hb. destruct oc as [c'|]; [|reflexivity].
      destruct (Hoc c' eq_refl) as [Hc' _]. cbn. now rewrite Hc', Hc.
    - destruct Hreg as [-> | ->]; [reflexivity|].
      rewrite mem_string_app, mem_string_single, String.eqb_sym, Hc.
      apply orb_false_r. }
  destruct Hstep as (Hp & Hw1 & Hm1).
  destruct (IH _ Hw1) as (Hp' & Hw' & Hm').
  split; [|split; [exact Hw'|now rewrite Hm', Hm1]].
  intros s. now rewrite publishes_of_app, Hp, Hp'.
Qed.

(** Beginning a call is a turn of the call, created with the publishes of
    lines 164-177 to make. *)
Lemma step_begin sys n ns :
  n_new_state n = Some ns ->
  publish_filter conf (n_entity_id n) = true ->
  exists todo,
    filter (at_site SiteConfig) todo = []
    /\ filter (at_site SiteState) todo = []
    /\ step env conf sys (Begin n)
       = step env conf
           (mkSystem (sys_published sys)
              (sys_pending sys
                 ++ [mkCall (n_entity_id n) ns (Some ns) (Early todo)]))
           (Resume (length (sys_pending sys))).
Proof.
  intros Hn Hf.
  assert (Hb : exists todo,
             filter (at_site SiteConfig) todo = []
             /\ filter (at_site SiteState) todo = []
             /\ begin env conf n (sys_published sys)
                = resume env conf (mkCall (n_entity_id n) ns (Some ns) (Early todo))
                    (sys_published sys)).
  { unfold begin. rewrite Hn, Hf. cbn [negb].
    destruct (call_early_spec conf (n_entity_id n) ns (sys_published sys))
      as (ts & ats & Hts & Hats & ->).
    destruct (filter_early conf SiteConfig ts ats ns Hts Hats) as [Ht Ha];
      try discriminate.
    destruct (filter_early conf SiteState ts ats ns Hts Hats) as [Ht' Ha'];
      try discriminate.
    exists (ts ++ ats). cbn [outcome output store new_state conf_published fst snd].
    split; [now rewrite filter_app, Ht, Ha|].
    split; [now rewrite filter_app, Ht', Ha'|].
    unfold resume. cbn [c_stage c_entity c_state c_object].
    destruct (ts ++ ats); reflexivity. }
  destruct Hb as (todo & Hc & Hs & Hb). exists todo.
  split; [exact Hc|]. split; [exact Hs|].
  cbn [step sys_published sys_pending]. rewrite Hb.
  assert (Hnth : forall (l : list Call) c, nth_error (l ++ [c]) (length l) = Some c
                                           /\ remove_nth (length l) (l ++ [c]) = l).
  { intros l c. induction l as [|x l [IH1 IH2]]; [split; reflexivity|].
    cbn [length app nth_error remove_nth]. now rewrite IH1, IH2. }
  destruct (Hnth (sys_pending sys) (mkCall (n_entity_id n) ns (Some ns) (Early todo)))
    as [-> ->].
  reflexivity.
Qed.

(** An eligible call, alone of its entity in flight and waiting
    at one of lines 166-177: when it has got past line 289 at the end, it
    has published the discovery config, the one config of the entity, with
    no state publish of the entity before. *)
Lemma first_call_publishes e ns d i rest todo sys acts :
  split_char "." e = d :: i :: rest ->
  publish_discovery conf = true ->
  eligible conf d (attributes ns) = true ->
  ((d =? "climate") = true -> climate_ready (attributes ns) = true) ->
  mem_string e (sys_published sys) = false ->
  filter (fun c => c_entity c =? e) (sys_pending sys)
  = [mkCall e ns (Some ns) (Early todo)] ->
  filter (at_site SiteConfig) todo = [] ->
  filter (at_site SiteState) todo = [] ->
  exclusive env conf (String.eqb e) sys acts = true ->
  unsettled e (fst (execute env conf sys acts)) = false ->
  exists config tr1 tr2,
    snd (execute env conf sys acts)
    = tr1 ++ (e, mkPublish SiteConfig (entity_disc_topic conf e)
                   (PJson (JObj config)) 1 true) :: tr2
    /\ publishes_of e SiteConfig tr1 = []
    /\ publishes_of e SiteState tr1 = []
    /\ publishes_of e SiteConfig tr2 = []
    /\ held e (fst (execute env conf sys acts)) = true.
Proof.
  intros Hs Hp He Hc. revert sys todo.
  induction acts as [|a acts IH]; intros sys todo Hm Hone Htc Hts Hx Hend.
  - exfalso. cbn [execute fst] in Hend. unfold unsettled in Hend.
    assert (Hin : In (mkCall e ns (Some ns) (Early todo)) (sys_pending sys)).
    { eapply (proj1 (filter_In _ _ _)). rewrite Hone. now left. }
    assert (Hex : existsb (of_entity e before_append) (sys_pending sys) = true).
    { apply existsb_exists. eexists. split; [exact Hin|].
      unfold of_entity. cbn. now rewrite String.eqb_refl. }
    congruence.
  - cbn [exclusive] in Hx. apply andb_true_iff in Hx. destruct Hx as [Ha Hx].
    destruct (execute_cons env conf sys a acts) as [Hf1 Hs1].
    rewrite Hf1 in Hend. rewrite Hf1, Hs1. clear Hf1 Hs1.
    assert (Hun : unsettled e sys = true).
    { unfold unsettled. apply existsb_exists.
      exists (mkCall e ns (Some ns) (Early todo)). split.
      - eapply (proj1 (filter_In _ _ _)). rewrite Hone. now left.
      - unfold of_entity. cbn. now rewrite String.eqb_refl. }
    destruct (step_turn env conf sys a) as [Hid | (c & base & Hstep & Horigin)].
    { rewrite Hid in *. cbn [fst snd app] in *. now apply (IH sys todo). }
    destruct (c_entity c =? e) eqn:Hce.
    + (* the call itself goes on *)
      apply String.eqb_eq in Hce.
      destruct Horigin as [(n & ns0 & todo0 & -> & -> & _)
                          | (i0 & -> & Hi & ->)].
      { cbn [c_entity] in Hce. subst e. rewrite String.eqb_refl, Hun in Ha.
        discriminate. }
      destruct (remove_nth_split i0 _ c Hi) as (l1 & l2 & Hl & Hbase).
      rewrite Hbase in Hstep. rewrite Hl in Hone.
      rewrite filter_app in Hone. cbn [filter] in Hone.
      rewrite <- Hce, String.eqb_refl in Hone. rewrite Hce in Hone.
      assert (Hsplit : filter (fun c => c_entity c =? e) l1 = []
                       /\ c = mkCall e ns (Some ns) (Early todo)
                       /\ filter (fun c => c_entity c =? e) l2 = []).
      { destruct (filter (fun c => c_entity c =? e) l1) as [|x l].
        - cbn [app] in Hone. injection Hone as -> ->. auto.
        - cbn [app] in Hone. injection Hone as _ Hone.
          destruct l; discriminate. }
      destruct Hsplit as (Hl1 & -> & Hl2).
      assert (Hbase0 : existsb (fun c => c_entity c =? e) (l1 ++ l2) = false).
      { rewrite existsb_app. apply filter_none_in_flight in Hl1, Hl2.
        now rewrite Hl1, Hl2. }
      destruct todo as [|p todo'].
      * (* the check *)
        destruct (call_check_ready env conf e d i rest (sys_published sys) ns
                    Hs Hp Hm He Hc) as (config & ns' & Hcheck).
        assert (Hres : resume env conf (mkCall e ns (Some ns) (Early []))
                         (sys_published sys)
                       = (sys_published sys,
                          [mkPublish SiteConfig (entity_disc_topic conf e)
                             (PJson (JObj config)) 1 true],
                          Some (mkCall e ns (Some ns') (Waited d)))).
        { unfold resume, enter_check. cbn [c_stage c_entity c_state c_object].
          rewrite Hcheck. reflexivity. }
        rewrite Hres in Hstep. cbn [fst snd olist map c_entity] in Hstep.
        rewrite Hstep in *. cbn [fst snd] in *.
        destruct (not_in_flight e (l1 ++ l2) Hbase0) as (Hcalm & Hnone & Hnone' & _).
        destruct (execute_settled env conf e _ acts Hx) as [Hq Hh].
        { cbn [sys_pending]. unfold calm. rewrite forallb_app.
          fold (calm e (l1 ++ l2)). rewrite Hcalm. cbn.
          now rewrite orb_true_r. }
        { cbn [sys_pending]. rewrite filter_app, Hnone. cbn.
          destruct (of_entity e before_append _); cbn; lia. }
        { unfold held, awaited. cbn [sys_published sys_pending].
          rewrite existsb_app. cbn. unfold of_entity at 2. cbn.
          rewrite String.eqb_refl. now rewrite !orb_true_r. }
        exists config, [], (snd (execute env conf
                                  (mkSystem (sys_published sys)
                                     ((l1 ++ l2) ++ [mkCall e ns (Some ns') (Waited d)]))
                                  acts)).
        repeat split; auto.
      * (* one more publish of lines 166-177 *)
        cbn [filter] in Htc, Hts.
        destruct (at_site SiteConfig p) eqn:Hpc; [discriminate|].
        destruct (at_site SiteState p) eqn:Hps; [discriminate|].
        cbn [resume c_stage c_entity c_state c_object fst snd olist map] in Hstep.
        rewrite Hstep in *. cbn [fst snd] in *.
        destruct (IH (mkSystem (sys_published sys)
                        ((l1 ++ l2) ++ [mkCall e ns (Some ns) (Early todo')])) todo')
          as (config & tr1 & tr2 & Htr & H1 & H2 & H3 & H4); auto.
        { cbn [sys_pending]. rewrite filter_app.
          rewrite (proj2 (proj2 (proj2 (not_in_flight e (l1 ++ l2) Hbase0)))).
          cbn. now rewrite String.eqb_refl. }
        exists config, ((e, p) :: tr1), tr2.
        rewrite Htr. split; [reflexivity|].
        unfold publishes_of in *. cbn [filter fst snd].
        rewrite String.eqb_refl, Hpc, Hps. cbn [andb]. auto.
    + (* a call of another entity *)
      destruct (resume_frame env conf c (sys_published sys))
        as (reg' & evs & oc & Hres & Hreg & _ & Hoc).
      rewrite Hres in Hstep. cbn [fst snd] in Hstep.
      rewrite Hstep in *. cbn [fst snd] in *.
      assert (Hbase : filter (fun c => c_entity c =? e) base
                      = filter (fun c => c_entity c =? e) (sys_pending sys)).
      { destruct Horigin as [(n & ns0 & todo0 & _ & _ & _ & _ & _ & _ & ->)
                            | (i0 & _ & Hi & ->)]; [reflexivity|].
        destruct (remove_nth_split i0 _ c Hi) as (l1 & l2 & -> & ->).
        rewrite !filter_app. cbn [filter]. now rewrite Hce. }
      destruct (IH (mkSystem reg' (base ++ olist oc)) todo)
        as (config & tr1 & tr2 & Htr & H1 & H2 & H3 & H4); auto.
      { cbn [sys_published]. destruct Hreg as [-> | ->]; [exact Hm|].
        rewrite mem_string_app, mem_string_single, Hm, String.eqb_sym, Hce.
        reflexivity. }
      { cbn [sys_pending]. rewrite filter_app, Hbase, Hone.
        destruct oc as [c'|]; [|reflexivity].
        destruct (Hoc c' eq_refl) as [Hc' _]. cbn. now rewrite Hc', Hce. }
      exists config, (map (pair (c_entity c)) evs ++ tr1), tr2.
      rewrite Htr, app_assoc. split; [reflexivity|].
      rewrite !publishes_of_app, !publishes_of_cycle, Hce. auto.
Qed.

(** C1.  Let a call for an entity begin with discovery publishing enabled,
    pass the filter and be eligible (for climate, with the attributes the
    climate branch reads), the entity not being in the list, no call for it
    being in flight and none having begun before; let no call for the
    entity begin while an earlier call for it has not got past line 289,
    calls of other entities overlapping as they may; and let the calls for
    the entity have got past line 289 at the end.  Then exactly one
    discovery config has been published for the entity, before any state
    publish of the entity, and the entity is in the list: no later call
    publishes the config again. *)
Theorem config_published_once_without_overlap sys pre n post ns d i rest :
  publish_discovery conf = true ->
  publish_filter conf (n_entity_id n) = true ->
  mem_string (n_entity_id n) (sys_published sys) = false ->
  in_flight (n_entity_id n) sys = false ->
  Forall (fun a => begins (n_entity_id n) a = false) pre ->
  n_new_state n = Some ns ->
  split_char "." (n_entity_id n) = d :: i :: rest ->
  eligible conf d (attributes ns) = true ->
  (d = "climate" -> climate_ready (attributes ns) = true) ->
  exclusive env conf (String.eqb (n_entity_id n)) sys (pre ++ Begin n :: post) = true ->
  unsettled (n_entity_id n) (fst (execute env conf sys (pre ++ Begin n :: post)))
  = false ->
  exists config tr1 tr2,
    let cfg := mkPublish SiteConfig (entity_disc_topic conf (n_entity_id n))
                 (PJson (JObj config)) 1 true in
    snd (execute env conf sys (pre ++ Begin n :: post))
    = tr1 ++ (n_entity_id n, cfg) :: tr2
    /\ publishes_of (n_entity_id n) SiteConfig
         (snd (execute env conf sys (pre ++ Begin n :: post)))
       = [(n_entity_id n, cfg)]
    /\ publishes_of (n_entity_id n) SiteState tr1 = []
    /\ mem_string (n_entity_id n)
         (sys_published (fst (execute env conf sys (pre ++ Begin n :: post))))
       = true.
Proof.
  intros Hp Hf Hm Hw Hpre Hn Hs He Hc Hx Hend.
  set (e := n_entity_id n) in *.
  destruct (execute_others e sys pre Hpre Hw) as (Hq & Hw1 & Hm1).
  rewrite Hm in Hm1.
  assert (Hc' : (d =? "climate") = true -> climate_ready (attributes ns) = true).
  { intros H. apply String.eqb_eq in H. auto. }
  rewrite exclusive_app in Hx. apply andb_true_iff in Hx. destruct Hx as [_ Hx].
  destruct (execute_app env conf sys pre (Begin n :: post)) as [Hf1 Hs1].
  rewrite Hf1 in Hend. rewrite Hf1, Hs1. clear Hf1 Hs1.
  set (sys1 := fst (execute env conf sys pre)) in *.
  destruct (step_begin sys1 n ns Hn Hf) as (todo & Htc & Hts & Hb).
  fold e in Hb.
  set (sys1' := mkSystem (sys_published sys1)
                  (sys_pending sys1 ++ [mkCall e ns (Some ns) (Early todo)])) in *.
  assert (Hexec : execute env conf sys1 (Begin n :: post)
                  = execute env conf sys1' (Resume (length (sys_pending sys1)) :: post)).
  { cbn [execute]. now rewrite Hb. }
  rewrite Hexec in *.
  assert (Hx' : exclusive env conf (String.eqb e) sys1'
                  (Resume (length (sys_pending sys1)) :: post) = true).
  { cbn [exclusive] in Hx |- *. rewrite <- Hb.
    apply andb_true_iff in Hx. now destruct Hx as [_ ->]. }
  destruct (not_in_flight e (sys_pending sys1) Hw1) as (_ & _ & _ & Hnone).
  destruct (first_call_publishes e ns d i rest todo sys1'
              (Resume (length (sys_pending sys1)) :: post) Hs Hp He Hc')
    as (config & tr1 & tr2 & Htr & H1 & H2 & H3 & H4); auto.
  { unfold sys1'. cbn [sys_pending]. rewrite filter_app, Hnone. cbn.
    now rewrite String.eqb_refl. }
  exists config, (snd (execute env conf sys pre) ++ tr1), tr2.
  cbv zeta. rewrite Htr.
  split; [now rewrite app_assoc|]. split; [|split].
  - change ((e, ?c) :: ?l) with ([(e, c)] ++ l).
    rewrite !publishes_of_app, Hq, H1, H3.
    unfold publishes_of. cbn [filter fst snd map app].
    rewrite String.eqb_refl. reflexivity.
  - now rewrite publishes_of_app, Hq, H2.
  - unfold held in H4. rewrite (awaited_unsettled _ _ Hend) in H4.
    now rewrite orb_false_r in H4.
Qed.

(** The discovery configs of [e] in any execution in which no call of [e]
    begins while an earlier one has not got past line 289. *)
Lemma execute_track e sys acts :
  exclusive env conf (String.eqb e) sys acts = true ->
  calm e (sys_pending sys) = true ->
  (length (filter (of_entity e before_append) (sys_pending sys)) <= 1)%nat ->
  (length (publishes_of e SiteConfig (snd (execute env conf sys acts))) <= 1)%nat
  /\ (held e sys = true ->
      publishes_of e SiteConfig (snd (execute env conf sys acts)) = [])
  /\ held e (fst (execute env conf sys acts))
     = held e sys
       || (0 <? length (publishes_of e SiteConfig (snd (execute env conf sys acts))))%nat.
Proof.
  revert sys. induction acts as [|a acts IH]; intros sys Hx Hc Hn.
  - cbn. split; [lia|]. split; [reflexivity|now rewrite orb_false_r].
  - cbn [exclusive] in Hx. apply andb_true_iff in Hx. destruct Hx as [Ha Hx].
    destruct (execute_cons env conf sys a acts) as [-> ->].
    rewrite publishes_of_app, length_app.
    destruct (step_track env conf e sys a Ha Hc Hn)
      as (Hc1 & Hn1 & [[Hq Hh] | (Hh0 & Hh1 & cfg & Hq)]); rewrite Hq.
    + destruct (IH _ Hx Hc1 Hn1) as (I1 & I2 & I3).
      rewrite Hh in I2, I3. cbn [app length Nat.add]. auto.
    + destruct (execute_settled env conf e _ acts Hx Hc1 Hn1 Hh1) as [Hq' Hh'].
      rewrite Hq', Hh', Hh0. cbn. split; [lia|]. split; [discriminate|reflexivity].
Qed.

(** X27.  From any list, with no call of the entity in flight, and calls
    overlapping as they may but for this: no call for the entity begins
    while an earlier call for it has not got past line 289.  Then at most
    one discovery config is published for the entity, none when the entity
    is in the list at the start; and at the end the entity is in the list,
    or a call waits at line 288 to append it, exactly when it was in the
    list at the start or its config was published. *)
Theorem config_at_most_once_without_overlap e sys acts :
  in_flight e sys = false ->
  exclusive env conf (String.eqb e) sys acts = true ->
  (length (publishes_of e SiteConfig (snd (execute env conf sys acts))) <= 1)%nat
  /\ (mem_string e (sys_published sys) = true ->
      publishes_of e SiteConfig (snd (execute env conf sys acts)) = [])
  /\ held e (fst (execute env conf sys acts))
     = mem_string e (sys_published sys)
       || (0 <? length (publishes_of e SiteConfig (snd (execute env conf sys acts))))%nat.
Proof.
  intros Hw Hx.
  destruct (not_in_flight e (sys_pending sys) Hw) as (Hcalm & Hnone & Hnone' & _).
  assert (Hn : (length (filter (of_entity e before_append) (sys_pending sys)) <= 1)%nat)
    by (rewrite Hnone; cbn; lia).
  assert (Hh : held e sys = mem_string e (sys_published sys)).
  { unfold held, awaited. rewrite Hnone'. apply orb_false_r. }
  destruct (execute_track e sys acts Hx Hcalm Hn) as (H1 & H2 & H3).
  rewrite Hh in H2, H3. auto.
Qed.

End FirstCall.

Section RegistryFacts.

Variable env : Env.
Variable conf : Conf.

Lemma entities_remove_nth (g : Call -> bool) i l c :
  nth_error l i = Some c ->
  Permutation (map c_entity (filter g l))
    ((if g c then [c_entity c] else []) ++ map c_entity (filter g (remove_nth i l))).
Proof.
  intros H. destruct (remove_nth_split i l c H) as (l1 & l2 & -> & ->).
  rewrite !filter_app, !map_app. cbn [filter].
  destruct (g c); cbn [map app]; [|reflexivity].
  symmetry. apply Permutation_middle.
Qed.

Lemma waiting_incl l :
  incl (map c_entity (filter at_publish l)) (map c_entity (filter before_append l)).
Proof.
  intros e He. apply in_map_iff in He. destruct He as (c & <- & Hc).
  apply filter_In in Hc. destruct Hc as [Hin Ha].
  apply in_map. apply filter_In. split; [exact Hin|now apply at_publish_before].
Qed.

Lemma NoDup_snoc {A} (l : list A) x : NoDup l -> ~ In x l -> NoDup (l ++ [x]).
Proof.
  intros Hl Hx. apply NoDup_app; [exact Hl|repeat constructor; intros []|].
  intros y Hy [<-|[]]. contradiction.
Qed.

(** One turn of a call and the list. *)
Lemma turn_registry c reg base :
  NoDup (reg ++ (if at_publish c then [c_entity c] else [])
             ++ map c_entity (filter at_publish base)) ->
  NoDup ((if before_append c then [c_entity c] else [])
           ++ map c_entity (filter before_append base)) ->
  let t := resume env conf c reg in
  NoDup (fst (fst t) ++ map c_entity (filter at_publish (base ++ olist (snd t))))
  /\ NoDup (map c_entity (filter before_append (base ++ olist (snd t))))
  /\ (forall c', snd t = Some c' -> c_entity c' = c_entity c)
  /\ exists added,
       fst (fst t) = reg ++ added
       /\ forall e, In e added -> e = c_entity c /\ at_publish c = true.
Proof.
  intros H1 H2. cbv zeta.
  rewrite !filter_app, !map_app.
  destruct (resume_cases env conf c reg)
    as [(Ha & evs & oc & -> & _ & Hoc)
       | [(Hst & Hm & config & d & obj & ->)
         | (Ha & evs & oc & -> & _ & Hoc)]];
    cbn [fst snd].
  - rewrite Ha in H1. cbn [app] in H1.
    split; [|split; [|split]].
    + destruct oc as [c'|]; cbn [olist filter]; [|now rewrite app_nil_r].
      destruct (Hoc c' eq_refl) as (_ & _ & -> & _). now rewrite app_nil_r.
    + destruct oc as [c'|]; cbn [olist filter].
      * destruct (Hoc c' eq_refl) as (Hc' & _ & _ & Hb').
        destruct (before_append c') eqn:Hb; cbn [map].
        -- rewrite (Hb' eq_refl) in H2. rewrite Hc'.
           apply (Permutation_NoDup (l := [c_entity c]
                                            ++ map c_entity (filter before_append base)));
             [apply Permutation_app_comm|exact H2].
        -- rewrite app_nil_r. destruct (before_append c); [|exact H2].
           now apply NoDup_cons_iff in H2.
      * rewrite app_nil_r. destruct (before_append c); [|exact H2].
        now apply NoDup_cons_iff in H2.
    + intros c' Hc'. now apply Hoc.
    + exists []. split; [now rewrite app_nil_r|intros e []].
  - assert (Hb : before_append c = true) by (unfold before_append; now rewrite Hst).
    assert (Ha : at_publish c = false) by (unfold at_publish; now rewrite Hst).
    rewrite Hb in H2. rewrite Ha in H1. cbn [app] in H1, H2.
    cbn [olist filter at_publish before_append c_stage map c_entity].
    apply NoDup_cons_iff in H2. destruct H2 as [Hnin H2].
    split; [|split; [|split]].
    + rewrite app_assoc. apply NoDup_snoc; [exact H1|].
      intros Hin. apply in_app_or in Hin. destruct Hin as [Hin|Hin].
      * apply mem_string_In in Hin. congruence.
      * apply Hnin. now apply waiting_incl.
    + now apply NoDup_snoc.
    + intros c' [= <-]. reflexivity.
    + exists []. split; [now rewrite app_nil_r|intros e []].
  - assert (Hb : before_append c = true) by now apply at_publish_before.
    rewrite Hb in H2. rewrite Ha in H1. cbn [app] in H2.
    apply NoDup_cons_iff in H2. destruct H2 as [_ H2].
    assert (Hoc' : filter at_publish (olist oc) = []
                   /\ filter before_append (olist oc) = []).
    { destruct oc as [c'|]; [|auto]. destruct (Hoc c' eq_refl) as (_ & _ & Ha' & Hb').
      cbn. now rewrite Ha', Hb'. }
    destruct Hoc' as [-> ->]. cbn [map]. rewrite !app_nil_r.
    split; [|split; [|split]].
    + now rewrite <- app_assoc.
    + exact H2.
    + intros c' Hc'. now apply Hoc.
    + exists [c_entity c]. split; [reflexivity|].
      intros e [<-|[]]. auto.
Qed.

(** One step and the list: with no call begun for an entity that has a call
    before line 289, the list together with the entities of the calls
    waiting at line 288 has no duplicates, nor have the entities of the
    calls before line 289; the list grows by entities of calls in flight. *)
Lemma step_registry sys a :
  match a with
  | Begin n => negb (unsettled (n_entity_id n) sys)
  | Resume _ => true
  end = true ->
  NoDup (sys_published sys ++ map c_entity (filter at_publish (sys_pending sys))) ->
  NoDup (map c_entity (filter before_append (sys_pending sys))) ->
  NoDup (sys_published (fst (step env conf sys a))
           ++ map c_entity (filter at_publish (sys_pending (fst (step env conf sys a)))))
  /\ NoDup (map c_entity
              (filter before_append (sys_pending (fst (step env conf sys a)))))
  /\ (forall e, In e (map c_entity (sys_pending (fst (step env conf sys a)))) ->
                In e (map c_entity (sys_pending sys))
                \/ exists n, a = Begin n /\ n_entity_id n = e)
  /\ exists added,
       sys_published (fst (step env conf sys a)) = sys_published sys ++ added
       /\ forall e, In e added -> In e (map c_entity (sys_pending sys)).
Proof.
  intros Hx H1 H2.
  destruct (step_turn env conf sys a) as [-> | (c & base & -> & Horigin)].
  { split; [exact H1|]. split; [exact H2|]. split; [auto|].
    exists []. split; [now rewrite app_nil_r|intros e []]. }
  cbn [fst sys_published sys_pending].
  assert (H : NoDup (sys_published sys
                       ++ (if at_publish c then [c_entity c] else [])
                       ++ map c_entity (filter at_publish base))
              /\ NoDup ((if before_append c then [c_entity c] else [])
                          ++ map c_entity (filter before_append base))
              /\ (at_publish c = true -> In (c_entity c) (map c_entity (sys_pending sys)))
              /\ (forall e, In e (map c_entity base) ->
                            In e (map c_entity (sys_pending sys)))
              /\ (In (c_entity c) (map c_entity (sys_pending sys))
                  \/ exists n, a = Begin n /\ n_entity_id n = c_entity c)).
  { destruct Horigin as [(n & ns & todo & -> & -> & _ & _ & _ & _ & ->)
                        | (i & -> & Hi & ->)].
    - cbn [at_publish before_append c_stage c_entity app].
      split; [exact H1|]. split; [|split; [discriminate|split; [auto|eauto]]].
      apply NoDup_cons; [|exact H2].
      apply negb_true_iff in Hx. unfold unsettled in Hx.
      intros Hin. apply in_map_iff in Hin. destruct Hin as (c' & Hc' & Hin).
      apply filter_In in Hin. destruct Hin as [Hin Hb].
      assert (Hex : existsb (of_entity (n_entity_id n) before_append) (sys_pending sys)
                    = true).
      { apply existsb_exists. exists c'. split; [exact Hin|].
        unfold of_entity. now rewrite Hc', String.eqb_refl, Hb. }
      congruence.
    - pose proof (entities_remove_nth at_publish i _ c Hi) as Pa.
      pose proof (entities_remove_nth before_append i _ c Hi) as Pb.
      assert (Hin : In c (sys_pending sys)) by (eapply nth_error_In; exact Hi).
      split; [|split; [|split; [|split]]].
      + apply (Permutation_NoDup (l := sys_published sys
                                         ++ map c_entity
                                              (filter at_publish (sys_pending sys))));
          [now apply Permutation_app_head|exact H1].
      + apply (Permutation_NoDup Pb H2).
      + intros _. now apply in_map.
      + intros e He. apply in_map_iff in He. destruct He as (c' & <- & Hc').
        apply in_map. destruct (remove_nth_split i _ c Hi) as (l1 & l2 & Hl & Hr).
        rewrite Hr in Hc'. rewrite Hl. apply in_app_or in Hc'.
        apply in_or_app. destruct Hc'; [now left|right; now right].
      + left. now apply in_map. }
  destruct H as (F1 & F2 & F3 & F4 & F5).
  destruct (turn_registry c (sys_published sys) base F1 F2)
    as (G1 & G2 & G3 & added & G4 & G5).
  split; [exact G1|]. split; [exact G2|]. split.
  - intros e He. rewrite map_app in He. apply in_app_or in He.
    destruct He as [He|He]; [left; now apply F4|].
    destruct (snd (resume env conf c (sys_published sys))) as [c'|]; [|destruct He].
    destruct He as [<-|[]]. rewrite (G3 c' eq_refl). exact F5.
  - exists added. split; [exact G4|].
    intros e He. destruct (G5 e He) as [-> Ha]. now apply F3.
Qed.

(** The list in any execution in which no call begins for an entity that
    has a call before line 289. *)
Lemma execute_registry sys acts :
  exclusive env conf (fun _ => true) sys acts = true ->
  NoDup (sys_published sys ++ map c_entity (filter at_publish (sys_pending sys))) ->
  NoDup (map c_entity (filter before_append (sys_pending sys))) ->
  NoDup (sys_published (fst (execute env conf sys acts))
           ++ map c_entity
                (filter at_publish (sys_pending (fst (execute env conf sys acts)))))
  /\ (forall e,
        In e (map c_entity (sys_pending (fst (execute env conf sys acts)))) ->
        In e (map c_entity (sys_pending sys))
        \/ exists n, In (Begin n) acts /\ n_entity_id n = e)
  /\ exists added,
       sys_published (fst (execute env conf sys acts)) = sys_published sys ++ added
       /\ forall e, In e added ->
                    In e (map c_entity (sys_pending sys))
                    \/ exists n, In (Begin n) acts /\ n_entity_id n = e.
Proof.
  revert sys. induction acts as [|a acts IH]; intros sys Hx H1 H2.
  - split; [exact H1|]. split; [auto|].
    exists []. split; [now rewrite app_nil_r|intros e []].
  - cbn [exclusive] in Hx. apply andb_true_iff in Hx. destruct Hx as [Ha Hx].
    assert (Ha' : match a with
                  | Begin n => negb (unsettled (n_entity_id n) sys)
                  | Resume _ => true
                  end = true) by (destruct a; exact Ha).
    destruct (step_registry sys a Ha' H1 H2) as (S1 & S2 & Sp & added1 & Sr & So).
    destruct (IH _ Hx S1 S2) as (I1 & Ip & added2 & Ir & Io).
    destruct (execute_cons env conf sys a acts) as [-> _].
    assert (Hfrom : forall e,
               In e (map c_entity (sys_pending (fst (step env conf sys a))))
               \/ (exists n, In (Begin n) acts /\ n_entity_id n = e) ->
               In e (map c_entity (sys_pending sys))
               \/ exists n, In (Begin n) (a :: acts) /\ n_entity_id n = e).
    { intros e [He|(n & Hn & He)].
      - destruct (Sp e He) as [H|(n & -> & H)]; [now left|].
        right. exists n. split; [now left|exact H].
      - right. exists n. split; [now right|exact He]. }
    split; [exact I1|]. split; [intros e He; apply Hfrom; auto|].
    exists (added1 ++ added2). split; [now rewrite Ir, Sr, app_assoc|].
    intros e He. apply in_app_or in He. destruct He as [He|He]; auto.
Qed.

(** X15.  From a list without duplicates and no call in flight, calls
    overlapping as they may but for this: no call begins for an entity
    while an earlier call for it has not got past line 289.  Then the list
    has no duplicates, also when the entities of the calls waiting at line
    288 are appended; and it only grows, by entities of calls begun. *)
Theorem registry_without_duplicates_without_overlap reg acts :
  NoDup reg ->
  exclusive env conf (fun _ => true) (mkSystem reg []) acts = true ->
  NoDup (sys_published (fst (execute env conf (mkSystem reg []) acts))
           ++ map c_entity
                (filter at_publish
                   (sys_pending (fst (execute env conf (mkSystem reg []) acts)))))
  /\ exists added,
       sys_published (fst (execute env conf (mkSystem reg []) acts)) = reg ++ added
       /\ forall e, In e added -> exists n, In (Begin n) acts /\ n_entity_id n = e.
Proof.
  intros Hnd Hx.
  destruct (execute_registry (mkSystem reg []) acts Hx) as (H1 & _ & added & H2 & H3).
  - cbn. now rewrite app_nil_r.
  - constructor.
  - split; [exact H1|]. exists added. split; [exact H2|].
    intros e He. destruct (H3 e He) as [[]|H]. exact H.
Qed.

End RegistryFacts.

(** ** One call after the other *)

Section Serial.

Variable env : Env.
Variable conf : Conf.

Lemma idle_resumes reg k :
  execute env conf (mkSystem reg []) (repeat (Resume 0) k) = (mkSystem reg [], []).
Proof.
  induction k as [|k IH]; [reflexivity|]. cbn [repeat execute step sys_pending nth_error].
  now rewrite IH.
Qed.

(** A call alone in flight and past line 289 makes its remaining publishes
    and returns. *)
Lemma drain_late e ns obj todo reg k :
  (length todo + 1 <= k)%nat ->
  execute env conf (mkSystem reg [mkCall e ns obj (Late todo)]) (repeat (Resume 0) k)
  = (mkSystem reg [], map (pair e) todo).
Proof.
  revert k. induction todo as [|p todo IH]; intros [|k] Hk; cbn [length] in Hk;
    try lia; cbn [repeat execute step sys_pending sys_published nth_error resume
                    c_stage c_entity c_state c_object remove_nth olist app map].
  - now rewrite idle_resumes.
  - rewrite IH by lia. reflexivity.
Qed.

(** Lines 289-347 of a call alone in flight. *)
Lemma drain_after e d (b : bool) ns w k :
  (3 <= k)%nat ->
  execute env conf
    (mkSystem (fst (fst (enter_late conf e d b ns w)))
       (olist (snd (enter_late conf e d b ns w))))
    (repeat (Resume 0) k)
  = (mkSystem (conf_published (store (call_after_publish conf e d b ns w))) [],
     map (pair e) (tl (output (call_after_publish conf e d b ns w))))
  /\ fst (fst (enter_late conf e d b ns w))
     = conf_published (store (call_after_publish conf e d b ns w))
  /\ snd (fst (enter_late conf e d b ns w))
       ++ tl (output (call_after_publish conf e d b ns w))
     = output (call_after_publish conf e d b ns w).
Proof.
  intros Hk. unfold enter_late.
  destruct (call_after_publish_spec conf e d b ns w) as (_ & _ & Hl).
  destruct (output (call_after_publish conf e d b ns w)) as [|p rest];
    cbn [fst snd olist tl app].
  - rewrite idle_resumes. auto.
  - cbn [length] in Hl. rewrite drain_late by lia. auto.
Qed.

(** Lines 179-347 of a call alone in flight. *)
Lemma drain_check e ns w k :
  (4 <= k)%nat ->
  let t := enter_check env conf e ns w in
  let r := bind (call_check env conf e)
             (fun db => call_after_publish conf e (fst db) (snd db) ns) w in
  exists tr,
    execute env conf (mkSystem (fst (fst t)) (olist (snd t))) (repeat (Resume 0) k)
    = (mkSystem (conf_published (store r)) [], tr)
    /\ map (pair e) (snd (fst t)) ++ tr = map (pair e) (output r).
Proof.
  intros Hk. cbv zeta. unfold enter_check, bind.
  destruct (call_check_spec env conf e w) as [Hreg _].
  destruct (call_check env conf e w) as [[o1 w1] [ex|[d [|]]]];
    cbn [outcome output store fst snd olist] in *.
  - rewrite idle_resumes. eexists. split; [reflexivity|now rewrite app_nil_r].
  - destruct k as [|k]; [lia|].
    cbn [repeat execute step sys_pending sys_published nth_error resume
           c_stage c_entity c_state c_object remove_nth app].
    rewrite world_eta.
    destruct (drain_after e d true ns w1 k) as (He & H1 & H2); [lia|].
    destruct (enter_late conf e d true ns w1) as [[reg' evs] oc].
    cbn [fst snd] in *. rewrite He.
    destruct (call_after_publish conf e d true ns w1) as [[o2 w2] r2].
    cbn [output store fst snd] in *.
    eexists. split; [reflexivity|].
    now rewrite <- map_app, <- map_app, H2.
  - destruct (drain_after e d false ns w1 k) as (He & H1 & H2); [lia|].
    destruct (enter_late conf e d false ns w1) as [[reg' evs] oc].
    cbn [fst snd] in *. rewrite He.
    destruct (call_after_publish conf e d false ns w1) as [[o2 w2] r2].
    cbn [output store fst snd] in *.
    eexists. split; [reflexivity|].
    now rewrite <- map_app, <- app_assoc, H2.
Qed.

(** A call alone in flight, waiting at one of lines 166-177. *)
Lemma drain_early e ns obj todo reg k :
  (length todo + 5 <= k)%nat ->
  let r := bind (call_check env conf e)
             (fun db => call_after_publish conf e (fst db) (snd db) ns)
             (mkWorld reg obj) in
  execute env conf (mkSystem reg [mkCall e ns obj (Early todo)]) (repeat (Resume 0) k)
  = (mkSystem (conf_published (store r)) [], map (pair e) (todo ++ output r)).
Proof.
  cbv zeta. revert k. induction todo as [|p todo IH]; intros [|k] Hk;
    cbn [length] in Hk; try lia;
    cbn [repeat execute step sys_pending sys_published nth_error resume
           c_stage c_entity c_state c_object remove_nth app].
  - destruct (drain_check e ns (mkWorld reg obj) k) as (tr & He & Ht); [lia|].
    destruct (enter_check env conf e ns (mkWorld reg obj)) as [[reg' evs] oc].
    cbn [fst snd] in *. now rewrite He, Ht.
  - rewrite IH by lia. reflexivity.
Qed.

Lemma call_early_length e ns reg :
  (length (output (call_early conf e ns (mkWorld reg (Some ns))))
   <= length (attributes ns) + 2)%nat.
Proof.
  destruct (call_early_spec conf e ns reg) as (ts & ats & Hts & Hats & ->).
  cbn [output fst]. rewrite length_app.
  rewrite <- (length_map pub_site ts), <- (length_map pub_site ats), Hts, Hats.
  unfold timestamp_sites, attribute_sites.
  destruct (publish_timestamps conf), (publish_attributes conf),
    (last_updated ns), (last_changed ns); cbn [length app];
    rewrite ?length_map; lia.
Qed.

Lemma step_begin_idle sys n :
  n_new_state n = None \/ publish_filter conf (n_entity_id n) = false ->
  step env conf sys (Begin n) = (sys, []).
Proof.
  intros H. unfold step, begin.
  destruct (n_new_state n) as [ns|].
  - destruct H as [H|H]; [discriminate|]. rewrite H. cbn [negb olist map].
    now rewrite app_nil_r, system_eta.
  - cbn [olist map]. now rewrite app_nil_r, system_eta.
Qed.

(** A call begun and let go on until it has returned is [notify]. *)
Lemma call_serial reg n :
  execute env conf (mkSystem reg []) (Begin n :: repeat (Resume 0) (turns n))
  = (mkSystem (conf_published (store (notify env conf reg n))) [],
     map (pair (n_entity_id n)) (output (notify env conf reg n))).
Proof.
  cbn [execute].
  destruct (n_new_state n) as [ns|] eqn:Hn.
  2:{ rewrite step_begin_idle by now left. rewrite idle_resumes.
      unfold notify. rewrite Hn. reflexivity. }
  destruct (publish_filter conf (n_entity_id n)) eqn:Hf.
  2:{ rewrite step_begin_idle by now right. rewrite idle_resumes.
      rewrite (notify_filtered env conf reg n Hf). reflexivity. }
  rewrite (notify_processed env conf reg n ns Hn Hf), publish_entity_parts.
  unfold turns. rewrite Hn.
  pose proof (call_early_length (n_entity_id n) ns reg) as Hlen.
  unfold step at 1. unfold begin. rewrite Hn, Hf. cbn [negb sys_published].
  destruct (call_early_spec conf (n_entity_id n) ns reg) as (ts & ats & _ & _ & He).
  set (r := bind (call_check env conf (n_entity_id n))
              (fun db => call_after_publish conf (n_entity_id n) (fst db) (snd db) ns)
              (mkWorld reg (Some ns))).
  assert (Hbig : bind (call_early conf (n_entity_id n) ns)
                   (fun _ => bind (call_check env conf (n_entity_id n))
                               (fun db => call_after_publish conf (n_entity_id n)
                                            (fst db) (snd db) ns))
                   (mkWorld reg (Some ns))
                 = ((ts ++ ats) ++ output r, store r, outcome r)).
  { unfold bind at 1. rewrite He. fold r. now destruct r as [[o w] x]. }
  rewrite Hbig. rewrite He in Hlen |- *.
  cbn [outcome output store fst snd new_state conf_published] in *.
  destruct (ts ++ ats) as [|p todo] eqn:Hearly.
  - destruct (drain_check (n_entity_id n) ns (mkWorld reg (Some ns))
                (length (attributes ns) + 6)) as (tr & Hx & Ht); [lia|].
    fold r in Hx, Ht.
    destruct (enter_check env conf (n_entity_id n) ns (mkWorld reg (Some ns)))
      as [[reg' evs] oc].
    cbn [fst snd sys_pending app] in *. now rewrite Hx, Ht.
  - cbn [sys_pending app olist map].
    cbn [length] in Hlen.
    pose proof (drain_early (n_entity_id n) ns (Some ns) todo reg
                  (length (attributes ns) + 6)) as Hd.
    cbv zeta in Hd. fold r in Hd. rewrite Hd by lia. reflexivity.
Qed.

(** [run] is [execute] on the serial schedule. *)
Lemma execute_serial reg ns :
  execute env conf (mkSystem reg []) (serial ns)
  = (mkSystem (registry_after env conf reg ns) [], run env conf reg ns).
Proof.
  revert reg. induction ns as [|n ns IH]; intros reg; [reflexivity|].
  change (serial (n :: ns))
    with ((Begin n :: repeat (Resume 0) (turns n)) ++ serial ns).
  rewrite (surjective_pairing (execute _ _ _ _)).
  destruct (execute_app env conf (mkSystem reg [])
              (Begin n :: repeat (Resume 0) (turns n)) (serial ns)) as [-> ->].
  rewrite call_serial. cbn [fst snd]. rewrite IH. reflexivity.
Qed.

(** On the serial schedule no call is begun while another is in flight. *)
Lemma serial_exclusive c reg ns :
  exclusive env conf c (mkSystem reg []) (serial ns) = true.
Proof.
  revert reg. induction ns as [|n ns IH]; intros reg; [reflexivity|].
  change (serial (n :: ns))
    with ((Begin n :: repeat (Resume 0) (turns n)) ++ serial ns).
  rewrite exclusive_app, call_serial. cbn [fst]. rewrite IH, andb_true_r.
  cbn [exclusive unsettled sys_pending existsb]. rewrite andb_false_r. cbn [negb andb].
  generalize (fst (step env conf (mkSystem reg []) (Begin n))).
  induction (turns n) as [|k IHk]; intros sys; [reflexivity|].
  cbn [repeat exclusive andb]. apply IHk.
Qed.

End Serial.

Section TopicLayout.

Variable env : Env.
Variable conf : Conf.

(** X14.  For an entity [<domain>.<object_id>], every publish of a call is
    retained with QoS 1 and goes to the base topic followed by
    [<domain>/<object_id>/] and by last_updated, last_changed, state,
    availability or attributes, or by the key of an attribute (with that
    attribute's value as payload); the discovery config goes to the
    discovery topic followed by [<domain>/<object_id>/config]. *)
Theorem publish_topics_laid_out reg n ns d x p :
  n_new_state n = Some ns ->
  n_entity_id n = (d ++ "." ++ x)%string ->
  has_char "." d = false ->
  has_char "." x = false ->
  In p (output (notify env conf reg n)) ->
  laid_out conf d x (attributes ns) p
  /\ pub_qos p = 1%Z
  /\ pub_retain p = true.
Proof.
  intros Hn He Hd Hx Hin.
  destruct (publishes_by_site env conf reg n ns p Hn Hin) as (Ha & Hq & Hr).
  split; [|split; assumption].
  assert (Hpath : replace_char "." "/" (n_entity_id n) = (d ++ "/" ++ x)%string).
  { rewrite He, !replace_char_app, (replace_char_absent _ _ d Hd),
      (replace_char_absent _ _ x Hx). reflexivity. }
  assert (Hbase : forall w, (mybase_of conf (n_entity_id n) ++ w
                             = base_topic conf ++ d ++ "/" ++ x ++ "/" ++ w)%string).
  { intros w. unfold mybase_of. rewrite Hpath.
    now rewrite !string_app_assoc. }
  unfold addressed in Ha. unfold laid_out.
  destruct (pub_site p); cbn [topic_suffix];
    try (eexists; split; [reflexivity|]; rewrite Ha; apply Hbase).
  - destruct Ha as (k & v & Hkv & Ht & Hv). exists k, v.
    split; [exact Hkv|]. split; [rewrite Ht; apply Hbase|exact Hv].
  - rewrite Ha. unfold entity_disc_topic. rewrite Hpath.
    now rewrite !string_app_assoc.
Qed.

End TopicLayout.

(** * The further properties on sample data *)

Module MoreExamples.

Import Sample.

(** X1: "ON" in capitals on a [set] topic is an invalid service. *)
Lemma set_command_decoded_witness :
  _message_received Samples.env (mkMessage "ha/switch/plug/set" "ON") tt
  = ([LogDebug "ha/switch/plug/set" "ON"; LogError InvalidService "ON" "plug"],
     tt, inr tt).
Proof.
  exact (set_command_decoded Samples.env (mkMessage "ha/switch/plug/set" "ON")
           "ha" "switch" "plug" [] eq_refl).
Defined.

Lemma set_light_wrong_domain_witness :
  _message_received Samples.env (mkMessage "ha/switch/plug/set_light" "nope") tt
  = ([LogDebug "ha/switch/plug/set_light" "nope";
      LogError InvalidDomain "nope" "plug"], tt, inr tt).
Proof.
  apply (set_light_wrong_domain Samples.env
           (mkMessage "ha/switch/plug/set_light" "nope") "ha" "switch" "plug" []).
  - reflexivity.
  - discriminate.
Defined.

Lemma short_topic_raises_witness :
  _message_received Samples.env (mkMessage "ha/light" "on") tt
  = ([], tt, inl IndexError).
Proof.
  apply (short_topic_raises Samples.env (mkMessage "ha/light" "on")).
  cbn. lia.
Defined.

Lemma at_most_one_service_call_witness :
  (length (filter is_service_call
             (output (_message_received env
                        (mkMessage "ha/light/lamp/set_light" two_colors_text) tt)))
   <= 1)%nat.
Proof.
  exact (proj1 (at_most_one_service_call env
                  (mkMessage "ha/light/lamp/set_light" two_colors_text))).
Defined.

Lemma set_light_off_witness :
  _message_received Samples.env (mkMessage "ha/light/lamp/set_light" Samples.off_text) tt
  = ([LogDebug "ha/light/lamp/set_light" Samples.off_text;
      ServiceCall "light" "turn_off"
        [("entity_id", JStr "light.lamp"); ("transition", JNum 2)]], tt, inr tt).
Proof.
  exact (set_light_off Samples.env
           (mkMessage "ha/light/lamp/set_light" Samples.off_text)
           "ha" "lamp" [] Samples.off_json eq_refl eq_refl eq_refl).
Defined.

Lemma set_light_invalid_state_witness :
  _message_received Samples.env
    (mkMessage "ha/light/lamp/set_light" Samples.toggle_text) tt
  = ([LogDebug "ha/light/lamp/set_light" Samples.toggle_text;
      LogError InvalidState Samples.toggle_text "lamp"], tt, inr tt).
Proof.
  apply (set_light_invalid_state Samples.env
           (mkMessage "ha/light/lamp/set_light" Samples.toggle_text)
           "ha" "lamp" [] Samples.toggle_json (JStr "TOGGLE"));
    try reflexivity; discriminate.
Defined.

Lemma set_light_not_an_object_witness :
  _message_received Samples.env (mkMessage "ha/light/lamp/set_light" "[1]") tt
  = ([LogDebug "ha/light/lamp/set_light" "[1]"], tt, inl TypeError).
Proof.
  apply (set_light_not_an_object Samples.env
           (mkMessage "ha/light/lamp/set_light" "[1]") "ha" "lamp" []
           (JArr [JNum 1])); try reflexivity.
  discriminate.
Defined.

Lemma set_light_on_plain_witness :
  exists data,
    _message_received Samples.env
      (mkMessage "ha/light/lamp/set_light" Samples.on_text) tt
    = ([LogDebug "ha/light/lamp/set_light" Samples.on_text;
        ServiceCall "light" "turn_on" data], tt, inr tt)
    /\ Dict.get "brightness" data = Some (JNum 120)
    /\ forwarded_color_specs data = [].
Proof.
  destruct (set_light_on_plain Samples.env
              (mkMessage "ha/light/lamp/set_light" Samples.on_text)
              "ha" "lamp" [] Samples.on_json eq_refl eq_refl eq_refl eq_refl)
    as (data & H1 & _ & _ & H2 & _ & H3 & _).
  exists data. repeat split; assumption.
Defined.

Lemma light_state_round_trip_witness :
  light_payload (Some "on") Samples.lamp_hs_attrs = inr Samples.lamp_hs_json
  /\ exists data,
       _message_received Samples.env
         (mkMessage "ha/light/lamp/set_light" Samples.lamp_hs_text) tt
       = ([LogDebug "ha/light/lamp/set_light" Samples.lamp_hs_text;
           ServiceCall "light" "turn_on" data], tt, inr tt)
       /\ Dict.get "brightness" data = Some (JNum 200)
       /\ Dict.get "hs_color" data = Some (JArr [JNum 10; JNum 20]).
Proof.
  split; [reflexivity|].
  destruct (light_state_round_trip Samples.env
              (mkMessage "ha/light/lamp/set_light" Samples.lamp_hs_text)
              "ha" "lamp" [] Samples.lamp_hs_attrs Samples.lamp_hs_json
              eq_refl eq_refl eq_refl eq_refl)
    as (data & H1 & H2 & _ & H3 & _).
  exists data. split; [exact H1|]. split; [exact H2|].
  exact (H3 (JNum 10) (JNum 20) eq_refl).
Defined.

Lemma config_core_fields_witness :
  exists config,
    Samples.plug_config
    = mkPublish SiteConfig "ha/switch/plug/config" (PJson (JObj config)) 1 true
    /\ Dict.get "uniq_id" config = Some (JStr "mqtt_switch.plug")
    /\ Dict.get "stat_t" config = Some (JStr "ha/switch/plug/state").
Proof.
  destruct (config_core_fields Samples.env discovery_on [] plug Samples.plug_config)
    as (ns & d & i & rest & config & _ & _ & Hp & Hu & _ & Hs & _).
  - left. reflexivity.
  - reflexivity.
  - exists config. repeat split; assumption.
Defined.

Lemma light_config_fields_witness :
  exists config,
    pub_payload Samples.lamp_config = PJson (JObj config)
    /\ Dict.get "json_attr_t" config = None
    /\ Dict.get "cmd_t" config = Some (JStr "ha/light/lamp/set_light")
    /\ Dict.get "brightness" config = Some (JBool true)
    /\ Dict.get "effect" config = Some (JBool true).
Proof.
  destruct (light_config_fields Samples.env discovery_on [] lamp Samples.lamp_config)
    as (ns & config & _ & Hp & H1 & H2 & _ & H3 & H4 & _).
  - left. reflexivity.
  - reflexivity.
  - reflexivity.
  - exists config. repeat split; assumption.
Defined.

Lemma switch_config_fields_witness :
  exists config,
    pub_payload Samples.plug_config = PJson (JObj config)
    /\ Dict.get "pl_on" config = Some (JStr "on")
    /\ Dict.get "cmd_t" config = Some (JStr "ha/switch/plug/set").
Proof.
  destruct (switch_config_fields Samples.env discovery_on [] plug Samples.plug_config)
    as (config & Hp & H1 & _ & H2 & _).
  - left. reflexivity.
  - reflexivity.
  - reflexivity.
  - exists config. repeat split; assumption.
Defined.

Lemma climate_config_fields_witness :
  exists config,
    pub_payload Samples.hall_config = PJson (JObj config)
    /\ Dict.get "max_temp" config = Some (JNum 30)
    /\ Dict.get "preset_modes" config = Some (JArr [JStr "eco"; JStr "away"]).
Proof.
  destruct (climate_config_fields Samples.env discovery_on [] hall Samples.hall_config)
    as (ns & config & Hn & Hp & H1 & _ & _ & _ & H2).
  - left. reflexivity.
  - reflexivity.
  - reflexivity.
  - injection Hn as <-. exists config. split; [exact Hp|]. split; [exact H1|].
    exact (proj1 (H2 [JStr "none"; JStr "eco"; JStr "away"] eq_refl)).
Defined.

Lemma filtered_entity_silent_witness :
  Forall (fun ep => fst ep <> "switch.plug")
    (run env Samples.no_plug_conf [] [plug; temp "20"; plug]).
Proof.
  apply (filtered_entity_silent env Samples.no_plug_conf "switch.plug" []
           [plug; temp "20"; plug]).
  reflexivity.
Defined.

Lemma snapshot_kept_witness :
  new_state (store (notify env discovery_on [] plug)) = Some switch.
Proof.
  apply (snapshot_kept env discovery_on [] plug).
  left. discriminate.
Defined.

Lemma climate_missing_attribute_witness :
  exists k,
    outcome (notify env discovery_on [] Samples.climate_no_max)
    = inl (KeyError (JStr k))
    /\ In k ["max_temp"; "min_temp"; "hvac_modes"; "preset_modes"]
    /\ conf_published (store (notify env discovery_on [] Samples.climate_no_max)) = [].
Proof.
  destruct (climate_missing_attribute env discovery_on [] Samples.climate_no_max
              (mkState (Some "heat")
                 [("min_temp", JNum 7); ("hvac_modes", JArr [JStr "heat"]);
                  ("preset_modes", JArr [])] None None)
              "hall" [] eq_refl eq_refl eq_refl eq_refl eq_refl
              (or_introl eq_refl))
    as (k & H1 & _ & H2 & _ & H3).
  exists k. split; [exact H1|]. split; [exact H2|]. now rewrite H3.
Defined.

Lemma light_unreadable_color_witness :
  outcome (notify env discovery_on [] (mkNotification "light.lamp" (Some Samples.lamp_short_hs)))
  = inl IndexError
  /\ map pub_site
       (output (notify env discovery_on []
                  (mkNotification "light.lamp" (Some Samples.lamp_short_hs))))
     = [SiteConfig].
Proof.
  destruct (light_unreadable_color env discovery_on []
              (mkNotification "light.lamp" (Some Samples.lamp_short_hs))
              Samples.lamp_short_hs "lamp" [] IndexError
              eq_refl eq_refl eq_refl eq_refl eq_refl) as (H1 & H2 & _).
  split; [exact H1|exact H2].
Defined.

Lemma plain_domain_publishes_witness :
  outcome (notify env discovery_on [] plug) = inr tt
  /\ exists before,
       output (notify env discovery_on [] plug)
       = before ++ [mkPublish SiteState "ha/switch/plug/state" (PText "on") 1 true;
                    mkPublish SiteAvailability "ha/switch/plug/availability"
                      (PText "online") 1 true;
                    mkPublish SiteAttributes "ha/switch/plug/attributes"
                      (PJson (JObj [("icon", JStr "mdi:plug")])) 1 true].
Proof.
  destruct (plain_domain_publishes env discovery_on [] plug switch "switch" "plug" [])
    as (before & Heq & _); try reflexivity; try discriminate.
  - repeat constructor. intros [].
  - rewrite Heq. split; [reflexivity|]. exists before. reflexivity.
Defined.

Lemma entity_id_without_dot_witness :
  outcome (notify env discovery_on [] Samples.no_dot) = inl IndexError
  /\ output (notify env discovery_on [] Samples.no_dot) = [].
Proof.
  destruct (entity_id_without_dot env discovery_on [] Samples.no_dot switch "plug"
              eq_refl eq_refl eq_refl) as (H1 & H2 & _).
  split; [exact H1|]. now apply map_eq_nil in H2.
Defined.

Lemma switch_command_topic_decoded_witness :
  _message_received env (mkMessage "ha/switch/plug/set" "on") tt
  = ([LogDebug "ha/switch/plug/set" "on";
      ServiceCall "switch" "turn_on" [("entity_id", JStr "switch.plug")]],
     tt, inr tt).
Proof.
  apply (switch_command_topic_decoded env discovery_on "ha" "plug" "on");
    try reflexivity. now left.
Defined.

Lemma deep_base_topic_ignored_witness :
  _message_received env (mkMessage "home/ha/switch/plug/set" "on") tt
  = ([LogDebug "home/ha/switch/plug/set" "on"], tt, inr tt).
Proof.
  apply (deep_base_topic_ignored env Samples.deep_conf "home" "ha" "plug" "on");
    try reflexivity; discriminate.
Defined.

Lemma setup_topics_witness :
  let s := async_setup (fun _ _ => true) (fun _ => true) Samples.raw_config in
  base_topic (closure s) = "ha/" /\ discovery_topic (closure s) = "ha/".
Proof.
  cbv zeta.
  destruct (setup_topics (fun _ _ => true) (fun _ => true) Samples.raw_config)
    as (_ & _ & _ & H & _).
  split; [reflexivity|]. rewrite (H (or_intror eq_refl)). reflexivity.
Defined.

Lemma setup_subscriptions_witness :
  setup_effects (async_setup (fun _ _ => true) (fun _ => false) Samples.raw_config)
  = [LogWarning "MQTT Not ready"; TrackStateChange]
  /\ exists text,
       In (LogWarning text)
         (setup_effects (async_setup (fun _ _ => true) (fun _ => false)
                           Samples.raw_config)).
Proof.
  split; [reflexivity|].
  apply (proj1 (proj2 (proj2 (setup_subscriptions (fun _ _ => true) (fun _ => false)
                                Samples.raw_config)))).
  apply (fun (A B : Prop) (a : A) (b : B) => conj a b); [reflexivity|].
  left. reflexivity.
Defined.

Lemma config_device_block_witness :
  exists config,
    pub_payload Samples.plug_config = PJson (JObj config)
    /\ Dict.get "dev" config
       = Some (JObj [("mf", JStr "Acme"); ("name", JStr "Plug");
                     ("ids", JArr [JStr "00:11"])]).
Proof.
  destruct (config_device_block Samples.env discovery_on [] plug Samples.plug_config)
    as (config & Hp & H).
  - left. reflexivity.
  - reflexivity.
  - exists config. split; [exact Hp|].
    cbn in Hp. injection Hp as <-. reflexivity.
Defined.

End MoreExamples.

(** * Calls in flight on sample data *)

Module OverlapExamples.

Import Sample.

(** A thermostat without [preset_modes] is eligible, and yet no discovery
    config is ever published for it: line 234 raises before the publish,
    in every call. *)
Lemma eligible_climate_never_configured :
  publish_discovery discovery_on = true
  /\ publish_filter discovery_on "climate.hall" = true
  /\ n_entity_id Schedules.hall_without_presets = "climate.hall"
  /\ (forall ns, n_new_state Schedules.hall_without_presets = Some ns ->
                 eligible discovery_on "climate" (attributes ns) = true)
  /\ outcome (notify env discovery_on [] Schedules.hall_without_presets)
     = inl (KeyError (JStr "preset_modes"))
  /\ publishes_of "climate.hall" SiteConfig
       (run env discovery_on []
          [Schedules.hall_without_presets; Schedules.hall_without_presets;
           Schedules.hall_without_presets]) = [].
Proof. repeat split. Qed.

(** Two calls for the plug, the second begun while the first waits at line
    288: both find the list without the plug, both publish the config, and
    the plug is appended twice.  The same when the first waits at line 177
    as the second begins. *)
Lemma overlapping_calls_publish_twice :
  exclusive env discovery_on (String.eqb "switch.plug") (mkSystem [] [])
    Schedules.racing = false
  /\ map (fun ep => pub_topic (snd ep))
       (publishes_of "switch.plug" SiteConfig
          (snd (execute env discovery_on (mkSystem [] []) Schedules.racing)))
     = ["ha/switch/plug/config"; "ha/switch/plug/config"]
  /\ fst (execute env discovery_on (mkSystem [] []) Schedules.racing)
     = mkSystem ["switch.plug"; "switch.plug"] []
  /\ map (fun ep => pub_topic (snd ep))
       (publishes_of "switch.plug" SiteConfig
          (snd (execute env Schedules.attributes_on (mkSystem [] [])
                  Schedules.racing)))
     = ["ha/switch/plug/config"; "ha/switch/plug/config"]
  /\ fst (execute env Schedules.attributes_on (mkSystem [] []) Schedules.racing)
     = mkSystem ["switch.plug"; "switch.plug"] [].
Proof. repeat split. Qed.

(** C1 on calls that overlap: the call for the plug begins while that for
    the sensor is in flight, each waits for its attribute publish before
    its check, and a second call for the plug begins later. *)
Lemma config_published_once_without_overlap_witness :
  exists config tr1 tr2,
    let cfg := mkPublish SiteConfig
                 (entity_disc_topic Schedules.attributes_on (n_entity_id plug))
                 (PJson (JObj config)) 1 true in
    snd (execute env Schedules.attributes_on (mkSystem [] [])
           ([Begin (temp "20")] ++ Begin plug :: Schedules.plug_goes_on))
    = tr1 ++ (n_entity_id plug, cfg) :: tr2
    /\ publishes_of (n_entity_id plug) SiteConfig
         (snd (execute env Schedules.attributes_on (mkSystem [] [])
                 ([Begin (temp "20")] ++ Begin plug :: Schedules.plug_goes_on)))
       = [(n_entity_id plug, cfg)]
    /\ publishes_of (n_entity_id plug) SiteState tr1 = []
    /\ mem_string (n_entity_id plug)
         (sys_published
            (fst (execute env Schedules.attributes_on (mkSystem [] [])
                    ([Begin (temp "20")] ++ Begin plug :: Schedules.plug_goes_on))))
       = true.
Proof.
  apply (config_published_once_without_overlap env Schedules.attributes_on
           (mkSystem [] []) [Begin (temp "20")] plug Schedules.plug_goes_on
           switch "switch" "plug" []);
    try reflexivity.
  - repeat constructor.
  - discriminate.
Defined.

Lemma publish_topics_laid_out_witness :
  laid_out discovery_on "switch" "plug" (attributes switch) Samples.plug_config
  /\ pub_qos Samples.plug_config = 1%Z
  /\ pub_retain Samples.plug_config = true.
Proof.
  apply (publish_topics_laid_out Samples.env discovery_on [] plug switch
           "switch" "plug");
    try reflexivity.
  left. reflexivity.
Defined.

Lemma registry_without_duplicates_without_overlap_witness :
  NoDup (sys_published
           (fst (execute env Schedules.attributes_on (mkSystem [] [])
                   Schedules.interleaved))
         ++ map c_entity
              (filter at_publish
                 (sys_pending
                    (fst (execute env Schedules.attributes_on (mkSystem [] [])
                            Schedules.interleaved))))).
Proof.
  apply (registry_without_duplicates_without_overlap env Schedules.attributes_on
           [] Schedules.interleaved).
  - constructor.
  - reflexivity.
Defined.

Lemma config_at_most_once_without_overlap_witness :
  (length (publishes_of "switch.plug" SiteConfig
             (snd (execute env Schedules.attributes_on (mkSystem [] [])
                     Schedules.interleaved))) <= 1)%nat
  /\ held "switch.plug"
       (fst (execute env Schedules.attributes_on (mkSystem [] [])
               Schedules.interleaved))
     = true.
Proof.
  destruct (config_at_most_once_without_overlap env Schedules.attributes_on
              "switch.plug" (mkSystem [] []) Schedules.interleaved)
    as (H1 & _ & H3); [reflexivity|reflexivity|].
  split; [exact H1|]. rewrite H3. reflexivity.
Defined.

End OverlapExamples.
